(** * Market-events pipeline: prompt, response normalizer, deduplicating ingest

    A shallow embedding of the event-generation core of the tracker
    (backend services [ai.service] and [market-events.service]) together
    with the part of the JavaScript runtime those services rely on:
    JSON values and [JSON.parse], truthiness, property reads through the
    prototype chain, the regular expression that cuts the array out of the
    model's answer, and [Date] arithmetic.  The configuration and the two
    providers of [ai.service], the other methods of
    [market-events.service] (single records, updates, deletions, listings)
    and the routes of single records follow.

    Strings are [String.string]s holding the UTF-8 bytes of the text.  The
    program only ever compares strings with ASCII constants, tests them for
    emptiness and searches them for the ASCII brackets, so the byte view and
    the engine's UTF-16 view agree on every decision it takes. *)

From Stdlib Require Import String Ascii List ZArith NArith Bool Lia DecimalString.
From Stdlib Require Import Sorted Permutation DecimalN.
Import ListNotations.

Local Open Scope list_scope.
Local Open Scope string_scope.

(** ** Completions: a computation ends normally or throws *)

Inductive Exception : Type :=
| TypeError                      (* thrown by the runtime *)
| SyntaxError                    (* thrown by JSON.parse; the text is the engine's *)
| Error (message : string)       (* [new Error(message)] *)
| Rethrown (prefix : string) (cause : Exception).
                                 (* [new Error(prefix + cause.message)] *)

Inductive Completion (A : Type) : Type :=
| Normal (a : A)
| Throw (e : Exception).

Arguments Normal {A} a.
Arguments Throw {A} e.

Definition bind {A B : Type} (c : Completion A) (k : A -> Completion B) : Completion B :=
  match c with
  | Normal a => k a
  | Throw e => Throw e
  end.

Notation "x <- c ;; k" := (bind c (fun x => k))
  (at level 61, c at next level, right associativity).

(** String constants of this file write an apostrophe where the text has
    a quote character. *)
Fixpoint dq (s : string) : string :=
  match s with
  | EmptyString => EmptyString
  | String c r => String (if (c =? "'")%char then "034"%char else c) (dq r)
  end.

(** ** The runtime *)

Set Warnings "-register-all".

Module JS.

(** A number literal of a JSON text, kept exactly:
    the value is [(-1)^negative * coefficient * 10^exponent].  The engine
    rounds it to the nearest double. *)
Record Number : Type := { negative : bool; coefficient : N; exponent : Z }.

Inductive Value : Type :=
| Undefined
| Null
| Boolean (b : bool)
| Num (n : Number)
| Str (s : string)
| Array (elements : list Value)
| Object (properties : list (string * Value))
| Builtin (name : string).        (* a function or object the runtime provides *)

(** The double nearest to a decimal is zero exactly when the decimal is at
    most [2^-1075], half the least subnormal (ties go to the even
    significand, which is zero). *)
Definition rounds_to_zero (n : Number) : bool :=
  (coefficient n =? 0)%N
  || ((exponent n <? 0)%Z
      && (Z.of_N (coefficient n) * 2 ^ 1075 <=? 10 ^ (- exponent n))%Z).

Definition ToBoolean (v : Value) : bool :=
  match v with
  | Undefined | Null => false
  | Boolean b => b
  | Num n => negb (rounds_to_zero n)
  | Str s => negb (s =? "")
  | Array _ | Object _ | Builtin _ => true
  end.

(** *** Property reads *)

Fixpoint own_property (props : list (string * Value)) (key : string) : option Value :=
  match props with
  | [] => None
  | (k, v) :: rest => if k =? key then Some v else own_property rest key
  end.

(** [CreateDataProperty]: a repeated key of an object literal overwrites
    the earlier value and keeps its place. *)
Fixpoint define_property (props : list (string * Value)) (key : string) (v : Value)
  : list (string * Value) :=
  match props with
  | [] => [(key, v)]
  | (k, w) :: rest =>
      if k =? key then (k, v) :: rest else (k, w) :: define_property rest key v
  end.

(** What every ordinary object inherits. *)
Definition Object_prototype : list string :=
  [ "constructor"; "__defineGetter__"; "__defineSetter__"; "hasOwnProperty";
    "__lookupGetter__"; "__lookupSetter__"; "isPrototypeOf";
    "propertyIsEnumerable"; "toString"; "valueOf"; "__proto__";
    "toLocaleString" ].

Definition inherited (key : string) : Value :=
  if existsb (String.eqb key) Object_prototype then Builtin key else Undefined.

(** [base[key]] for an ordinary object: own properties first, then
    [Object.prototype]. *)
Definition lookup (props : list (string * Value)) (key : string) : Value :=
  match own_property props key with
  | Some v => v
  | None => inherited key
  end.

(** [base.key].  Reading a property of [null] or [undefined] throws.  On
    strings, numbers, booleans and arrays the read goes to their own
    prototypes; the keys this program reads ([date], [event], [type],
    [description], [significance], [marketSentiment]) name nothing there, so
    the read yields [undefined]. *)
Definition Get (base : Value) (key : string) : Completion Value :=
  match base with
  | Undefined | Null => Throw TypeError
  | Object props => Normal (lookup props key)
  | Boolean _ | Num _ | Str _ | Array _ | Builtin _ => Normal Undefined
  end.

(** [Array.prototype.includes] on an array of string constants:
    SameValueZero never identifies a string with a value of another type. *)
Definition includes (l : list string) (v : Value) : bool :=
  match v with
  | Str s => existsb (String.eqb s) l
  | _ => false
  end.

(** *** Conversion to a property key

    [base[v]] converts [v] with ToPropertyKey, that is ToString for
    everything a JSON text can hold. *)

Definition decimal (n : N) : string := NilZero.string_of_uint (N.to_uint n).

(** [Number::toString].  Exact for the integers a double holds exactly;
    for another number the engine prints the shortest digits that read back
    as the same double (or [Infinity]), while this rendering prints
    coefficient and exponent.  The program uses the string only as a key of
    its synonym table, where neither rendering names anything. *)
Definition Number_toString (n : Number) : string :=
  if rounds_to_zero n then "0"
  else
    (if negative n then "-" else "")
    ++ (if (0 <=? exponent n)%Z
        then decimal (coefficient n * 10 ^ Z.to_N (exponent n))
        else decimal (coefficient n) ++ "e-" ++ decimal (Z.to_N (- exponent n))).

(** An array prints its elements separated by commas, holes of [null] and
    [undefined] as nothing.  An ordinary object prints through
    [Object.prototype.toString] unless an own [toString] property shadows
    it: a parsed value is never callable, and then neither [toString] nor
    [valueOf] gives a primitive, which is a TypeError. *)
Fixpoint ToString (v : Value) : Completion string :=
  match v with
  | Undefined => Normal "undefined"
  | Null => Normal "null"
  | Boolean b => Normal (if b then "true" else "false")
  | Num n => Normal (Number_toString n)
  | Str s => Normal s
  | Array l =>
      (fix join (l : list Value) : Completion string :=
         match l with
         | [] => Normal ""
         | x :: rest =>
             s <- match x with
                  | Undefined | Null => Normal ""
                  | _ => ToString x
                  end ;;
             match rest with
             | [] => Normal s
             | _ :: _ => t <- join rest ;; Normal (s ++ "," ++ t)
             end
         end) l
  | Object props =>
      match own_property props "toString" with
      | Some _ => Throw TypeError
      | None => Normal "[object Object]"
      end
  | Builtin name =>
      Normal (if name =? "__proto__" then "[object Object]"
              else "function " ++ name ++ "() { [native code] }")
  end.

Definition ToPropertyKey : Value -> Completion string := ToString.

(** *** JSON.parse (ECMA-404) *)

Definition is_ws (c : ascii) : bool :=
  ((c =? " ") || (c =? "009") || (c =? "010") || (c =? "013"))%char.

Fixpoint skip_ws (s : string) : string :=
  match s with
  | String c r => if is_ws c then skip_ws r else s
  | EmptyString => s
  end.

Definition is_digit (c : ascii) : bool :=
  ((48 <=? N_of_ascii c) && (N_of_ascii c <=? 57))%N.

Definition digit_value (c : ascii) : N := N_of_ascii c - 48.

(** Reads a run of digits after [acc], counting them. *)
Fixpoint digits (s : string) (acc : N) (count : Z) : N * Z * string :=
  match s with
  | String c r =>
      if is_digit c then digits r (10 * acc + digit_value c) (count + 1)
      else (acc, count, s)
  | EmptyString => (acc, count, s)
  end.

Definition integer_part (s : string) : option (N * string) :=
  match s with
  | String c r =>
      if (c =? "0")%char then Some (0%N, r)
      else if is_digit c then let '(n, _, rest) := digits s 0 0 in Some (n, rest)
      else None
  | EmptyString => None
  end.

Definition fraction_part (int : N) (s : string) : option (N * Z * string) :=
  match s with
  | String "." r =>
      let '(n, count, rest) := digits r int 0 in
      if (count =? 0)%Z then None else Some (n, (- count)%Z, rest)
  | _ => Some (int, 0%Z, s)
  end.

Definition exponent_part (s : string) : option (Z * string) :=
  match s with
  | String c r =>
      if ((c =? "e") || (c =? "E"))%char then
        let '(sign, r1) :=
          match r with
          | String "+" r' => (1%Z, r')
          | String "-" r' => ((-1)%Z, r')
          | _ => (1%Z, r)
          end in
        let '(n, count, rest) := digits r1 0 0 in
        if (count =? 0)%Z then None else Some ((sign * Z.of_N n)%Z, rest)
      else Some (0%Z, s)
  | EmptyString => Some (0%Z, s)
  end.

Definition number (s : string) : option (Number * string) :=
  let '(neg, s1) :=
    match s with
    | String "-" r => (true, r)
    | _ => (false, s)
    end in
  match integer_part s1 with
  | None => None
  | Some (int, s2) =>
      match fraction_part int s2 with
      | None => None
      | Some (coef, scale, s3) =>
          match exponent_part s3 with
          | None => None
          | Some (e, s4) =>
              Some ({| negative := neg; coefficient := coef;
                       exponent := (scale + e)%Z |}, s4)
          end
      end
  end.

Definition hex (c : ascii) : option N :=
  let n := N_of_ascii c in
  if ((48 <=? n) && (n <=? 57))%N then Some (n - 48)%N
  else if ((65 <=? n) && (n <=? 70))%N then Some (n - 55)%N
  else if ((97 <=? n) && (n <=? 102))%N then Some (n - 87)%N
  else None.

Definition hex4 (a b c d : ascii) : option N :=
  match hex a, hex b, hex c, hex d with
  | Some x, Some y, Some z, Some w => Some (((x * 16 + y) * 16 + z) * 16 + w)%N
  | _, _, _, _ => None
  end.

Definition byte (n : N) : ascii := ascii_of_N n.

(** The UTF-8 bytes of a code point (an unpaired surrogate is written the
    same way, on three bytes). *)
Definition utf8 (cp : N) (tail : string) : string :=
  (if cp <? 128 then String (byte cp) tail
   else if cp <? 2048 then
     String (byte (192 + cp / 64)) (String (byte (128 + cp mod 64)) tail)
   else if cp <? 65536 then
     String (byte (224 + cp / 4096))
       (String (byte (128 + (cp / 64) mod 64)) (String (byte (128 + cp mod 64)) tail))
   else
     String (byte (240 + cp / 262144))
       (String (byte (128 + (cp / 4096) mod 64))
          (String (byte (128 + (cp / 64) mod 64))
             (String (byte (128 + cp mod 64)) tail))))%N.

Definition escape (c : ascii) : option ascii :=
  if (c =? "034")%char then Some "034"%char          (* the quote *)
  else if (c =? "092")%char then Some "092"%char     (* the backslash *)
  else if (c =? "/")%char then Some "/"%char
  else if (c =? "b")%char then Some "008"%char
  else if (c =? "f")%char then Some "012"%char
  else if (c =? "n")%char then Some "010"%char
  else if (c =? "r")%char then Some "013"%char
  else if (c =? "t")%char then Some "009"%char
  else None.

(** The low half of a surrogate pair, written as a second escape right
    after the high half [hi]; the result is the code point of the pair. *)
Definition surrogate_pair (hi : N) (b u : ascii) (l1 l2 l3 l4 : ascii) : option N :=
  if ((55296 <=? hi) && (hi <=? 56319))%N && (b =? "092")%char && (u =? "u")%char then
    match hex4 l1 l2 l3 l4 with
    | Some lo =>
        if ((56320 <=? lo) && (lo <=? 57343))%N
        then Some (65536 + (hi - 55296) * 1024 + (lo - 56320))%N
        else None
    | None => None
    end
  else None.

Definition prepend (f : string -> string) (r : option (string * string))
  : option (string * string) :=
  match r with
  | Some (t, rest) => Some (f t, rest)
  | None => None
  end.

(** The characters of a string literal after its opening quote, and the
    text after the closing quote. *)
Fixpoint string_body (s : string) : option (string * string) :=
  match s with
  | EmptyString => None
  | String c r =>
      if (c =? "034")%char then Some ("", r)
      else if (c =? "092")%char then
        match r with
        | String e r1 =>
            match escape e with
            | Some ch => prepend (String ch) (string_body r1)
            | None =>
                if (e =? "u")%char then
                  match r1 with
                  | String h1 (String h2 (String h3 (String h4 r2))) =>
                      match hex4 h1 h2 h3 h4 with
                      | Some hi =>
                          match r2 with
                          | String b (String u (String l1 (String l2
                              (String l3 (String l4 r3))))) =>
                              match surrogate_pair hi b u l1 l2 l3 l4 with
                              | Some cp => prepend (utf8 cp) (string_body r3)
                              | None => prepend (utf8 hi) (string_body r2)
                              end
                          | _ => prepend (utf8 hi) (string_body r2)
                          end
                      | None => None
                      end
                  | _ => None
                  end
                else None
            end
        | EmptyString => None
        end
      else if (N_of_ascii c <? 32)%N then None
      else prepend (String c) (string_body r)
  end.

Definition starts_number (c : ascii) : bool := (c =? "-")%char || is_digit c.

(** Recursive descent; every call consumes input, so fuel twice the length
    of the text is never exhausted. *)
Fixpoint value (fuel : nat) (s : string) : option (Value * string) :=
  match fuel with
  | O => None
  | S fuel =>
      match skip_ws s with
      | String "n" (String "u" (String "l" (String "l" r))) => Some (Null, r)
      | String "t" (String "r" (String "u" (String "e" r))) => Some (Boolean true, r)
      | String "f" (String "a" (String "l" (String "s" (String "e" r)))) =>
          Some (Boolean false, r)
      | String "034" r =>
          match string_body r with
          | Some (str, rest) => Some (Str str, rest)
          | None => None
          end
      | String "[" r =>
          match skip_ws r with
          | String "]" rest => Some (Array [], rest)
          | _ => array_elements fuel r []
          end
      | String "{" r =>
          match skip_ws r with
          | String "}" rest => Some (Object [], rest)
          | _ => object_members fuel r []
          end
      | String c r =>
          if starts_number c then
            match number (String c r) with
            | Some (n, rest) => Some (Num n, rest)
            | None => None
            end
          else None
      | EmptyString => None
      end
  end

with array_elements (fuel : nat) (s : string) (acc : list Value)
  : option (Value * string) :=
  match fuel with
  | O => None
  | S fuel =>
      match value fuel s with
      | Some (v, r) =>
          match skip_ws r with
          | String "," rest => array_elements fuel rest (acc ++ [v])%list
          | String "]" rest => Some (Array (acc ++ [v])%list, rest)
          | _ => None
          end
      | None => None
      end
  end

with object_members (fuel : nat) (s : string) (acc : list (string * Value))
  : option (Value * string) :=
  match fuel with
  | O => None
  | S fuel =>
      match skip_ws s with
      | String "034" r =>
          match string_body r with
          | Some (key, r1) =>
              match skip_ws r1 with
              | String ":" r2 =>
                  match value fuel r2 with
                  | Some (v, r3) =>
                      match skip_ws r3 with
                      | String "," rest =>
                          object_members fuel rest (define_property acc key v)
                      | String "}" rest =>
                          Some (Object (define_property acc key v), rest)
                      | _ => None
                      end
                  | None => None
                  end
              | _ => None
              end
          | None => None
          end
      | _ => None
      end
  end.

(** [JSON.parse text]: one value, white space around it, nothing else.
    [None] stands for the SyntaxError. *)
Definition JSON_parse (text : string) : option Value :=
  match value (2 * String.length text + 2) text with
  | Some (v, rest) =>
      match skip_ws rest with
      | EmptyString => Some v
      | String _ _ => None
      end
  | None => None
  end.

(** *** The regular expression [/\[[\s\S]*\]/]

    [String.prototype.match] returns the leftmost match, and the star is
    greedy: the match starts at the first opening bracket and runs to the
    last closing bracket after it. *)

Fixpoint from_first_open (s : string) : option string :=
  match s with
  | EmptyString => None
  | String c r => if (c =? "[")%char then Some r else from_first_open r
  end.

(** The longest prefix of [s] that ends with a closing bracket. *)
Fixpoint upto_last_close (s : string) : option string :=
  match s with
  | EmptyString => None
  | String c r =>
      match upto_last_close r with
      | Some p => Some (String c p)
      | None => if (c =? "]")%char then Some (String c EmptyString) else None
      end
  end.

Definition match_array (s : string) : option string :=
  match from_first_open s with
  | Some r =>
      match upto_last_close r with
      | Some p => Some (String "[" p)
      | None => None
      end
  | None => None
  end.

(** *** Date

    A Date object holds a time value, the milliseconds since the epoch, at
    most 100,000,000 days away from it; an invalid Date holds NaN.  Numbers
    that may be NaN are [option Z]s. *)

Definition msPerDay : Z := 86400000.
Definition maxTime : Z := 8640000000000000.

Inductive Date : Type :=
| Time (t : Z)
| InvalidDate.

Definition TimeClip (t : Z) : Date :=
  if (Z.abs t <=? maxTime)%Z then Time t else InvalidDate.

Definition Day (t : Z) : Z := (t / msPerDay)%Z.
Definition TimeWithinDay (t : Z) : Z := (t mod msPerDay)%Z.
Definition WeekDay (t : Z) : Z := ((Day t + 4) mod 7)%Z.

(** The proleptic Gregorian date of a day number: year, month (0 is
    January) and day of the month.  Days are counted from 1 March of year 0
    in cycles of 400 years, centuries, 4 years and years, so that the leap
    day ends its cycle. *)
Definition civil_from_days (z : Z) : Z * Z * Z :=
  (let z := z + 719468 in
   let era := z / 146097 in
   let doe := z mod 146097 in
   let c := Z.min (doe / 36524) 3 in
   let r1 := doe - 36524 * c in
   let q := Z.min (r1 / 1461) 24 in
   let r2 := r1 - 1461 * q in
   let a := Z.min (r2 / 365) 3 in
   let doy := r2 - 365 * a in
   let yoe := 100 * c + 4 * q + a in
   let mp := (5 * doy + 2) / 153 in
   let d := doy - (153 * mp + 2) / 5 + 1 in
   let m := if mp <? 10 then mp + 2 else mp - 10 in
   (yoe + era * 400 + (if m <=? 1 then 1 else 0), m, d))%Z.

Definition YearFromTime (t : Z) : Z := fst (fst (civil_from_days (Day t))).
Definition MonthFromTime (t : Z) : Z := snd (fst (civil_from_days (Day t))).
Definition DateFromTime (t : Z) : Z := snd (civil_from_days (Day t)).

(** [MakeDay]: the day number of the first of the month, plus [date - 1];
    a month outside 0..11 carries into the year. *)
Definition MakeDay (year month date : Z) : Z :=
  (let y := year + month / 12 in
   let m := month mod 12 in
   let y := y - (if m <=? 1 then 1 else 0) in
   let era := y / 400 in
   let yoe := y mod 400 in
   let doy := (153 * (if 1 <? m then m - 2 else m + 10) + 2) / 5 in
   let doe := yoe * 365 + yoe / 4 - yoe / 100 + doy in
   era * 146097 + doe - 719468 + date - 1)%Z.

Definition MakeDate (day time : Z) : Z := (day * msPerDay + time)%Z.

Definition monthNames : list string :=
  ["January"; "February"; "March"; "April"; "May"; "June"; "July"; "August";
   "September"; "October"; "November"; "December"].

Section LocalTime.

(** The offset of the host's time zone from UTC, in milliseconds, taken
    constant. *)
Variable LocalTZA : Z.

Definition LocalTime (t : Z) : Z := (t + LocalTZA)%Z.
Definition UTC (t : Z) : Z := (t - LocalTZA)%Z.

Definition getDate (d : Date) : option Z :=
  match d with
  | Time t => Some (DateFromTime (LocalTime t))
  | InvalidDate => None
  end.

Definition getDay (d : Date) : option Z :=
  match d with
  | Time t => Some (WeekDay (LocalTime t))
  | InvalidDate => None
  end.

Definition setDate (d : Date) (date : option Z) : Date :=
  match d, date with
  | Time t, Some dt =>
      let t := LocalTime t in
      TimeClip (UTC (MakeDate (MakeDay (YearFromTime t) (MonthFromTime t) dt)
                              (TimeWithinDay t)))
  | _, _ => InvalidDate
  end.

(** [toLocaleDateString('en-US', {month: 'long', day: 'numeric', year:
    'numeric'})]: the pattern is month name, day, comma, year.  The year
    field is the year of the era (ECMA-402 formats a year [y <= 0] as
    [1 - y]), without grouping. *)
Definition toLocaleDateString (d : Date) : string :=
  match d with
  | Time t =>
      let t := LocalTime t in
      let y := YearFromTime t in
      nth (Z.to_nat (MonthFromTime t)) monthNames ""
      ++ " " ++ decimal (Z.to_N (DateFromTime t)) ++ ", "
      ++ decimal (Z.to_N (if (0 <? y)%Z then y else 1 - y)%Z)
  | InvalidDate => "Invalid Date"
  end.

End LocalTime.

End JS.

(** ** ai.service *)

Module AIService.
Import JS.

Section Host.

Variable LocalTZA : Z.

Definition formatDate : Date -> string := toLocaleDateString LocalTZA.

Definition prompt_head : string := dq
"You are a financial analyst researching CURRENT market-moving events. Use web_search and x_search tools to find real-time information about significant events happening THIS WEEK (".

Definition prompt_tail : string := dq
").

RESEARCH INSTRUCTIONS:
1. Use web_search to find official economic calendars, central bank announcements, corporate earnings, and geopolitical developments
2. Use x_search to check recent Twitter discussions about market-moving events, breaking news, and analyst commentary
3. Focus on events that will actually occur this week - not hypothetical future events
4. Look for specific dates, times, and expected outcomes

EVENT TYPES TO RESEARCH:
- Economic data releases (GDP, inflation, employment, PMI, etc.)
- Central bank meetings, rate decisions, and press conferences
- Corporate earnings reports and guidance
- Geopolitical developments, trade talks, conflicts
- Regulatory announcements and policy changes
- Major conferences, summits, or technological releases
- Market holidays and closures

For each event you find through research, provide:
1. Date (exact date like 'December 1 2025' or date range like 'December 1-3 2025')
2. Event name (official name)
3. Type (descriptive category based on your research)
4. Description & Potential Impact (what it is, when it happens, expected outcomes, market impact)
5. Significance (High, Medium, Low based on historical market impact)
6. Market Sentiment (Bullish, Bearish, Neutral, Mixed based on expected outcome)

Format your response as a valid JSON array. Use the tools to ensure accuracy and timeliness.

Example format:
[
  {
    'date': 'December 1 2025',
    'event': 'US ISM Manufacturing PMI',
    'type': 'Economic',
    'description': 'Manufacturing activity indicator released at 10:00 AM ET. Expected 48.5 vs previous 47.8. Key gauge of US manufacturing health.',
    'significance': 'High',
    'marketSentiment': 'Mixed'
  }
]

Valid event types: 'Economic', 'Fed', 'Crypto', 'Retail/Geopolitical', 'Holiday', 'Geopolitical', 'Corporate'

Generate 10-15 events based on your research findings. Focus on events with confirmed dates this week.".

Definition buildMarketEventsPrompt (targetWeek : Date) : string :=
  let weekEnd := setDate LocalTZA targetWeek
                   (option_map (fun d => d + 6)%Z (getDate LocalTZA targetWeek)) in
  prompt_head ++ formatDate targetWeek ++ " to " ++ formatDate weekEnd ++ prompt_tail.

(** [today] is [new Date()], the reading of the clock. *)
Definition getCurrentWeekStart (today : Date) : Date :=
  setDate LocalTZA today
    match getDate LocalTZA today, getDay LocalTZA today with
    | Some date, Some day => Some (date - day)%Z
    | _, _ => None
    end.

(** The declared type of a candidate.  The fields are copied from a parsed
    JSON value typed [any], so at run time they hold whatever the model
    sent. *)
Record CreateMarketEvent : Type := {
  date : Value;
  event : Value;
  type : Value;
  description : Value;
  significance : Value;
  market_sentiment : Value;
  citations : option (list string)
}.

Definition validSignificance : list string := ["High"; "Medium"; "Low"].
Definition validSentiment : list string := ["Bullish"; "Bearish"; "Neutral"; "Mixed"].
Definition validTypes : list string :=
  ["Economic"; "Fed"; "Crypto"; "Retail/Geopolitical"; "Holiday"; "Geopolitical";
   "Corporate"].

(** The own properties of the object literal [typeMappings]. *)
Definition typeMappings : list (string * Value) :=
  [ ("US Economic Data", Str "Economic");
    ("Economic Data", Str "Economic");
    ("Federal Reserve", Str "Fed");
    ("Fed Meeting", Str "Fed");
    ("FOMC", Str "Fed");
    ("Cryptocurrency", Str "Crypto");
    ("Crypto Event", Str "Crypto");
    ("Retail Sales", Str "Retail/Geopolitical");
    ("Geopolitical Event", Str "Geopolitical");
    ("Holiday", Str "Holiday");
    ("Corporate Earnings", Str "Corporate");
    ("Corporate Event", Str "Corporate") ].

(** [!event.key] *)
Definition missing (event : Value) (key : string) : Completion bool :=
  v <- Get event key ;; Normal (negb (ToBoolean v)).

(** [a || b] on conditions *)
Definition or_else (a b : Completion bool) : Completion bool :=
  x <- a ;; if x then Normal true else b.

Infix "|||" := or_else (at level 50, left associativity).

(** [!l.includes(event.key)] *)
Definition not_included (l : list string) (event : Value) (key : string)
  : Completion bool :=
  v <- Get event key ;; Normal (negb (includes l v)).

Definition normalizeType (event : Value) : Completion Value :=
  t <- Get event "type" ;;
  key <- ToPropertyKey t ;;
  if ToBoolean (lookup typeMappings key) then
    Normal (lookup typeMappings key)
  else if negb (includes validTypes t) then
    Normal (Str "Economic")
  else
    Normal t.

(** One turn of the loop over the parsed array: [continue], or the record
    pushed on [validEvents]. *)
Inductive Turn : Type :=
| Continue
| Push (e : CreateMarketEvent).

Definition turn (citations : list string) (event : Value) : Completion Turn :=
  incomplete <- missing event "date" ||| missing event "event"
                ||| missing event "type" ||| missing event "description"
                ||| missing event "significance"
                ||| missing event "marketSentiment" ;;
  if incomplete then Normal Continue
  else
    invalid <- not_included validSignificance event "significance"
               ||| not_included validSentiment event "marketSentiment" ;;
    if invalid then Normal Continue
    else
      normalizedType <- normalizeType event ;;
      d <- Get event "date" ;;
      e <- Get event "event" ;;
      desc <- Get event "description" ;;
      sig <- Get event "significance" ;;
      sent <- Get event "marketSentiment" ;;
      Normal (Push {| date := d; event := e; type := normalizedType;
                      description := desc; significance := sig;
                      market_sentiment := sent;
                      citations := if (0 <? length citations)%nat
                                   then Some citations else None |}).

(** The [for] loop with its inner [try]: a turn that throws is caught and
    the loop goes on. *)
Fixpoint validate (citations : list string) (events : list Value)
    (validEvents : list CreateMarketEvent) : list CreateMarketEvent :=
  match events with
  | [] => validEvents
  | event :: rest =>
      match turn citations event with
      | Normal (Push e) => validate citations rest (validEvents ++ [e])%list
      | Normal Continue => validate citations rest validEvents
      | Throw _ => validate citations rest validEvents
      end
  end.

Definition rethrow {A : Type} (prefix : string) (c : Completion A) : Completion A :=
  match c with
  | Normal a => Normal a
  | Throw e => Throw (Rethrown prefix e)
  end.

Definition parseAIResponse (response : string) (citations : list string)
  : Completion (list CreateMarketEvent) :=
  rethrow "Failed to parse AI response: "
    match match_array response with
    | None => Throw (Error "No JSON array found in AI response")
    | Some jsonMatch =>
        match JSON_parse jsonMatch with
        | None => Throw SyntaxError
        | Some (Array events) =>
            let validEvents := validate citations events [] in
            if (length validEvents =? 0)%nat
            then Throw (Error "No valid events found in AI response")
            else Normal validEvents
        | Some _ => Throw (Error "AI response is not a valid array")
        end
    end.

(** The provider call is the network's; it hands back the text and the
    citations, or throws. *)
Variable callAI : string -> Completion (string * list string).

Definition generateWeeklyMarketEvents (today : Date) (weekStart : option Date)
  : Completion (list CreateMarketEvent) :=
  let targetWeek :=
    match weekStart with
    | Some d => d
    | None => getCurrentWeekStart today
    end in
  rethrow "Failed to generate market events: "
    (let prompt := buildMarketEventsPrompt targetWeek in
     r <- callAI prompt ;;
     parseAIResponse (fst r) (snd r)).

End Host.

End AIService.

(** ** market-events.service *)

Module MarketEventsService.

(** The declared types of [types/market-event]: three enumerations and
    free text. *)
Inductive EventType : Type :=
| Economic | Fed | Crypto | Retail_Geopolitical | Holiday | Geopolitical | Corporate.

Inductive Significance : Type := High | Medium | Low.

Inductive Sentiment : Type := Bullish | Bearish | Neutral | Mixed.

Record CreateMarketEvent : Type := {
  date : string;
  event : string;
  type : EventType;
  description : string;
  significance : Significance;
  market_sentiment : Sentiment;
  citations : option (list string)
}.

(** A row of the table: the candidate's fields and what the store adds. *)
Record MarketEvent : Type := {
  id : nat;
  fields : CreateMarketEvent;
  created_at : Z;
  updated_at : Z
}.

(** *** The store

    The table [market_events] as the repository's schema declares it: a
    generated primary key, the checked enumerations, four plain indexes and
    no uniqueness constraint on (event, date).  A request to the service
    can fail on its own; [failures] lists what happens to the coming
    requests, in order, [None] for a request that is served (every request
    once the list is used up). *)

Inductive Failure : Type :=
| ErrorResponse (code message : string)   (* the response carries [error] *)
| Rejection (e : Exception).              (* the awaited promise rejects *)

Record Supabase : Type := {
  market_events : list MarketEvent;
  failures : list (option Failure);
  next_id : nat;
  now : Z
}.

Inductive Outcome (A : Type) : Type :=
| Data (data : A)
| Failed (f : Failure).

Arguments Data {A} data.
Arguments Failed {A} f.

Definition request (db : Supabase) : option Failure * Supabase :=
  match failures db with
  | [] => (None, db)
  | f :: rest =>
      (f, {| market_events := market_events db; failures := rest;
             next_id := next_id db; now := now db |})
  end.

Definition matches (ev dt : string) (row : MarketEvent) : bool :=
  (event (fields row) =? ev) && (date (fields row) =? dt).

(** [.select('*').eq('event', ev).eq('date', dt).single()]: the row when
    exactly one row passes the filters, the error PGRST116 when none or
    several do. *)
Definition select_single (db : Supabase) (ev dt : string)
  : Outcome MarketEvent * Supabase :=
  let (failure, db) := request db in
  match failure with
  | Some f => (Failed f, db)
  | None =>
      match filter (matches ev dt) (market_events db) with
      | [row] => (Data row, db)
      | _ => (Failed (ErrorResponse "PGRST116"
                        "JSON object requested, multiple (or no) rows returned"), db)
      end
  end.

Fixpoint number_rows (first : nat) (time : Z) (l : list CreateMarketEvent)
  : list MarketEvent :=
  match l with
  | [] => []
  | c :: rest =>
      {| id := first; fields := c; created_at := time; updated_at := time |}
      :: number_rows (S first) time rest
  end.

(** [.insert(rows).select()]: one statement, all rows or none. *)
Definition insert (db : Supabase) (rows : list CreateMarketEvent)
  : Outcome (list MarketEvent) * Supabase :=
  let (failure, db) := request db in
  match failure with
  | Some f => (Failed f, db)
  | None =>
      let created := number_rows (next_id db) (now db) rows in
      (Data created,
       {| market_events := (market_events db ++ created)%list;
          failures := failures db;
          next_id := next_id db + length rows;
          now := now db |})
  end.

(** *** The service *)

Definition findExistingEvent (db : Supabase) (eventData : CreateMarketEvent)
  : option MarketEvent * Supabase :=
  let (outcome, db) := select_single db (event eventData) (date eventData) in
  match outcome with
  | Data data => (Some data, db)
  | Failed (ErrorResponse code _) =>
      if code =? "PGRST116" then (None, db)     (* Not found *)
      else (None, db)                           (* Assume not found on error *)
  | Failed (Rejection _) => (None, db)
  end.

(** The loop of [createEvents] over [uniqueEvents] and [skippedCount]. *)
Fixpoint checkDuplicates (db : Supabase) (eventsData : list CreateMarketEvent)
    (uniqueEvents : list CreateMarketEvent) (skippedCount : nat)
  : list CreateMarketEvent * nat * Supabase :=
  match eventsData with
  | [] => (uniqueEvents, skippedCount, db)
  | eventData :: rest =>
      let (existingEvent, db) := findExistingEvent db eventData in
      match existingEvent with
      | Some _ => checkDuplicates db rest uniqueEvents (S skippedCount)
      | None => checkDuplicates db rest (uniqueEvents ++ [eventData])%list skippedCount
      end
  end.

Record Created : Type := { created : list MarketEvent; skipped : nat }.

Definition createEvents (db : Supabase) (eventsData : list CreateMarketEvent)
  : Completion Created * Supabase :=
  let '(uniqueEvents, skippedCount, db) := checkDuplicates db eventsData [] 0 in
  if (length uniqueEvents =? 0)%nat then
    (Normal {| created := []; skipped := skippedCount |}, db)
  else
    let (outcome, db) := insert db uniqueEvents in
    match outcome with
    | Data data => (Normal {| created := data; skipped := skippedCount |}, db)
    | Failed (ErrorResponse _ message) =>
        (Throw (Error ("Failed to create market events: " ++ message)), db)
    | Failed (Rejection e) => (Throw e, db)
    end.

End MarketEventsService.

(** ** Text predicates used by the statements *)

(** [sub] occurs in [s]. *)
Definition occurs (sub s : string) : Prop := exists a b, s = a ++ sub ++ b.

Fixpoint starts_with (p s : string) : bool :=
  match p, s with
  | EmptyString, _ => true
  | String c p', String d s' => (c =? d)%char && starts_with p' s'
  | String _ _, EmptyString => false
  end.

Fixpoint contains (sub s : string) : bool :=
  starts_with sub s
  || match s with
     | EmptyString => false
     | String _ r => contains sub r
     end.

(** The text has no opening bracket followed, anywhere later, by a closing
    bracket. *)
Definition no_span (s : string) : Prop :=
  forall a b c, s <> a ++ "[" ++ b ++ "]" ++ c.

(** What one element of the parsed array contributes to the result. *)
Definition pushed (citations : list string) (e : JS.Value)
  : list AIService.CreateMarketEvent :=
  match AIService.turn citations e with
  | Normal (AIService.Push ev) => [ev]
  | _ => []
  end.

(** The surviving subset, in the order of the array. *)
Definition survivors (citations : list string) (events : list JS.Value)
  : list AIService.CreateMarketEvent :=
  flat_map (pushed citations) events.

(** The element is rejected by the per-element validation. *)
Definition rejected (citations : list string) (e : JS.Value) : Prop :=
  pushed citations e = [].

Definition required_fields : list string :=
  ["date"; "event"; "type"; "description"; "significance"; "marketSentiment"].

(** The element has no field [key], or an empty one. *)
Definition absent_or_empty (e : JS.Value) (key : string) : Prop :=
  match JS.Get e key with
  | Normal v => v = JS.Undefined \/ v = JS.Null \/ v = JS.Str ""
  | Throw _ => True
  end.

(** The field [key] of the element is one of the strings of [l], compared
    character by character. *)
Definition field_in (e : JS.Value) (key : string) (l : list string) : Prop :=
  exists s, In s l /\ JS.Get e key = Normal (JS.Str s).

Definition is_one_of (l : list string) (v : JS.Value) : Prop :=
  exists s, In s l /\ v = JS.Str s.

Definition canonical_types : list string :=
  ["Economic"; "Fed"; "Crypto"; "Retail/Geopolitical"; "Holiday"; "Geopolitical";
   "Corporate"].

(** The property key under which the element's type is looked up in the
    synonym table. *)
Definition type_key (e : JS.Value) : Completion string :=
  t <- JS.Get e "type" ;; JS.ToPropertyKey t.

(** The text holds, somewhere, a syntactically valid JSON array with the
    elements [arr]. *)
Definition contains_json_array (content : string) (arr : list JS.Value) : Prop :=
  exists text, occurs text content /\ JS.JSON_parse text = Some (JS.Array arr).

Definition no_valid_events : Exception :=
  Rethrown "Failed to parse AI response: "
    (Error "No valid events found in AI response").

(** ** Sample data *)

Module Sample.

(** A complete candidate, as the parser builds it. *)
Definition pmi (type significance : string) : JS.Value :=
  JS.Object
    [ ("date", JS.Str "December 1 2025");
      ("event", JS.Str "ISM PMI");
      ("type", JS.Str type);
      ("description", JS.Str "Manufacturing activity indicator");
      ("significance", JS.Str significance);
      ("marketSentiment", JS.Str "Mixed") ].

(** The same candidate without its significance. *)
Definition unrated : JS.Value :=
  JS.Object
    [ ("date", JS.Str "December 1 2025");
      ("event", JS.Str "ISM PMI");
      ("type", JS.Str "Economic");
      ("description", JS.Str "Manufacturing activity indicator");
      ("marketSentiment", JS.Str "Mixed") ].

Definition pmi_text (type significance : string) : string :=
  dq "{'date':'December 1 2025','event':'ISM PMI','type':'" ++ type
  ++ dq "','description':'Manufacturing activity indicator','significance':'"
  ++ significance ++ dq "','marketSentiment':'Mixed'}".

Definition normalized (type : JS.Value) (citations : option (list string))
  : AIService.CreateMarketEvent :=
  {| AIService.date := JS.Str "December 1 2025";
     AIService.event := JS.Str "ISM PMI";
     AIService.type := type;
     AIService.description := JS.Str "Manufacturing activity indicator";
     AIService.significance := JS.Str "High";
     AIService.market_sentiment := JS.Str "Mixed";
     AIService.citations := citations |}.

(** An answer with commentary around the array: the first element has an
    unlisted significance, the second an unknown type. *)
Definition span : string :=
  "[" ++ pmi_text "FOMC" "Extreme" ++ ", " ++ pmi_text "Weather Event" "High" ++ "]".

Definition response : string := "This week: " ++ span ++ " as researched.".

Definition events : list JS.Value :=
  [pmi "FOMC" "Extreme"; pmi "Weather Event" "High"].

(** An answer that cites its source after the array. *)
Definition cited_answer : string :=
  "[" ++ pmi_text "Economic" "High" ++ "] Sources: [1]".

(** Two candidates with the same event and date, described differently. *)
Definition first : MarketEventsService.CreateMarketEvent :=
  {| MarketEventsService.date := "December 1 2025";
     MarketEventsService.event := "ISM PMI";
     MarketEventsService.type := MarketEventsService.Economic;
     MarketEventsService.description := "Manufacturing activity indicator";
     MarketEventsService.significance := MarketEventsService.High;
     MarketEventsService.market_sentiment := MarketEventsService.Mixed;
     MarketEventsService.citations := Some ["https://example.com"] |}.

Definition second : MarketEventsService.CreateMarketEvent :=
  {| MarketEventsService.date := "December 1 2025";
     MarketEventsService.event := "ISM PMI";
     MarketEventsService.type := MarketEventsService.Economic;
     MarketEventsService.description := "Purchasing managers survey";
     MarketEventsService.significance := MarketEventsService.Medium;
     MarketEventsService.market_sentiment := MarketEventsService.Neutral;
     MarketEventsService.citations := None |}.

Definition row (n : nat) (c : MarketEventsService.CreateMarketEvent)
  : MarketEventsService.MarketEvent :=
  {| MarketEventsService.id := n; MarketEventsService.fields := c;
     MarketEventsService.created_at := 0; MarketEventsService.updated_at := 0 |}.

Definition store (rows : list MarketEventsService.MarketEvent)
    (failures : list (option MarketEventsService.Failure))
  : MarketEventsService.Supabase :=
  {| MarketEventsService.market_events := rows;
     MarketEventsService.failures := failures;
     MarketEventsService.next_id := length rows;
     MarketEventsService.now := 0 |}.

End Sample.

(** The store after [n] requests that wrote nothing. *)
Definition after_requests (n : nat) (db : MarketEventsService.Supabase)
  : MarketEventsService.Supabase :=
  {| MarketEventsService.market_events := MarketEventsService.market_events db;
     MarketEventsService.failures := skipn n (MarketEventsService.failures db);
     MarketEventsService.next_id := MarketEventsService.next_id db;
     MarketEventsService.now := MarketEventsService.now db |}.

(** The coming [n] requests are served. *)
Definition served (n : nat) (db : MarketEventsService.Supabase) : Prop :=
  Forall (fun f => f = None) (firstn n (MarketEventsService.failures db)).

(** The table holds exactly one row with the event and date of [c]. *)
Definition held_once (db : MarketEventsService.Supabase)
    (c : MarketEventsService.CreateMarketEvent) : Prop :=
  exists row,
    filter (MarketEventsService.matches (MarketEventsService.event c)
              (MarketEventsService.date c))
      (MarketEventsService.market_events db) = [row].

(** The long form of a date: month name, day, comma, year. *)
Definition long_date (ymd : Z * Z * Z) : string :=
  let '(y, m, d) := ymd in
  nth (Z.to_nat m) JS.monthNames ""
  ++ " " ++ JS.decimal (Z.to_N d) ++ ", "
  ++ JS.decimal (Z.to_N (if (0 <? y)%Z then y else 1 - y)%Z).

(** ** ai.service: configuration and providers *)

Module AIProviders.
Import JS.

(** [process.env]: a variable holds a string or is not set. *)
Record Env : Type := {
  AI_PROVIDER : option string;
  AI_API_KEY : option string;
  AI_MODEL : option string
}.

Record AIConfig : Type := { provider : string; apiKey : string; model : string }.

(** The service object: its configuration, and whether it holds a client
    of the Gemini library. *)
Record Service : Type := { config : AIConfig; geminiClient : bool }.

(** [value || fallback] *)
Definition or_default (value : option string) (fallback : string) : string :=
  match value with
  | Some (String c r) => String c r
  | _ => fallback
  end.

(** Loading the Gemini library and creating its client are taken to
    succeed. *)
Definition constructor (env : Env) : Completion Service :=
  let provider := or_default (AI_PROVIDER env) "xai" in
  match AI_API_KEY env with
  | Some (String c r) =>
      Normal {| config := {| provider := provider;
                             apiKey := String c r;
                             model := or_default (AI_MODEL env) "grok-4-fast" |};
                geminiClient := provider =? "gemini" |}
  | _ => Throw (Error ("Missing API key for AI provider: " ++ provider))
  end.

(** What [callGrok] sends. *)
Record Request : Type := {
  url : string;
  method : string;
  headers : list (string * string);
  body_model : string;
  body_input : list (string * string);     (* role and content *)
  body_tools : list string
}.

Record Response : Type := {
  ok : bool;
  status : N;
  statusText : string;
  json : Completion Value                  (* [await response.json()] *)
}.

Definition request (config : AIConfig) (prompt : string) : Request :=
  {| url := "https://api.x.ai/v1" ++ "/responses";
     method := "POST";
     headers := [("Content-Type", "application/json");
                 ("Authorization", "Bearer " ++ apiKey config)];
     body_model := or_default (Some (model config)) "grok-4-fast";
     body_input :=
       [("system", "You are a financial analyst specializing in market-moving events. Use the available tools to research current market events and provide accurate, timely information.");
        ("user", prompt)];
     body_tools := ["web_search"; "x_search"] |}.

(** [v === s] for a string [s] *)
Definition is_string (v : Value) (s : string) : bool :=
  match v with
  | Str x => x =? s
  | _ => false
  end.

(** [base?.key] *)
Definition optional_get (base : Value) (key : string) : Completion Value :=
  match base with
  | Undefined | Null => Normal Undefined
  | _ => Get base key
  end.

(** [base?.[0]].  Of a string it is the first character, on which the
    program reads [text] and [annotations] only, both undefined. *)
Definition first_element (base : Value) : Value :=
  match base with
  | Array items => nth 0 items Undefined
  | Object props => lookup props "0"
  | Str (String c _) => Str (String c "")
  | _ => Undefined
  end.

(** [base?.method(...)] for a method that arrays have and nothing else a
    JSON text holds: calling it on another value is a TypeError. *)
Definition optional_array_call {A : Type} (base : Value)
    (method : list Value -> Completion A) (absent : A) : Completion A :=
  match base with
  | Undefined | Null => Normal absent
  | Array items => method items
  | _ => Throw TypeError
  end.

(** [find((item) => item.type === 'message' && item.content)] *)
Fixpoint find_message (items : list Value) : Completion Value :=
  match items with
  | [] => Normal Undefined
  | item :: rest =>
      type <- Get item "type" ;;
      if is_string type "message" then
        content <- Get item "content" ;;
        if ToBoolean content then Normal item else find_message rest
      else find_message rest
  end.

(** [filter((ann) => ann.type === 'url_citation')] *)
Fixpoint url_citations (annotations : list Value) : Completion (list Value) :=
  match annotations with
  | [] => Normal []
  | ann :: rest =>
      type <- Get ann "type" ;;
      kept <- url_citations rest ;;
      Normal (if is_string type "url_citation" then ann :: kept else kept)
  end.

(** [map((ann) => ann.url)] *)
Fixpoint urls (annotations : list Value) : Completion (list Value) :=
  match annotations with
  | [] => Normal []
  | ann :: rest =>
      url <- Get ann "url" ;;
      tail <- urls rest ;;
      Normal (url :: tail)
  end.

Section Network.

(** The Gemini library: [getGenerativeModel({ model })], then
    [generateContent(prompt)] and the text of its response. *)
Variable generateContent : string -> string -> Completion string.

Variable fetch : Request -> Completion Response.

Definition callGemini (service : Service) (prompt : string) : Completion string :=
  if negb (geminiClient service) then Throw (Error "Gemini client not initialized")
  else
    text <- generateContent
              (or_default (Some (model (config service))) "gemini-1.5-pro-latest")
              prompt ;;
    if text =? "" then Throw (Error "Empty response from Gemini")
    else Normal text.

(** The content and the citations are typed [any]: they are what the
    answer of the provider holds. *)
Definition callGrok (config : AIConfig) (prompt : string)
  : Completion (Value * list Value) :=
  response <- fetch (request config prompt) ;;
  if negb (ok response) then
    Throw (Error ("xAI API error: " ++ decimal (status response) ++ " "
                  ++ statusText response))
  else
    data <- json response ;;
    output <- Get data "output" ;;
    message <- optional_array_call output find_message Undefined ;;
    messageContent <- optional_get message "content" ;;
    text <- optional_get (first_element messageContent) "text" ;;
    let content := if ToBoolean text then text else Str "" in
    if negb (ToBoolean content) then Throw (Error "No content received from xAI")
    else
      annotations <- optional_get (first_element messageContent) "annotations" ;;
      citations <- optional_array_call annotations
                     (fun items => kept <- url_citations items ;; urls kept) [] ;;
      Normal (content, citations).

Definition callAI (service : Service) (prompt : string)
  : Completion (Value * list Value) :=
  let provider := provider (config service) in
  if provider =? "gemini" then
    geminiContent <- callGemini service prompt ;;
    Normal (Str geminiContent, [])
  else if (provider =? "grok") || (provider =? "xai") then
    callGrok (config service) prompt
  else Throw (Error ("Unsupported AI provider: " ++ provider)).

End Network.

End AIProviders.

(** The item is passed over by the search for the message. *)
Definition passed_over (item : JS.Value) : Prop :=
  exists props,
    item = JS.Object props
    /\ (AIProviders.is_string (JS.lookup props "type") "message"
        && JS.ToBoolean (JS.lookup props "content")) = false.

(** The urls of the annotations of type [url_citation], in their order. *)
Definition cited (annotations : list (list (string * JS.Value))) : list JS.Value :=
  map (fun props => JS.lookup props "url")
    (filter (fun props => AIProviders.is_string (JS.lookup props "type") "url_citation")
       annotations).

(** An answer of the provider: a reasoning item, a message of two parts
    with three annotations, and a second message. *)
Definition grok_answer : JS.Value :=
  JS.Object
    [("id", JS.Str "resp_1");
     ("output",
      JS.Array
        [JS.Object [("type", JS.Str "reasoning"); ("content", JS.Array [])];
         JS.Object
           [("type", JS.Str "message");
            ("content",
             JS.Array
               [JS.Object
                  [("type", JS.Str "output_text");
                   ("text", JS.Str "[1] see the calendar");
                   ("annotations",
                    JS.Array
                      [JS.Object [("type", JS.Str "url_citation");
                                  ("url", JS.Str "https://a.example")];
                       JS.Object [("type", JS.Str "file_citation");
                                  ("url", JS.Str "https://b.example")];
                       JS.Object [("type", JS.Str "url_citation");
                                  ("url", JS.Str "https://c.example")]])];
                JS.Object [("type", JS.Str "output_text");
                           ("text", JS.Str "second part")]])];
         JS.Object [("type", JS.Str "message");
                    ("content", JS.Array [JS.Object [("text", JS.Str "later")]])]])].

Definition answering (data : JS.Value) (_ : AIProviders.Request)
  : Completion AIProviders.Response :=
  Normal {| AIProviders.ok := true; AIProviders.status := 200;
            AIProviders.statusText := "OK"; AIProviders.json := Normal data |}.

(** ** market-events.service: single records, updates and deletions *)

Module MarketEventsRecords.
Import MarketEventsService.

(** The primary key of a row is a generated UUID; the rows are numbered
    here in the order of their creation, and a key passed to a method is
    the number of a well-formed UUID. *)
Definition has_id (key : nat) (row : MarketEvent) : bool := (id row =? key)%nat.

Definition with_rows (db : Supabase) (rows : list MarketEvent) : Supabase :=
  {| market_events := rows; failures := failures db;
     next_id := next_id db; now := now db |}.

(** [.single()]: the row when the result has exactly one, the error
    PGRST116 otherwise. *)
Definition single {A : Type} (rows : list A) : Outcome A :=
  match rows with
  | [row] => Data row
  | _ => Failed (ErrorResponse "PGRST116"
                   "JSON object requested, multiple (or no) rows returned")
  end.

(** [.select('*').eq('id', key).single()] *)
Definition select_by_id (db : Supabase) (key : nat)
  : Outcome MarketEvent * Supabase :=
  let (failure, db) := request db in
  match failure with
  | Some f => (Failed f, db)
  | None => (single (filter (has_id key) (market_events db)), db)
  end.

Definition getEventById (db : Supabase) (key : nat)
  : Completion (option MarketEvent) * Supabase :=
  let (outcome, db) := select_by_id db key in
  match outcome with
  | Data data => (Normal (Some data), db)
  | Failed (ErrorResponse code message) =>
      if code =? "PGRST116" then (Normal None, db)     (* Not found *)
      else (Throw (Error ("Failed to fetch market event: " ++ message)), db)
  | Failed (Rejection e) => (Throw e, db)
  end.

(** [.insert([eventData]).select().single()] *)
Definition createEvent (db : Supabase) (eventData : CreateMarketEvent)
  : Completion MarketEvent * Supabase :=
  let (outcome, db) := insert db [eventData] in
  match match outcome with
        | Data rows => single rows
        | Failed f => Failed f
        end with
  | Data data => (Normal data, db)
  | Failed (ErrorResponse _ message) =>
      (Throw (Error ("Failed to create market event: " ++ message)), db)
  | Failed (Rejection e) => (Throw e, db)
  end.

(** [UpdateMarketEvent], the partial candidate as declared: a field is
    given or left out. *)
Module Partial.

Record UpdateMarketEvent : Type := {
  date : option string;
  event : option string;
  type : option EventType;
  description : option string;
  significance : option Significance;
  market_sentiment : option Sentiment;
  citations : option (list string)
}.

Definition given {A : Type} (field : option A) : bool :=
  match field with
  | Some _ => true
  | None => false
  end.

Definition is_empty (updates : UpdateMarketEvent) : bool :=
  negb (given (date updates) || given (event updates) || given (type updates)
        || given (description updates) || given (significance updates)
        || given (market_sentiment updates) || given (citations updates)).

End Partial.

Definition or_keep {A : Type} (new : option A) (old : A) : A :=
  match new with
  | Some v => v
  | None => old
  end.

Definition assign (updates : Partial.UpdateMarketEvent) (c : CreateMarketEvent)
  : CreateMarketEvent :=
  {| date := or_keep (Partial.date updates) (date c);
     event := or_keep (Partial.event updates) (event c);
     type := or_keep (Partial.type updates) (type c);
     description := or_keep (Partial.description updates) (description c);
     significance := or_keep (Partial.significance updates) (significance c);
     market_sentiment := or_keep (Partial.market_sentiment updates) (market_sentiment c);
     citations := match Partial.citations updates with
                  | Some l => Some l
                  | None => citations c
                  end |}.

(** The updated row; the trigger of the schema stamps [updated_at]. *)
Definition patch (updates : Partial.UpdateMarketEvent) (time : Z) (row : MarketEvent)
  : MarketEvent :=
  {| id := id row; fields := assign updates (fields row);
     created_at := created_at row; updated_at := time |}.

(** [.update(updates).eq('id', key).select().single()].  A body without
    columns changes and returns no row; [single] refuses a result that is
    not one row, and the statement is then rolled back. *)
Definition update_by_id (db : Supabase) (key : nat)
    (updates : Partial.UpdateMarketEvent) : Outcome MarketEvent * Supabase :=
  let (failure, db) := request db in
  match failure with
  | Some f => (Failed f, db)
  | None =>
      let hit := if Partial.is_empty updates then []
                 else filter (has_id key) (market_events db) in
      match single (map (patch updates (now db)) hit) with
      | Data row =>
          (Data row,
           with_rows db
             (map (fun r => if has_id key r then patch updates (now db) r else r)
                (market_events db)))
      | Failed f => (Failed f, db)
      end
  end.

Definition updateEvent (db : Supabase) (key : nat)
    (updates : Partial.UpdateMarketEvent)
  : Completion (option MarketEvent) * Supabase :=
  let (outcome, db) := update_by_id db key updates in
  match outcome with
  | Data data => (Normal (Some data), db)
  | Failed (ErrorResponse code message) =>
      if code =? "PGRST116" then (Normal None, db)     (* Not found *)
      else (Throw (Error ("Failed to update market event: " ++ message)), db)
  | Failed (Rejection e) => (Throw e, db)
  end.

(** [.delete()] with a filter, optionally [.select('id')]: the rows that
    pass the filter leave the table and are the result. *)
Definition delete_where (db : Supabase) (condition : MarketEvent -> bool)
  : Outcome (list MarketEvent) * Supabase :=
  let (failure, db) := request db in
  match failure with
  | Some f => (Failed f, db)
  | None =>
      (Data (filter condition (market_events db)),
       with_rows db (filter (fun r => negb (condition r)) (market_events db)))
  end.


(** The filter [.neq('id', '00000000-0000-0000-0000-000000000000')] holds
    of every row: no generated key is the nil UUID. *)
Definition deleteAllEvents (db : Supabase) : Completion nat * Supabase :=
  let (outcome, db) := delete_where db (fun _ => true) in
  match outcome with
  | Data data => (Normal (length data), db)
  | Failed (ErrorResponse _ message) =>
      (Throw (Error ("Failed to delete market events: " ++ message)), db)
  | Failed (Rejection e) => (Throw e, db)
  end.

Section Host.

Variable LocalTZA : Z.

(** [today] is [new Date()]; the time stamps of the table are time values
    like those of Date.  [toISOString] throws a RangeError, with the
    message below, on an invalid Date, before any request is sent. *)
Definition deleteOldEvents (db : Supabase) (today : JS.Date) (daysOld : Z)
  : Completion nat * Supabase :=
  let cutoffDate :=
    JS.setDate LocalTZA today
      (option_map (fun d => d - daysOld)%Z (JS.getDate LocalTZA today)) in
  match cutoffDate with
  | JS.InvalidDate => (Throw (Error "Invalid time value"), db)
  | JS.Time cutoff =>
      let (outcome, db) := delete_where db (fun r => (created_at r <? cutoff)%Z) in
      match outcome with
      | Data data => (Normal (length data), db)
      | Failed (ErrorResponse _ message) =>
          (Throw (Error ("Failed to delete old market events: " ++ message)), db)
      | Failed (Rejection e) => (Throw e, db)
      end
  end.

End Host.

(** *** The routes of single records

    The status of the answer of [GET /:id] and [DELETE /:id] of
    [routes/market-events]; the path parameter of a matched route is not
    empty, so the check of the key passes. *)



End MarketEventsRecords.

(** ** market-events.service: listings *)

Module MarketEventsQueries.
Import MarketEventsService.

(** The text of the enumerated columns. *)
Definition type_name (t : EventType) : string :=
  match t with
  | Economic => "Economic"
  | Fed => "Fed"
  | Crypto => "Crypto"
  | Retail_Geopolitical => "Retail/Geopolitical"
  | Holiday => "Holiday"
  | Geopolitical => "Geopolitical"
  | Corporate => "Corporate"
  end.

Definition significance_name (s : Significance) : string :=
  match s with
  | High => "High"
  | Medium => "Medium"
  | Low => "Low"
  end.

(** The options of [getEvents].  A number is a natural number, or
    [None] when left out or NaN. *)
Module Options.

Record Options : Type := {
  limit : option nat;
  offset : option nat;
  type : option string;
  significance : option string;
  date : option string
}.

End Options.

(** [.order('created_at', { ascending: false })]: the newest row first;
    rows created at the same time are left in the order of the table (the
    service leaves their order open). *)
Fixpoint place (row : MarketEvent) (sorted : list MarketEvent) : list MarketEvent :=
  match sorted with
  | [] => [row]
  | x :: rest =>
      if (created_at x <=? created_at row)%Z then row :: sorted
      else x :: place row rest
  end.

Definition newest_first (rows : list MarketEvent) : list MarketEvent :=
  fold_right place [] rows.

(** A number that is truthy: not left out, not NaN, not 0. *)
Definition positive (n : option nat) : option nat :=
  match n with
  | Some (S k) => Some (S k)
  | _ => None
  end.

(** A string that is truthy. *)
Definition nonempty (s : option string) : option string :=
  match s with
  | Some (String c r) => Some (String c r)
  | _ => None
  end.

(** [option && option !== 'All'] *)
Definition chosen (s : option string) : option string :=
  match nonempty s with
  | Some v => if v =? "All" then None else Some v
  | None => None
  end.

Record Page : Type := { events : list MarketEvent; total : nat }.

Section Service.

(** The operator ILIKE of the database: [ilike text pattern]. *)
Variable ilike : string -> string -> bool.

(** The filters that the options add to the query. *)
Definition passes (options : Options.Options) (row : MarketEvent) : bool :=
  match chosen (Options.type options) with
  | Some t => type_name (type (fields row)) =? t
  | None => true
  end
  && match chosen (Options.significance options) with
     | Some s => significance_name (significance (fields row)) =? s
     | None => true
     end
  && match nonempty (Options.date options) with
     | Some d => ilike (date (fields row)) ("%" ++ d ++ "%")
     | None => true
     end.

(** The query of [getEvents], with the exact count of the rows that pass
    the filters.  [.limit(n)] sets the limit; [.range(from, to)] sets the
    offset [from] and the limit [to - from + 1].  The service refuses an
    offset beyond the count with the error PGRST103, and is taken to put
    no cap of its own on the rows of an answer. *)
Definition select_page (db : Supabase) (options : Options.Options)
  : Outcome Page * Supabase :=
  let (failure, db) := request db in
  match failure with
  | Some f => (Failed f, db)
  | None =>
      let matching := filter (passes options) (newest_first (market_events db)) in
      let limit := positive (Options.limit options) in
      let range :=
        match positive (Options.offset options) with
        | Some offset =>
            Some (offset, offset + match limit with Some l => l | None => 10 end - 1)
        | None => None
        end in
      match range with
      | Some (from, to) =>
          if (length matching <? from)%nat then
            (Failed (ErrorResponse "PGRST103" "Requested range not satisfiable"), db)
          else
            (Data {| events := firstn (to - from + 1) (skipn from matching);
                     total := length matching |}, db)
      | None =>
          (Data {| events := match limit with
                             | Some l => firstn l matching
                             | None => matching
                             end;
                   total := length matching |}, db)
      end
  end.

Definition getEvents (db : Supabase) (options : Options.Options)
  : Completion Page * Supabase :=
  let (outcome, db) := select_page db options in
  match outcome with
  | Data page => (Normal page, db)
  | Failed (ErrorResponse _ message) =>
      (Throw (Error ("Failed to fetch market events: " ++ message)), db)
  | Failed (Rejection e) => (Throw e, db)
  end.

(** The zone offset of the host and the month names of its default
    locale, by month number (0 is January). *)
Variable LocalTZA : Z.
Variable longMonth : Z -> string.

(** [toLocaleString('default', { month: 'long' })] *)
Definition monthName (d : JS.Date) : string :=
  match d with
  | JS.Time t => longMonth (JS.MonthFromTime (JS.LocalTime LocalTZA t))
  | JS.InvalidDate => "Invalid Date"
  end.

(** The text of [getFullYear()] in a template. *)
Definition fullYear (d : JS.Date) : string :=
  match d with
  | JS.Time t =>
      let y := JS.YearFromTime (JS.LocalTime LocalTZA t) in
      if (y <? 0)%Z then "-" ++ JS.decimal (Z.to_N (- y)) else JS.decimal (Z.to_N y)
  | JS.InvalidDate => "NaN"
  end.

(** The start of the week is computed as in [getCurrentWeekStart] of the
    AI service. *)
Definition dateFilter (today : JS.Date) : string :=
  let startOfWeek := AIService.getCurrentWeekStart LocalTZA today in
  let endOfWeek :=
    JS.setDate LocalTZA startOfWeek
      (option_map (fun d => d + 6)%Z (JS.getDate LocalTZA startOfWeek)) in
  let startMonth := monthName startOfWeek in
  let endMonth := monthName endOfWeek in
  let year := fullYear startOfWeek in
  if startMonth =? endMonth then startMonth ++ " " ++ year
  else startMonth ++ "-" ++ endMonth ++ " " ++ year.

Definition getCurrentWeekEvents (db : Supabase) (today : JS.Date)
  : Completion (list MarketEvent) * Supabase :=
  let (result, db) :=
    getEvents db {| Options.limit := None; Options.offset := None;
                    Options.type := None; Options.significance := None;
                    Options.date := Some (dateFilter today) |} in
  match result with
  | Normal page => (Normal (events page), db)
  | Throw e => (Throw e, db)
  end.

End Service.

End MarketEventsQueries.

(** ** Dates as the prompt asks for them *)

(** Newer rows come first. *)
Definition newer_first (rows : list MarketEventsService.MarketEvent) : Prop :=
  StronglySorted
    (fun a b => (MarketEventsService.created_at b <= MarketEventsService.created_at a)%Z)
    rows.

Fixpoint all_chars (p : ascii -> bool) (s : string) : bool :=
  match s with
  | EmptyString => true
  | String c r => p c && all_chars p r
  end.

Definition no_space (s : string) : bool :=
  all_chars (fun c => negb (c =? " ")%char) s.

Definition is_letter (c : ascii) : bool :=
  ((65 <=? N_of_ascii c) && (N_of_ascii c <=? 90)
   || (97 <=? N_of_ascii c) && (N_of_ascii c <=? 122))%N.

(** A letter, a digit, a space or a hyphen. *)
Definition is_plain (c : ascii) : bool :=
  is_letter c || JS.is_digit c || (c =? " ")%char || (c =? "-")%char.

Definition lower_char (c : ascii) : ascii :=
  if ((65 <=? N_of_ascii c) && (N_of_ascii c <=? 90))%N
  then ascii_of_N (N_of_ascii c + 32) else c.

Fixpoint lower (s : string) : string :=
  match s with
  | EmptyString => EmptyString
  | String c r => String (lower_char c) (lower r)
  end.

(** A day of the month: one or two digits. *)
Definition day_number (s : string) : Prop :=
  all_chars JS.is_digit s = true /\ 1 <= String.length s <= 2.

(** A day or a range of days. *)
Definition days_text (days : string) : Prop :=
  day_number days
  \/ exists a b, days = a ++ "-" ++ b /\ day_number a /\ day_number b.

(** The two forms of the prompt, [December 1 2025] and [December 1-3
    2025]: a month in letters, a day or a range of days, a year. *)
Definition prompt_date (s : string) : Prop :=
  exists month days year,
    s = month ++ " " ++ days ++ " " ++ year
    /\ all_chars is_letter month = true
    /\ days_text days
    /\ all_chars JS.is_digit year = true.

(** On texts of letters, digits, spaces and hyphens, ILIKE with the
    pattern [%p%] is the search for [p] without regard to case. *)
Definition searches_plain_text (ilike : string -> string -> bool) : Prop :=
  forall text p,
    all_chars is_plain text = true -> all_chars is_plain p = true ->
    ilike text ("%" ++ p ++ "%") = contains (lower p) (lower text).

(** The twelve month names are words of letters. *)
Definition months_are_words (longMonth : Z -> string) : Prop :=
  forall m, (0 <= m <= 11)%Z ->
    longMonth m <> "" /\ all_chars is_letter (longMonth m) = true.

(** An operator that searches for the pattern without its first and last
    character, without regard to case: it agrees with ILIKE on the
    patterns [%p%] of plain text. *)
Fixpoint without_last (s : string) : string :=
  match s with
  | EmptyString => EmptyString
  | String c EmptyString => EmptyString
  | String c r => String c (without_last r)
  end.

Definition plain_search (text pattern : string) : bool :=
  match pattern with
  | EmptyString => false
  | String _ r => contains (lower (without_last r)) (lower text)
  end.

Definition englishMonth (m : Z) : string := nth (Z.to_nat m) JS.monthNames "".

(** ** utils/supabase and the health check of the application *)

Module Health.
Import MarketEventsService.

(** [.select('count').limit(1)] inside a [try]: an error in the answer
    and a rejected request both give [false]. *)
Definition testSupabaseConnection (db : Supabase) : Completion bool * Supabase :=
  let (failure, db) := request db in
  match failure with
  | Some (ErrorResponse _ _) => (Normal false, db)
  | Some (Rejection _) => (Normal false, db)
  | None => (Normal true, db)
  end.

(** The answer of [GET /health]: the status code, the field [status], and
    the field [services.database] when there is one. *)
Record Answer : Type := {
  code : nat;
  status : string;
  database : option string
}.

Definition health (db : Supabase) : Answer * Supabase :=
  let (dbHealthy, db) := testSupabaseConnection db in
  match dbHealthy with
  | Normal dbHealthy =>
      ({| code := 200; status := "healthy";
          database := Some (if dbHealthy then "healthy" else "unhealthy") |}, db)
  | Throw _ => ({| code := 503; status := "unhealthy"; database := None |}, db)
  end.

End Health.

(** The pairs of event and date of the batch are pairwise distinct. *)
Definition distinct_pairs (batch : list MarketEventsService.CreateMarketEvent)
  : Prop :=
  NoDup (map (fun c => (MarketEventsService.event c, MarketEventsService.date c))
           batch).

(** The table holds no pair of event and date twice. *)
Definition at_most_once (db : MarketEventsService.Supabase) : Prop :=
  forall ev dt,
    length (filter (MarketEventsService.matches ev dt)
              (MarketEventsService.market_events db)) <= 1.


(** [kept] is [batch] with some candidates left out: its elements are
    elements of [batch], in the order of [batch]. *)
Inductive in_order {A : Type} : list A -> list A -> Prop :=
| in_order_done : in_order [] []
| in_order_kept (x : A) (kept batch : list A) :
    in_order kept batch -> in_order (x :: kept) (x :: batch)
| in_order_left_out (x : A) (kept batch : list A) :
    in_order kept batch -> in_order kept (x :: batch).

(** The existence check of the candidate, when served, finds one row. *)
Definition held (db : MarketEventsService.Supabase)
    (c : MarketEventsService.CreateMarketEvent) : bool :=
  match filter (MarketEventsService.matches (MarketEventsService.event c)
                  (MarketEventsService.date c))
          (MarketEventsService.market_events db) with
  | [_] => true
  | _ => false
  end.

(** The candidate has the event [ev] and the date [dt]. *)
Definition is_pair (ev dt : string) (c : MarketEventsService.CreateMarketEvent)
  : bool :=
  (MarketEventsService.event c =? ev) && (MarketEventsService.date c =? dt).

(** A candidate with another event than those of [Sample]. *)
Definition cpi : MarketEventsService.CreateMarketEvent :=
  {| MarketEventsService.date := "December 10 2025";
     MarketEventsService.event := "US CPI";
     MarketEventsService.type := MarketEventsService.Economic;
     MarketEventsService.description := "Consumer price index";
     MarketEventsService.significance := MarketEventsService.High;
     MarketEventsService.market_sentiment := MarketEventsService.Neutral;
     MarketEventsService.citations := None |}.

(** * Properties *)

(** ** Strings and the bracket search *)

Lemma append_assoc (a b c : string) : (a ++ b) ++ c = a ++ (b ++ c).
Proof.
  induction a as [|x a IH]; simpl; [reflexivity | now rewrite IH].
Qed.

Lemma starts_with_sound (p s : string) :
  starts_with p s = true -> exists b, s = p ++ b.
Proof.
  revert s. induction p as [|c p IH]; intros s H; simpl in *.
  - now exists s.
  - destruct s as [|d s]; [discriminate|].
    apply andb_true_iff in H. destruct H as [Hc Hp].
    apply Ascii.eqb_eq in Hc. subst d.
    destruct (IH _ Hp) as [b ->]. now exists b.
Qed.

Lemma contains_sound (sub s : string) : contains sub s = true -> occurs sub s.
Proof.
  induction s as [|c s IH]; simpl; intros H; apply orb_true_iff in H.
  - destruct H as [H|H]; [|discriminate].
    destruct (starts_with_sound _ _ H) as [b Hb]. now exists "", b.
  - destruct H as [H|H].
    + destruct (starts_with_sound _ _ H) as [b Hb]. now exists "", b.
    + destruct (IH H) as (a & b & ->). now exists (String c a), b.
Qed.

Lemma occurs_middle (sub pre s post : string) :
  occurs sub s -> occurs sub (pre ++ s ++ post).
Proof.
  intros (a & b & ->). exists (pre ++ a), (b ++ post).
  now rewrite !append_assoc.
Qed.

Lemma from_first_open_Some (s r : string) :
  JS.from_first_open s = Some r -> exists a, s = a ++ "[" ++ r.
Proof.
  revert r. induction s as [|c s IH]; simpl; intros r H; [discriminate|].
  destruct (c =? "[")%char eqn:E.
  - apply Ascii.eqb_eq in E. injection H as <-. subst c. now exists "".
  - destruct (IH _ H) as [a ->]. now exists (String c a).
Qed.

(** Whatever follows an opening bracket of [s] is a suffix of what follows
    the first one. *)
Lemma from_first_open_app (a t : string) :
  exists r x, JS.from_first_open (a ++ "[" ++ t) = Some r /\ r = x ++ t.
Proof.
  induction a as [|c a IH]; simpl.
  - now exists t, "".
  - destruct (c =? "[")%char.
    + exists (a ++ String "[" t), (a ++ "["). split; [reflexivity|].
      now rewrite append_assoc.
    + exact IH.
Qed.

Lemma upto_last_close_Some (s p : string) :
  JS.upto_last_close s = Some p -> exists b c, s = b ++ "]" ++ c /\ p = b ++ "]".
Proof.
  revert p. induction s as [|x s IH]; simpl; intros p H; [discriminate|].
  destruct (JS.upto_last_close s) as [q|].
  - injection H as <-. destruct (IH _ eq_refl) as (b & c & -> & ->).
    now exists (String x b), c.
  - destruct (x =? "]")%char eqn:E; [|discriminate].
    apply Ascii.eqb_eq in E. injection H as <-. subst x. now exists "", s.
Qed.

Lemma upto_last_close_app (b c : string) :
  JS.upto_last_close (b ++ "]" ++ c) <> None.
Proof.
  induction b as [|x b IH]; simpl in *.
  - destruct (JS.upto_last_close c); discriminate.
  - destruct (JS.upto_last_close (b ++ String "]" c)); [discriminate|].
    now contradiction IH.
Qed.

Lemma match_array_Some (s m : string) :
  JS.match_array s = Some m ->
  exists a b c, s = a ++ "[" ++ b ++ "]" ++ c /\ m = "[" ++ b ++ "]".
Proof.
  unfold JS.match_array. intros H.
  destruct (JS.from_first_open s) as [r|] eqn:Hr; [|discriminate].
  destruct (JS.upto_last_close r) as [p|] eqn:Hp; [|discriminate].
  injection H as <-.
  destruct (from_first_open_Some _ _ Hr) as [a ->].
  destruct (upto_last_close_Some _ _ Hp) as (b & c & -> & ->).
  now exists a, b, c.
Qed.

(** The expression fails to match exactly on the texts without a span. *)
Lemma match_array_None (s : string) : JS.match_array s = None <-> no_span s.
Proof.
  split.
  - intros H a b c ->. unfold JS.match_array in H.
    destruct (from_first_open_app a (b ++ "]" ++ c)) as (r & x & Hr & ->).
    rewrite Hr in H. rewrite <- append_assoc in H.
    destruct (JS.upto_last_close ((x ++ b) ++ "]" ++ c)) eqn:E; [discriminate|].
    now apply upto_last_close_app in E.
  - intros H. destruct (JS.match_array s) as [m|] eqn:E; [|reflexivity].
    destruct (match_array_Some _ _ E) as (a & b & c & Hs & _).
    now apply H in Hs.
Qed.

(** ** The response normalizer *)

(** C3. A response without any bracketed span (no opening bracket followed
    later by a closing one) makes [parseAIResponse] throw the error that no
    JSON array was found, rethrown with the parser's prefix; no candidate
    is returned. *)
Theorem parse_without_span_fails (response : string) (citations : list string) :
  no_span response ->
  AIService.parseAIResponse response citations
  = Throw (Rethrown "Failed to parse AI response: "
             (Error "No JSON array found in AI response")).
Proof.
  intros H. apply match_array_None in H.
  unfold AIService.parseAIResponse. now rewrite H.
Qed.

Lemma parse_without_span_fails_witness :
  no_span "Sorry, no events ] this week [" /\
  AIService.parseAIResponse "Sorry, no events ] this week [" ["https://example.com"]
  = Throw (Rethrown "Failed to parse AI response: "
             (Error "No JSON array found in AI response")).
Proof.
  assert (H : no_span "Sorry, no events ] this week [")
    by (apply match_array_None; reflexivity).
  split; [exact H | exact (parse_without_span_fails _ _ H)].
Defined.

Lemma includes_true (l : list string) (v : JS.Value) :
  JS.includes l v = true <-> is_one_of l v.
Proof.
  split.
  - destruct v; simpl; try discriminate. intros H.
    apply existsb_exists in H. destruct H as (x & Hx & E).
    apply String.eqb_eq in E. subst x. now exists s.
  - intros (s & Hs & ->). simpl. apply existsb_exists.
    exists s. split; [assumption | apply String.eqb_refl].
Qed.

(** The loop only ever appends to [validEvents]; what it appends is the
    surviving subset. *)
Lemma validate_survivors (citations : list string) (events : list JS.Value) :
  forall acc, AIService.validate citations events acc
              = (acc ++ survivors citations events)%list.
Proof.
  induction events as [|e events IH]; intros acc; simpl.
  - now rewrite app_nil_r.
  - unfold pushed.
    destruct (AIService.turn citations e) as [[|ev]|x]; simpl; rewrite IH;
      [reflexivity | now rewrite <- app_assoc | reflexivity].
Qed.

Lemma pushed_length (citations : list string) (e : JS.Value) :
  length (pushed citations e) <= 1.
Proof.
  unfold pushed. destruct (AIService.turn citations e) as [[|ev]|x]; simpl; lia.
Qed.

Lemma survivors_length (citations : list string) (events : list JS.Value) :
  length (survivors citations events) <= length events.
Proof.
  induction events as [|e events IH]; simpl; [lia|].
  rewrite length_app. pose proof (pushed_length citations e). lia.
Qed.

Lemma survivors_nil (citations : list string) (events : list JS.Value) :
  survivors citations events = [] <-> Forall (rejected citations) events.
Proof.
  unfold rejected. induction events as [|e events IH]; simpl.
  - split; [constructor | reflexivity].
  - split.
    + intros H. apply app_eq_nil in H. destruct H as [H1 H2].
      constructor; [assumption | now apply IH].
    + intros H. inversion H as [|? ? H1 H2]; subst.
      rewrite H1. simpl. now apply IH.
Qed.

Lemma survivors_In (citations : list string) (events : list JS.Value)
    (ev : AIService.CreateMarketEvent) :
  In ev (survivors citations events) ->
  exists e, In e events /\ AIService.turn citations e = Normal (AIService.Push ev).
Proof.
  unfold survivors. intros H. apply in_flat_map in H.
  destruct H as (e & He & Hev). exists e. split; [assumption|].
  unfold pushed in Hev.
  destruct (AIService.turn citations e) as [[|ev']|x]; simpl in Hev;
    try contradiction.
  destruct Hev as [->|[]]. reflexivity.
Qed.

(** A turn pushes only for an object whose six fields are all truthy, with
    a listed significance and sentiment and a type that converts to a key;
    the record carries the fields and the normalized type. *)
Lemma turn_Push (citations : list string) (e : JS.Value)
    (ev : AIService.CreateMarketEvent) :
  AIService.turn citations e = Normal (AIService.Push ev) ->
  exists props,
    e = JS.Object props
    /\ Forall (fun k => JS.ToBoolean (JS.lookup props k) = true) required_fields
    /\ JS.includes AIService.validSignificance (JS.lookup props "significance") = true
    /\ JS.includes AIService.validSentiment (JS.lookup props "marketSentiment") = true
    /\ AIService.normalizeType e = Normal (AIService.type ev)
    /\ AIService.date ev = JS.lookup props "date"
    /\ AIService.event ev = JS.lookup props "event"
    /\ AIService.description ev = JS.lookup props "description"
    /\ AIService.significance ev = JS.lookup props "significance"
    /\ AIService.market_sentiment ev = JS.lookup props "marketSentiment"
    /\ AIService.citations ev
       = if (0 <? length citations)%nat then Some citations else None.
Proof.
  destruct e as [| | b | n | s | l | props | name]; try discriminate.
  unfold AIService.turn, AIService.missing, AIService.not_included,
    AIService.or_else, bind. simpl JS.Get. cbv iota beta.
  destruct (JS.ToBoolean (JS.lookup props "date")) eqn:H1; simpl; [|discriminate].
  destruct (JS.ToBoolean (JS.lookup props "event")) eqn:H2; simpl; [|discriminate].
  destruct (JS.ToBoolean (JS.lookup props "type")) eqn:H3; simpl; [|discriminate].
  destruct (JS.ToBoolean (JS.lookup props "description")) eqn:H4; simpl;
    [|discriminate].
  destruct (JS.ToBoolean (JS.lookup props "significance")) eqn:H5; simpl;
    [|discriminate].
  destruct (JS.ToBoolean (JS.lookup props "marketSentiment")) eqn:H6; simpl;
    [|discriminate].
  destruct (JS.includes AIService.validSignificance (JS.lookup props "significance"))
    eqn:H7; simpl; [|discriminate].
  destruct (JS.includes AIService.validSentiment (JS.lookup props "marketSentiment"))
    eqn:H8; simpl; [|discriminate].
  destruct (AIService.normalizeType (JS.Object props)) as [ty|x] eqn:H9;
    [|discriminate].
  intros H. injection H as <-. exists props. simpl.
  repeat split; try reflexivity; try assumption.
  unfold required_fields. repeat constructor; assumption.
Qed.

Lemma absent_or_empty_falsy (props : list (string * JS.Value)) (key : string) :
  absent_or_empty (JS.Object props) key ->
  JS.ToBoolean (JS.lookup props key) = false.
Proof.
  unfold absent_or_empty. simpl. intros [-> | [-> | ->]]; reflexivity.
Qed.

(** The rejection rules: a required field that is absent or empty, a
    significance or a sentiment outside its list. *)
Lemma rejection_rules (citations : list string) (e : JS.Value) :
  (exists key, In key required_fields /\ absent_or_empty e key)
  \/ ~ field_in e "significance" ["High"; "Medium"; "Low"]
  \/ ~ field_in e "marketSentiment" ["Bullish"; "Bearish"; "Neutral"; "Mixed"] ->
  rejected citations e.
Proof.
  intros H. unfold rejected, pushed.
  destruct (AIService.turn citations e) as [[|ev]|x] eqn:E; try reflexivity.
  exfalso. apply turn_Push in E.
  destruct E as (props & -> & Hreq & Hsig & Hsent & _).
  destruct H as [(key & Hkey & Habs) | [H | H]].
  - apply absent_or_empty_falsy in Habs.
    rewrite Forall_forall in Hreq. specialize (Hreq _ Hkey). congruence.
  - apply H. apply includes_true in Hsig. destruct Hsig as (s & Hs & Heq).
    exists s. split; [exact Hs | simpl; now rewrite Heq].
  - apply H. apply includes_true in Hsent. destruct Hsent as (s & Hs & Heq).
    exists s. split; [exact Hs | simpl; now rewrite Heq].
Qed.

Lemma survivors_app (citations : list string) (l1 l2 : list JS.Value) :
  survivors citations (l1 ++ l2)
  = (survivors citations l1 ++ survivors citations l2)%list.
Proof. apply flat_map_app. Qed.

(** C5. An element of the parsed array that lacks one of [date], [event],
    [type], [description], [significance], [marketSentiment] or holds an
    empty value there, or whose significance is not exactly High, Medium or
    Low, or whose sentiment is not exactly Bullish, Bearish, Neutral or
    Mixed, pushes nothing, and the loop handles the elements before and
    after it as if it were not there. *)
Theorem invalid_element_skipped (citations : list string)
    (before after : list JS.Value) (e : JS.Value)
    (validEvents : list AIService.CreateMarketEvent) :
  (exists key, In key required_fields /\ absent_or_empty e key)
  \/ ~ field_in e "significance" ["High"; "Medium"; "Low"]
  \/ ~ field_in e "marketSentiment" ["Bullish"; "Bearish"; "Neutral"; "Mixed"] ->
  rejected citations e
  /\ AIService.validate citations (before ++ e :: after) validEvents
     = AIService.validate citations (before ++ after) validEvents.
Proof.
  intros H. apply (rejection_rules citations) in H. split; [exact H|].
  rewrite !validate_survivors, !survivors_app. simpl.
  unfold rejected in H. now rewrite H.
Qed.

(** Every value of the synonym table is a canonical type. *)
Lemma typeMappings_canonical (key : string) (v : JS.Value) :
  JS.own_property AIService.typeMappings key = Some v ->
  is_one_of canonical_types v.
Proof.
  unfold AIService.typeMappings, canonical_types, is_one_of. simpl.
  repeat match goal with
         | |- context [if ?b then _ else _] => destruct b
         end;
    intros H; try discriminate; injection H as <-;
    eexists; (split; [|reflexivity]); simpl; tauto.
Qed.

Lemma inherited_cases (key : string) :
  (In key JS.Object_prototype /\ JS.inherited key = JS.Builtin key)
  \/ (~ In key JS.Object_prototype /\ JS.inherited key = JS.Undefined).
Proof.
  unfold JS.inherited.
  destruct (existsb (String.eqb key) JS.Object_prototype) eqn:E.
  - left. apply existsb_exists in E. destruct E as (x & Hx & E).
    apply String.eqb_eq in E. now subst x.
  - right. split; [|reflexivity]. intros H.
    assert (existsb (String.eqb key) JS.Object_prototype = true)
      by (apply existsb_exists; exists key; split;
          [assumption | apply String.eqb_refl]).
    congruence.
Qed.

(** What the normalization of the type yields, by the key [key] the type
    converts to: the table's value for an own key; the inherited member of
    [Object.prototype] for a key that names one; and otherwise the type
    itself when canonical, [Economic] when not. *)
Lemma normalizeType_cases (e ty : JS.Value) :
  AIService.normalizeType e = Normal ty ->
  exists t key,
    JS.Get e "type" = Normal t /\ JS.ToPropertyKey t = Normal key
    /\ ((JS.own_property AIService.typeMappings key = Some ty
         /\ is_one_of canonical_types ty)
        \/ (JS.own_property AIService.typeMappings key = None
            /\ In key JS.Object_prototype /\ ty = JS.Builtin key)
        \/ (JS.own_property AIService.typeMappings key = None
            /\ ~ In key JS.Object_prototype
            /\ is_one_of canonical_types t /\ ty = t)
        \/ (JS.own_property AIService.typeMappings key = None
            /\ ~ In key JS.Object_prototype
            /\ ~ is_one_of canonical_types t /\ ty = JS.Str "Economic")).
Proof.
  unfold AIService.normalizeType, bind.
  destruct (JS.Get e "type") as [t|x] eqn:Hget; [|discriminate].
  destruct (JS.ToPropertyKey t) as [key|x] eqn:Hkey; [|discriminate].
  intros H. exists t, key. split; [reflexivity|]. split; [exact Hkey|].
  unfold JS.lookup in H.
  destruct (JS.own_property AIService.typeMappings key) as [v|] eqn:Hown.
  - pose proof (typeMappings_canonical _ _ Hown) as Hv.
    assert (Htrue : JS.ToBoolean v = true).
    { destruct Hv as (s & Hs & ->). simpl in Hs.
      repeat (destruct Hs as [<-|Hs]; [reflexivity|]). contradiction. }
    rewrite Htrue in H. injection H as <-. now left.
  - right. destruct (inherited_cases key) as [[Hin Heq]|[Hin Heq]];
      rewrite Heq in H; simpl in H.
    + injection H as <-. now left.
    + right.
      destruct (JS.includes AIService.validTypes t) eqn:Hinc; simpl in H;
        injection H as <-.
      * left. repeat split; try assumption. now apply includes_true in Hinc.
      * right. repeat split; try assumption. intros Hc.
        apply includes_true in Hc.
        change canonical_types with AIService.validTypes in Hc. congruence.
Qed.

(** X2. On a type that is a string and names nothing of
    [Object.prototype], the three rules of the normalization: the table's
    value for a synonym, the type itself when canonical, [Economic]
    otherwise. *)
Theorem normalizeType_string (props : list (string * JS.Value)) (s : string) :
  JS.lookup props "type" = JS.Str s ->
  ~ In s JS.Object_prototype ->
  AIService.normalizeType (JS.Object props)
  = Normal match JS.own_property AIService.typeMappings s with
           | Some canonical => canonical
           | None => if existsb (String.eqb s) canonical_types
                     then JS.Str s else JS.Str "Economic"
           end.
Proof.
  intros Ht Hs. unfold AIService.normalizeType, bind. simpl JS.Get.
  rewrite Ht. simpl JS.ToPropertyKey. cbv iota beta. unfold JS.lookup.
  destruct (JS.own_property AIService.typeMappings s) as [v|] eqn:Hown.
  - pose proof (typeMappings_canonical _ _ Hown) as (c & Hc & ->).
    simpl in Hc.
    repeat (destruct Hc as [<-|Hc]; [reflexivity|]). contradiction.
  - destruct (inherited_cases s) as [[Hin _]|[_ ->]]; [contradiction|].
    change (JS.ToBoolean JS.Undefined) with false. cbv iota.
    change (JS.includes AIService.validTypes (JS.Str s))
      with (existsb (String.eqb s) canonical_types).
    now destruct (existsb (String.eqb s) canonical_types).
Qed.

Lemma invalid_element_skipped_witness :
  ((exists key, In key required_fields /\ absent_or_empty Sample.unrated key)
   \/ ~ field_in Sample.unrated "significance" ["High"; "Medium"; "Low"]
   \/ ~ field_in Sample.unrated "marketSentiment"
          ["Bullish"; "Bearish"; "Neutral"; "Mixed"])
  /\ rejected ["https://example.com"] Sample.unrated
  /\ AIService.validate ["https://example.com"]
       ([Sample.pmi "FOMC" "High"] ++ Sample.unrated :: [Sample.pmi "Fed" "Low"]) []
     = AIService.validate ["https://example.com"]
         ([Sample.pmi "FOMC" "High"] ++ [Sample.pmi "Fed" "Low"]) [].
Proof.
  assert (H : (exists key, In key required_fields
                           /\ absent_or_empty Sample.unrated key)
              \/ ~ field_in Sample.unrated "significance" ["High"; "Medium"; "Low"]
              \/ ~ field_in Sample.unrated "marketSentiment"
                     ["Bullish"; "Bearish"; "Neutral"; "Mixed"]).
  { left. exists "significance". split; [simpl; tauto | left; reflexivity]. }
  split; [exact H|].
  exact (invalid_element_skipped ["https://example.com"]
           [Sample.pmi "FOMC" "High"] [Sample.pmi "Fed" "Low"] Sample.unrated [] H).
Defined.

(** A significance in another case or outside the list is rejected too. *)
Example extreme_significance_rejected :
  rejected [] (Sample.pmi "Economic" "Extreme")
  /\ rejected [] (Sample.pmi "Economic" "high")
  /\ AIService.parseAIResponse
       ("[" ++ Sample.pmi_text "Economic" "Extreme" ++ "]") []
     = Throw no_valid_events.
Proof. repeat split; reflexivity. Qed.

Lemma parse_array (response span : string) (citations : list string)
    (events : list JS.Value) :
  JS.match_array response = Some span ->
  JS.JSON_parse span = Some (JS.Array events) ->
  AIService.parseAIResponse response citations
  = match survivors citations events with
    | [] => Throw no_valid_events
    | _ :: _ => Normal (survivors citations events)
    end.
Proof.
  intros Hm Hp. unfold AIService.parseAIResponse. rewrite Hm, Hp.
  rewrite validate_survivors. simpl app.
  now destruct (survivors citations events).
Qed.

(** C6. Once the span parses as an array, [parseAIResponse] throws the
    error that no valid events were found exactly when the validation
    rejects every element; as soon as one element survives the result is
    the list of the survivors, returned normally. *)
Theorem no_valid_events_iff_all_rejected (response span : string)
    (citations : list string) (events : list JS.Value) :
  JS.match_array response = Some span ->
  JS.JSON_parse span = Some (JS.Array events) ->
  (AIService.parseAIResponse response citations = Throw no_valid_events
   <-> Forall (rejected citations) events)
  /\ (Exists (fun e => ~ rejected citations e) events ->
      AIService.parseAIResponse response citations
      = Normal (survivors citations events)
      /\ survivors citations events <> []).
Proof.
  intros Hm Hp. rewrite (parse_array _ _ citations _ Hm Hp).
  rewrite <- survivors_nil. split.
  - destruct (survivors citations events); split; congruence.
  - intros Hex. apply Exists_exists in Hex. destruct Hex as (e & He & Hrej).
    destruct (survivors citations events) eqn:E.
    + exfalso. apply Hrej. apply survivors_nil in E.
      rewrite Forall_forall in E. now apply E.
    + split; congruence.
Qed.

Lemma no_valid_events_iff_all_rejected_witness :
  JS.match_array Sample.response = Some Sample.span
  /\ JS.JSON_parse Sample.span = Some (JS.Array Sample.events)
  /\ (AIService.parseAIResponse Sample.response [] = Throw no_valid_events
      <-> Forall (rejected []) Sample.events)
  /\ (Exists (fun e => ~ rejected [] e) Sample.events ->
      AIService.parseAIResponse Sample.response []
      = Normal (survivors [] Sample.events)
      /\ survivors [] Sample.events <> []).
Proof.
  split; [reflexivity|]. split; [reflexivity|].
  apply (no_valid_events_iff_all_rejected Sample.response Sample.span []
           Sample.events); reflexivity.
Defined.

(** The unknown type of the survivor became [Economic]. *)
Example partial_success :
  AIService.parseAIResponse Sample.response ["https://example.com"]
  = Normal [Sample.normalized (JS.Str "Economic") (Some ["https://example.com"])].
Proof. reflexivity. Qed.

(** C2, as stated, fails: a text can hold a valid JSON array and still make
    [parseAIResponse] throw.  The empty array has no survivor; and when a
    bracketed citation follows the array, the greedy span runs to it and
    is not JSON. *)
Lemma array_in_text_not_returned :
  (contains_json_array "[]" []
   /\ AIService.parseAIResponse "[]" [] = Throw no_valid_events)
  /\ (contains_json_array Sample.cited_answer [Sample.pmi "Economic" "High"]
      /\ AIService.parseAIResponse Sample.cited_answer []
         = Throw (Rethrown "Failed to parse AI response: " SyntaxError)).
Proof.
  split; split; try reflexivity.
  - exists "[]". split; [apply contains_sound|]; reflexivity.
  - exists ("[" ++ Sample.pmi_text "Economic" "High" ++ "]").
    split; [apply contains_sound|]; reflexivity.
Qed.

(** C2, amended. When the span from the first opening bracket to the last
    closing bracket parses as an array, [parseAIResponse] either throws
    the error that no valid events were found, every element being
    rejected, or returns at least one and at most as many candidates as the
    array has elements.  Every candidate returned has a significance among
    High, Medium, Low and a sentiment among Bullish, Bearish, Neutral,
    Mixed, and is what the validation makes of an element of the array;
    its type is one of the seven canonical types whenever the type of that
    element does not name a member of [Object.prototype]. *)
Theorem normalize_invariants (response span : string) (citations : list string)
    (events : list JS.Value) :
  JS.match_array response = Some span ->
  JS.JSON_parse span = Some (JS.Array events) ->
  (Forall (rejected citations) events
   /\ AIService.parseAIResponse response citations = Throw no_valid_events)
  \/ (exists evs,
        AIService.parseAIResponse response citations = Normal evs
        /\ 1 <= length evs <= length events
        /\ Forall (fun ev =>
             is_one_of ["High"; "Medium"; "Low"] (AIService.significance ev)
             /\ is_one_of ["Bullish"; "Bearish"; "Neutral"; "Mixed"]
                  (AIService.market_sentiment ev)
             /\ exists e key,
                  In e events
                  /\ AIService.turn citations e = Normal (AIService.Push ev)
                  /\ type_key e = Normal key
                  /\ (~ In key JS.Object_prototype ->
                      is_one_of canonical_types (AIService.type ev))) evs).
Proof.
  intros Hm Hp. rewrite (parse_array _ _ citations _ Hm Hp).
  destruct (survivors citations events) as [|ev0 evs] eqn:E.
  - left. split; [now apply survivors_nil | reflexivity].
  - right. exists (ev0 :: evs). split; [reflexivity|]. split.
    + pose proof (survivors_length citations events) as Hlen.
      rewrite E in Hlen. simpl in *. lia.
    + rewrite <- E. apply Forall_forall. intros ev Hev.
      apply survivors_In in Hev. destruct Hev as (e & He & Hturn).
      pose proof (turn_Push _ _ _ Hturn) as Hpush.
      destruct Hpush as (props & -> & _ & Hsig & Hsent & Hty & _ & _ & _
                         & Hs1 & Hs2 & _).
      rewrite Hs1, Hs2. split; [now apply includes_true|].
      split; [now apply includes_true|].
      apply normalizeType_cases in Hty.
      destruct Hty as (t & key & Hget & Hkey & Hcases).
      exists (JS.Object props), key. split; [exact He|].
      split; [exact Hturn|]. split.
      * unfold type_key, bind. now rewrite Hget.
      * intros Hnot.
        destruct Hcases as [[_ H]|[(_ & Hin & _)|[(_ & _ & H & ->)|(_ & _ & _ & ->)]]].
        -- exact H.
        -- contradiction.
        -- exact H.
        -- exists "Economic". split; [simpl; tauto | reflexivity].
Qed.

Lemma normalize_invariants_witness :
  JS.match_array Sample.response = Some Sample.span
  /\ JS.JSON_parse Sample.span = Some (JS.Array Sample.events)
  /\ ((Forall (rejected []) Sample.events
       /\ AIService.parseAIResponse Sample.response [] = Throw no_valid_events)
      \/ (exists evs,
            AIService.parseAIResponse Sample.response [] = Normal evs
            /\ 1 <= length evs <= length Sample.events
            /\ Forall (fun ev =>
                 is_one_of ["High"; "Medium"; "Low"] (AIService.significance ev)
                 /\ is_one_of ["Bullish"; "Bearish"; "Neutral"; "Mixed"]
                      (AIService.market_sentiment ev)
                 /\ exists e key,
                      In e Sample.events
                      /\ AIService.turn [] e = Normal (AIService.Push ev)
                      /\ type_key e = Normal key
                      /\ (~ In key JS.Object_prototype ->
                          is_one_of canonical_types (AIService.type ev))) evs)).
Proof.
  split; [reflexivity|]. split; [reflexivity|].
  apply (normalize_invariants Sample.response Sample.span [] Sample.events);
    reflexivity.
Defined.

(** C4 fails on the code.  The type [constructor] is no key of the synonym
    table and no canonical type, so the fallback [Economic] is due; but the
    table is an ordinary object, the lookup finds the member it inherits
    under that name, and the candidate is emitted with that function as its
    type. *)
Theorem inherited_type_not_normalized :
  JS.own_property AIService.typeMappings "constructor" = None
  /\ ~ In "constructor" canonical_types
  /\ AIService.parseAIResponse ("[" ++ Sample.pmi_text "constructor" "High" ++ "]") []
     = Normal [Sample.normalized (JS.Builtin "constructor") None].
Proof.
  split; [reflexivity|]. split; [|reflexivity].
  simpl. intros H.
  repeat (destruct H as [H|H]; [discriminate|]). exact H.
Qed.

Lemma normalizeType_string_witness :
  JS.lookup
    [ ("date", JS.Str "December 1 2025"); ("event", JS.Str "ISM PMI");
      ("type", JS.Str "Weather Event") ] "type" = JS.Str "Weather Event"
  /\ ~ In "Weather Event" JS.Object_prototype
  /\ AIService.normalizeType
       (JS.Object [ ("date", JS.Str "December 1 2025"); ("event", JS.Str "ISM PMI");
                    ("type", JS.Str "Weather Event") ])
     = Normal (JS.Str "Economic").
Proof.
  assert (H : ~ In "Weather Event" JS.Object_prototype).
  { simpl. intros H. repeat (destruct H as [H|H]; [discriminate|]). exact H. }
  split; [reflexivity|]. split; [exact H|].
  exact (normalizeType_string
           [ ("date", JS.Str "December 1 2025"); ("event", JS.Str "ISM PMI");
             ("type", JS.Str "Weather Event") ] "Weather Event" eq_refl H).
Defined.

(** The three rules on the types of the specification's examples. *)
Example type_rules :
  AIService.normalizeType (Sample.pmi "FOMC" "High") = Normal (JS.Str "Fed")
  /\ AIService.normalizeType (Sample.pmi "Cryptocurrency" "High")
     = Normal (JS.Str "Crypto")
  /\ AIService.normalizeType (Sample.pmi "Geopolitical" "High")
     = Normal (JS.Str "Geopolitical")
  /\ AIService.normalizeType (Sample.pmi "Weather Event" "High")
     = Normal (JS.Str "Economic").
Proof. repeat split; reflexivity. Qed.

(** X6. An element with its six fields present, a listed significance and
    sentiment and a type that is a string, whatever the string, is pushed:
    the type alone never rejects an element. *)
Theorem string_type_never_rejects (citations : list string)
    (props : list (string * JS.Value)) (type : string) :
  Forall (fun k => JS.ToBoolean (JS.lookup props k) = true) required_fields ->
  field_in (JS.Object props) "significance" ["High"; "Medium"; "Low"] ->
  field_in (JS.Object props) "marketSentiment"
    ["Bullish"; "Bearish"; "Neutral"; "Mixed"] ->
  JS.lookup props "type" = JS.Str type ->
  exists ev,
    AIService.turn citations (JS.Object props) = Normal (AIService.Push ev)
    /\ AIService.date ev = JS.lookup props "date"
    /\ AIService.event ev = JS.lookup props "event"
    /\ AIService.description ev = JS.lookup props "description".
Proof.
  intros Hreq (sig & Hsig & Hgs) (sent & Hsent & Hgt) Hty.
  simpl in Hgs, Hgt. injection Hgs as Hgs. injection Hgt as Hgt.
  unfold required_fields in Hreq.
  repeat match goal with
         | H : Forall _ (_ :: _) |- _ => inversion H; clear H; subst
         end.
  unfold AIService.turn, AIService.missing, AIService.not_included,
    AIService.or_else, bind. simpl JS.Get. cbv iota beta.
  repeat match goal with
         | H : JS.ToBoolean _ = true |- _ => rewrite H; clear H
         end.
  simpl negb. cbv iota.
  assert (H1 : JS.includes AIService.validSignificance
                 (JS.lookup props "significance") = true)
    by (apply includes_true; exists sig; now split).
  assert (H2 : JS.includes AIService.validSentiment
                 (JS.lookup props "marketSentiment") = true)
    by (apply includes_true; exists sent; now split).
  rewrite H1, H2. simpl negb. cbv iota.
  unfold AIService.normalizeType, bind. simpl JS.Get. rewrite Hty.
  simpl JS.ToPropertyKey. cbv iota beta.
  destruct (JS.ToBoolean (JS.lookup AIService.typeMappings type));
    [|destruct (negb (JS.includes AIService.validTypes (JS.Str type)))];
    eexists; repeat split.
Qed.

Lemma string_type_never_rejects_witness :
  exists ev,
    AIService.turn [] (Sample.pmi "Weather Event" "High")
    = Normal (AIService.Push ev)
    /\ AIService.date ev = JS.Str "December 1 2025"
    /\ AIService.event ev = JS.Str "ISM PMI"
    /\ AIService.description ev = JS.Str "Manufacturing activity indicator".
Proof.
  apply (string_type_never_rejects []
           [ ("date", JS.Str "December 1 2025");
             ("event", JS.Str "ISM PMI");
             ("type", JS.Str "Weather Event");
             ("description", JS.Str "Manufacturing activity indicator");
             ("significance", JS.Str "High");
             ("marketSentiment", JS.Str "Mixed") ] "Weather Event").
  - repeat constructor.
  - exists "High". split; [simpl; tauto | reflexivity].
  - exists "Mixed". split; [simpl; tauto | reflexivity].
  - reflexivity.
Defined.

(** *** The span *)

Lemma from_first_open_prefix (s r : string) :
  JS.from_first_open s = Some r ->
  exists a, s = a ++ "[" ++ r /\ JS.from_first_open a = None.
Proof.
  revert r. induction s as [|c s IH]; simpl; intros r H; [discriminate|].
  destruct (c =? "[")%char eqn:E.
  - apply Ascii.eqb_eq in E. injection H as <-. subst c. now exists "".
  - destruct (IH _ H) as (a & -> & Ha). exists (String c a).
    split; [reflexivity|]. simpl. now rewrite E.
Qed.

Lemma upto_last_close_suffix (s p : string) :
  JS.upto_last_close s = Some p ->
  exists b c, s = p ++ c /\ p = b ++ "]" /\ JS.upto_last_close c = None.
Proof.
  revert p. induction s as [|x s IH]; simpl; intros p H; [discriminate|].
  destruct (JS.upto_last_close s) as [q|] eqn:E.
  - injection H as <-. destruct (IH _ eq_refl) as (b & c & -> & -> & Hc).
    now exists (String x b), c.
  - destruct (x =? "]")%char eqn:Ex; [|discriminate].
    apply Ascii.eqb_eq in Ex. injection H as <-. subst x. now exists "", s.
Qed.

Lemma from_first_open_None (s x y : string) :
  JS.from_first_open s = None -> s <> x ++ "[" ++ y.
Proof.
  intros H ->. destruct (from_first_open_app x y) as (r & _ & Hr & _).
  congruence.
Qed.

Lemma upto_last_close_None (s x y : string) :
  JS.upto_last_close s = None -> s <> x ++ "]" ++ y.
Proof. intros H ->. now apply upto_last_close_app in H. Qed.

(** X1. The match is the outermost span: it opens at the first opening
    bracket of the text and closes at the last closing bracket after it. *)
Theorem span_is_outermost (s m : string) :
  JS.match_array s = Some m ->
  exists a b c,
    s = a ++ m ++ c /\ m = "[" ++ b ++ "]"
    /\ (forall x y, a <> x ++ "[" ++ y)
    /\ (forall x y, c <> x ++ "]" ++ y).
Proof.
  unfold JS.match_array. intros H.
  destruct (JS.from_first_open s) as [r|] eqn:Hr; [|discriminate].
  destruct (JS.upto_last_close r) as [p|] eqn:Hp; [|discriminate].
  injection H as <-.
  destruct (from_first_open_prefix _ _ Hr) as (a & -> & Ha).
  destruct (upto_last_close_suffix _ _ Hp) as (b & c & -> & -> & Hc).
  exists a, b, c. split; [|split; [|split]].
  - simpl. now rewrite !append_assoc.
  - reflexivity.
  - intros x y. now apply from_first_open_None.
  - intros x y. now apply upto_last_close_None.
Qed.

Lemma span_is_outermost_witness :
  JS.match_array Sample.cited_answer
  = Some ("[" ++ Sample.pmi_text "Economic" "High" ++ "] Sources: [1]")
  /\ exists a b c,
       Sample.cited_answer
       = a ++ ("[" ++ Sample.pmi_text "Economic" "High" ++ "] Sources: [1]") ++ c
       /\ "[" ++ Sample.pmi_text "Economic" "High" ++ "] Sources: [1]"
          = "[" ++ b ++ "]"
       /\ (forall x y, a <> x ++ "[" ++ y)
       /\ (forall x y, c <> x ++ "]" ++ y).
Proof.
  split; [reflexivity|].
  exact (span_is_outermost Sample.cited_answer _ eq_refl).
Defined.

(** *** Citations *)

Lemma parse_Normal (response : string) (citations : list string)
    (evs : list AIService.CreateMarketEvent) :
  AIService.parseAIResponse response citations = Normal evs ->
  exists span events,
    JS.match_array response = Some span
    /\ JS.JSON_parse span = Some (JS.Array events)
    /\ evs = survivors citations events.
Proof.
  intros H.
  destruct (JS.match_array response) as [span|] eqn:Hm;
    [|unfold AIService.parseAIResponse in H; rewrite Hm in H; discriminate].
  destruct (JS.JSON_parse span) as [v|] eqn:Hp;
    [|unfold AIService.parseAIResponse in H; rewrite Hm, Hp in H; discriminate].
  destruct v as [| | b | n | x | events | props | name];
    try (unfold AIService.parseAIResponse in H; rewrite Hm, Hp in H; discriminate).
  rewrite (parse_array _ _ citations _ Hm Hp) in H.
  exists span, events. split; [reflexivity|]. split; [exact Hp|].
  destruct (survivors citations events); [discriminate | now injection H].
Qed.

(** X3. Every candidate returned carries the whole citation list of the
    call, in the provider's order, when the list is not empty, and no
    citations when it is. *)
Theorem citations_attached (response : string) (citations : list string)
    (evs : list AIService.CreateMarketEvent) :
  AIService.parseAIResponse response citations = Normal evs ->
  Forall (fun ev => AIService.citations ev
                    = match citations with
                      | [] => None
                      | _ :: _ => Some citations
                      end) evs.
Proof.
  intros H. apply parse_Normal in H. destruct H as (span & events & _ & _ & ->).
  apply Forall_forall. intros ev Hev. apply survivors_In in Hev.
  destruct Hev as (e & _ & Hturn). apply turn_Push in Hturn.
  destruct Hturn as (props & _ & _ & _ & _ & _ & _ & _ & _ & _ & _ & Hc).
  rewrite Hc. now destruct citations.
Qed.

Lemma citations_attached_witness :
  AIService.parseAIResponse Sample.response ["https://example.com"]
  = Normal [Sample.normalized (JS.Str "Economic") (Some ["https://example.com"])]
  /\ Forall (fun ev => AIService.citations ev = Some ["https://example.com"])
       [Sample.normalized (JS.Str "Economic") (Some ["https://example.com"])].
Proof.
  split; [reflexivity|].
  exact (citations_attached Sample.response ["https://example.com"] _ eq_refl).
Defined.

(** *** The outcomes of the parser *)

Lemma array_elements_Array (fuel : nat) :
  forall s acc v rest,
    JS.array_elements fuel s acc = Some (v, rest) -> exists l, v = JS.Array l.
Proof.
  induction fuel as [|fuel IH]; intros s acc v rest H; [discriminate|].
  cbn [JS.array_elements] in H.
  destruct (JS.value fuel s) as [[w r]|]; [|discriminate].
  destruct (JS.skip_ws r) as [|c r']; [discriminate|].
  destruct c as [[] [] [] [] [] [] [] []]; try discriminate.
  - injection H as <- <-. eauto.
  - eapply IH; eassumption.
Qed.

(** A text that opens with a bracket parses to an array or not at all. *)
Lemma value_open_bracket (fuel : nat) (r : string) (v : JS.Value) (rest : string) :
  JS.value fuel (String "[" r) = Some (v, rest) -> exists l, v = JS.Array l.
Proof.
  destruct fuel as [|fuel]; [discriminate|].
  cbn [JS.value JS.skip_ws JS.is_ws].
  change (JS.is_ws "[") with false. cbv iota.
  destruct (JS.skip_ws r) as [|c r']; cbv iota.
  - apply array_elements_Array.
  - destruct c as [[] [] [] [] [] [] [] []];
      try apply array_elements_Array.
    intros H. injection H as <- <-. eauto.
Qed.

Lemma span_parses_to_array (response span : string) (v : JS.Value) :
  JS.match_array response = Some span ->
  JS.JSON_parse span = Some v ->
  exists events, v = JS.Array events.
Proof.
  unfold JS.match_array, JS.JSON_parse. intros Hm Hp.
  destruct (JS.from_first_open response) as [r|]; [|discriminate].
  destruct (JS.upto_last_close r) as [q|]; [|discriminate].
  injection Hm as <-.
  destruct (JS.value (2 * String.length (String "[" q) + 2) (String "[" q))
    as [[w rest]|] eqn:E; [|discriminate].
  apply value_open_bracket in E. destruct E as [l ->].
  destruct (JS.skip_ws rest); [|discriminate]. injection Hp as <-. eauto.
Qed.

(** X8. The outcomes of [parseAIResponse].  Without a span it throws the
    error that no array was found; with a span that is not JSON, the
    parser's SyntaxError; with a span that parses, which is then an array,
    the error that no valid events were found when every element is
    rejected, and the survivors otherwise.  Each error is rethrown with the
    prefix of the function.  The error that the response is not an array
    is never thrown: a span opens with a bracket. *)
Theorem parse_outcomes (response : string) (citations : list string) :
  (no_span response
   /\ AIService.parseAIResponse response citations
      = Throw (Rethrown "Failed to parse AI response: "
                 (Error "No JSON array found in AI response")))
  \/ exists span,
       JS.match_array response = Some span
       /\ ((JS.JSON_parse span = None
            /\ AIService.parseAIResponse response citations
               = Throw (Rethrown "Failed to parse AI response: " SyntaxError))
           \/ exists events,
                JS.JSON_parse span = Some (JS.Array events)
                /\ ((Forall (rejected citations) events
                     /\ AIService.parseAIResponse response citations
                        = Throw no_valid_events)
                    \/ (survivors citations events <> []
                        /\ AIService.parseAIResponse response citations
                           = Normal (survivors citations events)))).
Proof.
  destruct (JS.match_array response) as [span|] eqn:Hm.
  - right. exists span. split; [reflexivity|].
    destruct (JS.JSON_parse span) as [v|] eqn:Hp.
    + right. destruct (span_parses_to_array _ _ _ Hm Hp) as [events ->].
      exists events. split; [reflexivity|].
      rewrite (parse_array _ _ citations _ Hm Hp).
      destruct (survivors citations events) as [|ev evs] eqn:E.
      * left. split; [now apply survivors_nil | reflexivity].
      * right. split; [discriminate | reflexivity].
    + left. split; [reflexivity|].
      unfold AIService.parseAIResponse. now rewrite Hm, Hp.
  - left. split; [now apply match_array_None|].
    unfold AIService.parseAIResponse. now rewrite Hm.
Qed.

(** ** The deduplicating ingest *)

Section Ingest.
Import MarketEventsService.

Lemma request_table (db : Supabase) :
  market_events (snd (request db)) = market_events db.
Proof. unfold request. now destruct (failures db). Qed.

Lemma select_single_state (db : Supabase) (ev dt : string) :
  snd (select_single db ev dt) = snd (request db).
Proof.
  unfold select_single. destruct (request db) as [[f|] db']; simpl.
  - reflexivity.
  - now destruct (filter (matches ev dt) (market_events db')) as [|r [|r' l]].
Qed.

(** An existence check costs one request and leaves the table alone. *)
Lemma findExistingEvent_state (db : Supabase) (c : CreateMarketEvent) :
  snd (findExistingEvent db c) = snd (select_single db (event c) (date c)).
Proof.
  unfold findExistingEvent.
  destruct (select_single db (event c) (date c)) as [[row|[code msg|e]] db'];
    simpl; try reflexivity.
  now destruct (code =? "PGRST116").
Qed.

(** Whatever the check answers short of a row counts as not found. *)
Lemma findExistingEvent_fail_open (db : Supabase) (c : CreateMarketEvent) :
  (forall row, fst (select_single db (event c) (date c)) <> Data row) ->
  fst (findExistingEvent db c) = None.
Proof.
  unfold findExistingEvent.
  destruct (select_single db (event c) (date c)) as [[row|[code msg|e]] db'];
    simpl; intros H.
  - now contradiction (H row).
  - now destruct (code =? "PGRST116").
  - reflexivity.
Qed.

Lemma findExistingEvent_found (db : Supabase) (c : CreateMarketEvent)
    (row : MarketEvent) :
  fst (select_single db (event c) (date c)) = Data row ->
  fst (findExistingEvent db c) = Some row.
Proof.
  unfold findExistingEvent.
  destruct (select_single db (event c) (date c)) as [[r|f] db']; simpl;
    intros H; [now injection H as -> | discriminate].
Qed.

(** A pair the table does not hold is never answered with a row. *)
Lemma select_single_no_row (db : Supabase) (ev dt : string) :
  (forall r, In r (market_events db) -> matches ev dt r = false) ->
  forall row, fst (select_single db ev dt) <> Data row.
Proof.
  intros Hno row. unfold select_single.
  pose proof (request_table db) as Ht.
  destruct (request db) as [[f|] db']; simpl in *; [discriminate|].
  destruct (filter (matches ev dt) (market_events db')) as [|r [|r' l]] eqn:E;
    simpl; try discriminate.
  assert (Hin : In r (filter (matches ev dt) (market_events db')))
    by (rewrite E; now left).
  apply filter_In in Hin. destruct Hin as [Hin Hm].
  rewrite Ht in Hin. rewrite (Hno _ Hin) in Hm. discriminate.
Qed.

(** The loop adds to its two accumulators and does not read them. *)
Lemma checkDuplicates_acc (l : list CreateMarketEvent) :
  forall db unique skippedCount,
    checkDuplicates db l unique skippedCount
    = let '(u, k, db') := checkDuplicates db l [] 0 in
      ((unique ++ u)%list, skippedCount + k, db').
Proof.
  induction l as [|c l IH]; intros db unique k; simpl.
  - now rewrite app_nil_r, Nat.add_0_r.
  - destruct (findExistingEvent db c) as [[row|] db1].
    + rewrite (IH db1 unique (S k)), (IH db1 [] 1).
      destruct (checkDuplicates db1 l [] 0) as [[u k'] db'].
      f_equal. f_equal. lia.
    + rewrite (IH db1 (unique ++ [c])%list k), (IH db1 [c] 0).
      destruct (checkDuplicates db1 l [] 0) as [[u k'] db'].
      now rewrite <- app_assoc.
Qed.

Lemma checkDuplicates_app (l1 l2 : list CreateMarketEvent) :
  forall db unique skippedCount,
    checkDuplicates db (l1 ++ l2) unique skippedCount
    = let '(u, k, db') := checkDuplicates db l1 unique skippedCount in
      checkDuplicates db' l2 u k.
Proof.
  induction l1 as [|c l1 IH]; intros db unique k; simpl; [reflexivity|].
  destruct (findExistingEvent db c) as [[row|] db1]; apply IH.
Qed.

(** Every candidate is either staged or counted, and the table is the same
    after the loop. *)
Lemma checkDuplicates_total (l : list CreateMarketEvent) :
  forall db u k db',
    checkDuplicates db l [] 0 = (u, k, db') ->
    length u + k = length l /\ market_events db' = market_events db.
Proof.
  induction l as [|c l IH]; intros db u k db' H; simpl in H.
  - injection H as <- <- <-. split; reflexivity.
  - pose proof (findExistingEvent_state db c) as Hs.
    rewrite select_single_state in Hs.
    destruct (findExistingEvent db c) as [[row|] db1]; simpl in Hs; subst db1;
      rewrite checkDuplicates_acc in H;
      destruct (checkDuplicates (snd (request db)) l [] 0) as [[u' k'] db2] eqn:E;
      injection H as <- <- <-; destruct (IH _ _ _ _ E) as [Hlen Ht];
      rewrite Ht, request_table; simpl; split; try reflexivity; lia.
Qed.

(** A candidate whose check finds no row is staged between what the loop
    stages before and after it, and the loop goes on from the state the
    check leaves. *)
Lemma checkDuplicates_not_found (db : Supabase)
    (before after : list CreateMarketEvent) (c : CreateMarketEvent)
    (u1 u2 : list CreateMarketEvent) (k1 k2 : nat) (db1 db2 : Supabase) :
  checkDuplicates db before [] 0 = (u1, k1, db1) ->
  (forall row, fst (select_single db1 (event c) (date c)) <> Data row) ->
  checkDuplicates (snd (request db1)) after [] 0 = (u2, k2, db2) ->
  checkDuplicates db (before ++ c :: after) [] 0
  = ((u1 ++ c :: u2)%list, k1 + k2, db2).
Proof.
  intros H1 Hc H2. rewrite checkDuplicates_app, H1. simpl.
  pose proof (findExistingEvent_fail_open db1 c Hc) as Hf.
  pose proof (findExistingEvent_state db1 c) as Hs.
  rewrite select_single_state in Hs.
  destruct (findExistingEvent db1 c) as [r db1']; simpl in Hf, Hs. subst.
  rewrite checkDuplicates_acc, H2. now rewrite <- app_assoc.
Qed.

(** C7. When the existence check of a candidate ends in anything but a
    row (an error in the response, whatever its code, or a rejected
    request), the candidate is taken as not found and staged, it is not
    counted as skipped, and the loop goes on with the candidates after it. *)
Theorem failed_check_stages_candidate (db : Supabase)
    (before after : list CreateMarketEvent) (c : CreateMarketEvent)
    (u1 u2 : list CreateMarketEvent) (k1 k2 : nat) (db1 db2 : Supabase) :
  checkDuplicates db before [] 0 = (u1, k1, db1) ->
  (forall row, fst (select_single db1 (event c) (date c)) <> Data row) ->
  checkDuplicates (snd (select_single db1 (event c) (date c))) after [] 0
  = (u2, k2, db2) ->
  fst (findExistingEvent db1 c) = None
  /\ checkDuplicates db (before ++ c :: after) [] 0
     = ((u1 ++ c :: u2)%list, k1 + k2, db2).
Proof.
  intros H1 Hc H2. split; [now apply findExistingEvent_fail_open|].
  rewrite select_single_state in H2.
  exact (checkDuplicates_not_found db before after c u1 u2 k1 k2 db1 db2 H1 Hc H2).
Qed.

(** The store holds [first]; the check of the second run times out. *)
Lemma failed_check_stages_candidate_witness :
  let db := Sample.store [Sample.row 0 Sample.first]
              [None; Some (ErrorResponse "57014" "statement timeout")] in
  let db1 := Sample.store [Sample.row 0 Sample.first]
               [Some (ErrorResponse "57014" "statement timeout")] in
  let db2 := Sample.store [Sample.row 0 Sample.first] [] in
  fst (findExistingEvent db1 Sample.second) = None
  /\ checkDuplicates db ([Sample.first] ++ Sample.second :: [Sample.first]) [] 0
     = (([] ++ Sample.second :: [])%list, 1 + 1, db2).
Proof.
  intros db db1 db2.
  apply (failed_check_stages_candidate db [Sample.first] [Sample.first]
           Sample.second [] [] 1 1 db1 db2).
  - reflexivity.
  - simpl. discriminate.
  - reflexivity.
Defined.

(** C1, as stated, fails: two candidates of one batch with the same event
    and date are both inserted, and none is counted as skipped. *)
Lemma batch_duplicates_both_created :
  event Sample.first = event Sample.second
  /\ date Sample.first = date Sample.second
  /\ description Sample.first <> description Sample.second
  /\ createEvents (Sample.store [] []) [Sample.first; Sample.second]
     = (Normal {| created := [Sample.row 0 Sample.first; Sample.row 1 Sample.second];
                  skipped := 0 |},
        Sample.store [Sample.row 0 Sample.first; Sample.row 1 Sample.second] []).
Proof. repeat split; try reflexivity. discriminate. Qed.

Lemma number_rows_fields (n : nat) (t : Z) (l : list CreateMarketEvent) :
  map fields (number_rows n t l) = l.
Proof.
  revert n. induction l as [|c l IH]; intros n; simpl; [reflexivity|].
  now rewrite IH.
Qed.

(** C1, amended. The existence check looks at the table only, never at the
    candidates staged earlier in the batch.  Two candidates of a batch with
    the same event and date that the table does not hold are both staged,
    in their order, and neither is counted as skipped; when the insert is
    served, both become rows of the table, each with its own fields. *)
Theorem batch_duplicates_both_staged (db : Supabase)
    (l1 l2 l3 : list CreateMarketEvent) (a b : CreateMarketEvent) :
  event a = event b ->
  date a = date b ->
  (forall r, In r (market_events db) -> matches (event a) (date a) r = false) ->
  exists u1 u2 u3 k db1,
    checkDuplicates db (l1 ++ a :: l2 ++ b :: l3) [] 0
    = ((u1 ++ a :: u2 ++ b :: u3)%list, k, db1)
    /\ k <= length l1 + length l2 + length l3
    /\ (fst (request db1) = None ->
        exists rows db2,
          createEvents db (l1 ++ a :: l2 ++ b :: l3)
          = (Normal {| created := rows; skipped := k |}, db2)
          /\ map fields rows = (u1 ++ a :: u2 ++ b :: u3)%list
          /\ market_events db2 = (market_events db ++ rows)%list).
Proof.
  intros Hev Hdt Hno.
  destruct (checkDuplicates db l1 [] 0) as [[u1 k1] d1] eqn:E1.
  destruct (checkDuplicates (snd (request d1)) l2 [] 0) as [[u2 k2] d2] eqn:E2.
  destruct (checkDuplicates (snd (request d2)) l3 [] 0) as [[u3 k3] d3] eqn:E3.
  destruct (checkDuplicates_total _ _ _ _ _ E1) as [L1 T1].
  destruct (checkDuplicates_total _ _ _ _ _ E2) as [L2 T2].
  destruct (checkDuplicates_total _ _ _ _ _ E3) as [L3 T3].
  rewrite request_table in T2, T3.
  assert (Ha : forall row, fst (select_single d1 (event a) (date a)) <> Data row).
  { apply select_single_no_row. now rewrite T1. }
  assert (Hb : forall row, fst (select_single d2 (event b) (date b)) <> Data row).
  { apply select_single_no_row. rewrite T2, T1, <- Hev, <- Hdt. exact Hno. }
  assert (E23 : checkDuplicates (snd (request d1)) (l2 ++ b :: l3) [] 0
                = ((u2 ++ b :: u3)%list, k2 + k3, d3))
    by exact (checkDuplicates_not_found _ l2 l3 b u2 u3 k2 k3 d2 d3 E2 Hb E3).
  assert (E : checkDuplicates db (l1 ++ a :: l2 ++ b :: l3) [] 0
              = ((u1 ++ a :: u2 ++ b :: u3)%list, k1 + (k2 + k3), d3))
    by exact (checkDuplicates_not_found _ l1 (l2 ++ b :: l3) a u1 _ k1 _ d1 d3
                E1 Ha E23).
  exists u1, u2, u3, (k1 + (k2 + k3)), d3.
  split; [exact E|]. split; [lia|].
  intros Hserved. unfold createEvents. rewrite E.
  replace (length (u1 ++ a :: u2 ++ b :: u3) =? 0)%nat with false
    by (symmetry; apply Nat.eqb_neq; rewrite length_app; simpl; lia).
  unfold insert. destruct (request d3) as [f d4] eqn:Er. simpl in Hserved.
  subst f. eexists. eexists. split; [reflexivity|].
  split; [apply number_rows_fields|]. simpl.
  pose proof (request_table d3) as Ht. rewrite Er in Ht. simpl in Ht.
  now rewrite Ht, T3, T2, T1.
Qed.

Lemma batch_duplicates_both_staged_witness :
  exists u1 u2 u3 k db1,
    checkDuplicates (Sample.store [] [])
      ([] ++ Sample.first :: [] ++ Sample.second :: []) [] 0
    = ((u1 ++ Sample.first :: u2 ++ Sample.second :: u3)%list, k, db1)
    /\ k <= length (@nil CreateMarketEvent) + length (@nil CreateMarketEvent)
            + length (@nil CreateMarketEvent)
    /\ (fst (request db1) = None ->
        exists rows db2,
          createEvents (Sample.store [] [])
            ([] ++ Sample.first :: [] ++ Sample.second :: [])
          = (Normal {| created := rows; skipped := k |}, db2)
          /\ map fields rows
             = (u1 ++ Sample.first :: u2 ++ Sample.second :: u3)%list
          /\ market_events db2
             = (market_events (Sample.store [] []) ++ rows)%list).
Proof.
  apply (batch_duplicates_both_staged (Sample.store [] []) [] [] []
           Sample.first Sample.second).
  - reflexivity.
  - reflexivity.
  - simpl. contradiction.
Defined.

Lemma request_served (db : Supabase) :
  served 1 db -> request db = (None, after_requests 1 db).
Proof.
  unfold served, request, after_requests. destruct db as [rows fs n t]. simpl.
  destruct fs as [|f fs]; simpl; intros H; [reflexivity|].
  inversion H as [|? ? Hf _]; subst. reflexivity.
Qed.

Lemma served_S (n : nat) (db : Supabase) :
  served (S n) db -> served 1 db /\ served n (after_requests 1 db).
Proof.
  unfold served, after_requests. simpl.
  destruct (failures db) as [|f fs]; simpl; intros H.
  - split; [constructor | now rewrite firstn_nil].
  - inversion H; subst. split; [now repeat constructor | assumption].
Qed.

Lemma after_requests_S (n : nat) (db : Supabase) :
  after_requests n (after_requests 1 db) = after_requests (S n) db.
Proof.
  unfold after_requests. simpl. destruct (failures db) as [|f fs]; simpl;
    [now rewrite skipn_nil | reflexivity].
Qed.

Lemma after_requests_0 (db : Supabase) : after_requests 0 db = db.
Proof. now destruct db. Qed.

(** With every candidate held once and every check served, the loop
    counts the whole batch as skipped. *)
Lemma checkDuplicates_all_held (l : list CreateMarketEvent) :
  forall db,
    Forall (held_once db) l -> served (length l) db ->
    checkDuplicates db l [] 0 = ([], length l, after_requests (length l) db).
Proof.
  induction l as [|c l IH]; intros db Hheld Hserved; simpl.
  - now rewrite after_requests_0.
  - inversion Hheld as [|? ? [row Hrow] Hrest]; subst.
    apply served_S in Hserved. destruct Hserved as [H1 Hn].
    unfold findExistingEvent, select_single. rewrite (request_served db H1).
    change (market_events (after_requests 1 db)) with (market_events db).
    rewrite Hrow. rewrite checkDuplicates_acc, IH; [|exact Hrest|exact Hn].
    now rewrite after_requests_S.
Qed.

(** C8, as stated, fails.  A batch with a repeated pair leaves two rows for
    the pair; on the second run each check finds two rows, which [single]
    reports as an error, and both candidates are inserted again.  And a
    check that fails stages its candidate although the table holds it. *)
Lemma repeated_ingest_inserts_again :
  (let db1 := snd (createEvents (Sample.store [] []) [Sample.first; Sample.second]) in
   db1 = Sample.store [Sample.row 0 Sample.first; Sample.row 1 Sample.second] []
   /\ createEvents db1 [Sample.first; Sample.second]
      = (Normal {| created := [Sample.row 2 Sample.first; Sample.row 3 Sample.second];
                   skipped := 0 |},
         Sample.store [Sample.row 0 Sample.first; Sample.row 1 Sample.second;
                       Sample.row 2 Sample.first; Sample.row 3 Sample.second] []))
  /\ createEvents
       (Sample.store [Sample.row 0 Sample.first]
          [Some (ErrorResponse "57014" "statement timeout")])
       [Sample.first]
     = (Normal {| created := [Sample.row 1 Sample.first]; skipped := 0 |},
        Sample.store [Sample.row 0 Sample.first; Sample.row 1 Sample.first] []).
Proof. repeat split. Qed.

(** C8, amended. When the table holds exactly one row with the event and
    date of each candidate of the batch and the existence checks are
    served, [createEvents] returns no created record and counts the whole
    batch as skipped; it sends no insert and the table is unchanged. *)
Theorem repeated_ingest_skips_all (db : Supabase) (batch : list CreateMarketEvent) :
  Forall (held_once db) batch ->
  served (length batch) db ->
  createEvents db batch
  = (Normal {| created := []; skipped := length batch |},
     after_requests (length batch) db).
Proof.
  intros Hheld Hserved. unfold createEvents.
  now rewrite (checkDuplicates_all_held batch db Hheld Hserved).
Qed.

Lemma repeated_ingest_skips_all_witness :
  Forall (held_once (Sample.store [Sample.row 0 Sample.first] []))
    [Sample.first; Sample.second]
  /\ served 2 (Sample.store [Sample.row 0 Sample.first] [])
  /\ createEvents (Sample.store [Sample.row 0 Sample.first] [])
       [Sample.first; Sample.second]
     = (Normal {| created := []; skipped := 2 |},
        after_requests 2 (Sample.store [Sample.row 0 Sample.first] [])).
Proof.
  assert (H1 : Forall (held_once (Sample.store [Sample.row 0 Sample.first] []))
                 [Sample.first; Sample.second])
    by (repeat constructor; exists (Sample.row 0 Sample.first); reflexivity).
  assert (H2 : served 2 (Sample.store [Sample.row 0 Sample.first] []))
    by constructor.
  split; [exact H1|]. split; [exact H2|].
  exact (repeated_ingest_skips_all _ [Sample.first; Sample.second] H1 H2).
Defined.

(** X4. When the batch insert fails, [createEvents] throws and the table
    is as it was: nothing of the batch is committed. *)
Theorem failed_insert_creates_nothing (db db1 : Supabase)
    (batch u : list CreateMarketEvent) (k : nat) (f : Failure) :
  checkDuplicates db batch [] 0 = (u, k, db1) ->
  u <> [] ->
  fst (request db1) = Some f ->
  (exists e, fst (createEvents db batch) = Throw e)
  /\ market_events (snd (createEvents db batch)) = market_events db.
Proof.
  intros Hloop Hu Hf. unfold createEvents. rewrite Hloop.
  destruct (checkDuplicates_total _ _ _ _ _ Hloop) as [_ Ht].
  replace (length u =? 0)%nat with false
    by (symmetry; apply Nat.eqb_neq; destruct u; [contradiction | discriminate]).
  unfold insert. pose proof (request_table db1) as Hr.
  destruct (request db1) as [f' db2]. simpl in Hf, Hr. subst f'.
  destruct f as [code message|e]; simpl; (split; [eexists; reflexivity|]);
    now rewrite Hr, Ht.
Qed.

Lemma failed_insert_creates_nothing_witness :
  (exists e,
     fst (createEvents
            (Sample.store []
               [None; Some (ErrorResponse "23514" "check constraint violated")])
            [Sample.first]) = Throw e)
  /\ market_events
       (snd (createEvents
               (Sample.store []
                  [None; Some (ErrorResponse "23514" "check constraint violated")])
               [Sample.first]))
     = market_events
         (Sample.store []
            [None; Some (ErrorResponse "23514" "check constraint violated")]).
Proof.
  apply (failed_insert_creates_nothing _
           (Sample.store [] [Some (ErrorResponse "23514" "check constraint violated")])
           [Sample.first] [Sample.first] 0
           (ErrorResponse "23514" "check constraint violated")).
  - reflexivity.
  - discriminate.
  - reflexivity.
Defined.

(** The loop stages candidates of the batch in the order of the batch. *)
Lemma checkDuplicates_in_order (l : list CreateMarketEvent) :
  forall db u k db',
    checkDuplicates db l [] 0 = (u, k, db') -> in_order u l.
Proof.
  induction l as [|c l IH]; intros db u k db' H; simpl in H.
  - injection H as <- _ _. constructor.
  - destruct (findExistingEvent db c) as [[row|] db1];
      rewrite checkDuplicates_acc in H;
      destruct (checkDuplicates db1 l [] 0) as [[u' k'] db2] eqn:E;
      injection H as <- _ _; simpl.
    + apply in_order_left_out. exact (IH _ _ _ _ E).
    + apply in_order_kept. exact (IH _ _ _ _ E).
Qed.

(** X7. When [createEvents] returns, every candidate of the batch is
    either among the created records or counted as skipped; the created
    records carry candidates of the batch, one record for each staged
    candidate, in the order of the batch; and the table is the table
    before followed by the created records. *)
Theorem created_and_skipped_add_up (db db' : Supabase)
    (batch : list CreateMarketEvent) (r : Created) :
  createEvents db batch = (Normal r, db') ->
  length (created r) + skipped r = length batch
  /\ in_order (map fields (created r)) batch
  /\ map fields (created r) = fst (fst (checkDuplicates db batch [] 0))
  /\ market_events db' = (market_events db ++ created r)%list.
Proof.
  unfold createEvents.
  destruct (checkDuplicates db batch [] 0) as [[u k] db1] eqn:E.
  destruct (checkDuplicates_total _ _ _ _ _ E) as [Hlen Ht].
  pose proof (checkDuplicates_in_order _ _ _ _ _ E) as Hord. simpl.
  destruct (length u =? 0)%nat eqn:Hu.
  - intros H. injection H as <- <-. apply Nat.eqb_eq in Hu. simpl.
    destruct u; [|discriminate]. rewrite app_nil_r.
    repeat split; [lia | exact Hord | exact Ht].
  - unfold insert. pose proof (request_table db1) as Hr.
    destruct (request db1) as [[f|] db2]; simpl in *.
    + destruct f; discriminate.
    + intros H. injection H as <- <-. simpl.
      rewrite number_rows_fields, Hr, Ht. repeat split; [|exact Hord].
      rewrite <- (number_rows_fields (next_id db2) (now db2) u) in Hlen.
      rewrite length_map in Hlen. exact Hlen.
Qed.

(** The table holds [first]; of the batch, the new candidate is created
    and the held one is skipped. *)
Lemma created_and_skipped_add_up_witness :
  let db := Sample.store [Sample.row 0 Sample.first] [] in
  createEvents db [cpi; Sample.first]
  = (Normal {| created := [Sample.row 1 cpi]; skipped := 1 |},
     Sample.store [Sample.row 0 Sample.first; Sample.row 1 cpi] [])
  /\ length [Sample.row 1 cpi] + 1 = length [cpi; Sample.first]
  /\ in_order (map fields [Sample.row 1 cpi]) [cpi; Sample.first]
  /\ map fields [Sample.row 1 cpi]
     = fst (fst (checkDuplicates db [cpi; Sample.first] [] 0))
  /\ market_events (Sample.store [Sample.row 0 Sample.first; Sample.row 1 cpi] [])
     = (market_events db ++ [Sample.row 1 cpi])%list.
Proof.
  intros db. split; [reflexivity|].
  exact (created_and_skipped_add_up db
           (Sample.store [Sample.row 0 Sample.first; Sample.row 1 cpi] [])
           [cpi; Sample.first]
           {| created := [Sample.row 1 cpi]; skipped := 1 |} eq_refl).
Defined.

End Ingest.

(** ** Dates *)

Section Calendar.
Import JS.
Local Open Scope Z_scope.

Ltac euclid := Z.to_euclidean_division_equations; lia.

(** [MakeDay] inverts [civil_from_days]: from the year and the month of a
    day, the day number [date] is [date - 1] days after the first of that
    month. *)
Lemma MakeDay_civil (z date : Z) :
  let '(y, m, d) := civil_from_days z in MakeDay y m date = z - d + date.
Proof.
  unfold civil_from_days, MakeDay. cbv zeta.
  set (z' := z + 719468).
  set (era := z' / 146097). set (doe := z' mod 146097).
  assert (Hdoe : 0 <= doe < 146097) by (apply Z.mod_pos_bound; lia).
  assert (Hz : z' = 146097 * era + doe) by (apply Z.div_mod; lia).
  set (c := Z.min (doe / 36524) 3).
  set (r1 := doe - 36524 * c).
  set (q := Z.min (r1 / 1461) 24).
  set (r2 := r1 - 1461 * q).
  set (a := Z.min (r2 / 365) 3).
  set (doy := r2 - 365 * a).
  assert (Hc : 0 <= c <= 3) by (unfold c; euclid).
  assert (Hr1 : 0 <= r1 <= 36524) by (unfold r1, c; euclid).
  assert (Hq : 0 <= q <= 24) by (unfold q; euclid).
  assert (Hr2 : 0 <= r2 <= 1460) by (unfold r2, q; euclid).
  assert (Ha : 0 <= a <= 3) by (unfold a; euclid).
  assert (Hdoy : 0 <= doy <= 365) by (unfold doy, a; euclid).
  set (mp := (5 * doy + 2) / 153).
  assert (Hmp : 0 <= mp <= 11) by (unfold mp; euclid).
  set (m := if mp <? 10 then mp + 2 else mp - 10).
  assert (Hm : 0 <= m <= 11) by (unfold m; destruct (mp <? 10) eqn:E; lia).
  assert (Hmm : (if 1 <? m then m - 2 else m + 10) = mp).
  { unfold m. destruct (mp <? 10) eqn:E; [apply Z.ltb_lt in E | apply Z.ltb_ge in E].
    - destruct (1 <? mp + 2) eqn:E2; [lia | apply Z.ltb_ge in E2; lia].
    - destruct (1 <? mp - 10) eqn:E2; [apply Z.ltb_lt in E2; lia | lia]. }
  replace (m / 12) with 0 by (symmetry; apply Z.div_small; lia).
  replace (m mod 12) with m by (symmetry; apply Z.mod_small; lia).
  rewrite Hmm.
  set (yoe := 100 * c + 4 * q + a).
  replace (yoe + era * 400 + (if m <=? 1 then 1 else 0) + 0
           - (if m <=? 1 then 1 else 0))
    with (yoe + era * 400) by lia.
  assert (Hyoe : 0 <= yoe < 400) by (unfold yoe; lia).
  replace ((yoe + era * 400) / 400) with era
    by (rewrite Z.div_add by lia; rewrite Z.div_small by lia; lia).
  replace ((yoe + era * 400) mod 400) with yoe
    by (rewrite Z.mod_add by lia; rewrite Z.mod_small by lia; lia).
  assert (H4 : yoe / 4 = 25 * c + q) by (unfold yoe; euclid).
  assert (H100 : yoe / 100 = c) by (unfold yoe; euclid).
  rewrite H4, H100. unfold yoe, doy, r2, r1 in *. lia.
Qed.

Lemma Day_shift (t n : Z) : Day (t + n * msPerDay) = Day t + n.
Proof. unfold Day, msPerDay. now rewrite Z.div_add by lia. Qed.

Lemma TimeWithinDay_shift (t n : Z) :
  TimeWithinDay (t + n * msPerDay) = TimeWithinDay t.
Proof. unfold TimeWithinDay, msPerDay. now rewrite Z.mod_add by lia. Qed.

Variable LocalTZA : Z.

(** Setting the date to the current day of the month plus [n] moves the
    time value by [n] days. *)
Lemma setDate_relative (t n : Z) :
  setDate LocalTZA (Time t) (Some (DateFromTime (LocalTime LocalTZA t) + n))
  = TimeClip (t + n * msPerDay).
Proof.
  unfold setDate, YearFromTime, MonthFromTime, DateFromTime, UTC, MakeDate.
  set (lt := LocalTime LocalTZA t).
  pose proof (MakeDay_civil (Day lt) (snd (civil_from_days (Day lt)) + n)) as H.
  destruct (civil_from_days (Day lt)) as [[y m] d]. simpl in *. rewrite H.
  f_equal. unfold lt, LocalTime, Day, TimeWithinDay, msPerDay in *.
  pose proof (Z.div_mod (t + LocalTZA) 86400000 ltac:(lia)). lia.
Qed.

Lemma TimeClip_valid (t : Z) : Z.abs t <= maxTime -> TimeClip t = Time t.
Proof.
  intros H. unfold TimeClip.
  now replace (Z.abs t <=? maxTime) with true by (symmetry; now apply Z.leb_le).
Qed.

Lemma formatDate_long (t : Z) :
  AIService.formatDate LocalTZA (Time t)
  = long_date (civil_from_days (Day (LocalTime LocalTZA t))).
Proof.
  unfold AIService.formatDate, toLocaleDateString, long_date, YearFromTime,
    MonthFromTime, DateFromTime.
  now destruct (civil_from_days (Day (LocalTime LocalTZA t))) as [[y m] d].
Qed.

Lemma occurs_right (sub p s : string) : occurs sub s -> occurs sub (p ++ s).
Proof.
  intros (a & b & ->). exists (p ++ a), b. now rewrite append_assoc.
Qed.

Lemma buildMarketEventsPrompt_week (t : Z) :
  Z.abs (t + 6 * msPerDay) <= maxTime ->
  AIService.buildMarketEventsPrompt LocalTZA (Time t)
  = (AIService.prompt_head
     ++ long_date (civil_from_days (Day (LocalTime LocalTZA t)))
     ++ " to "
     ++ long_date (civil_from_days (Day (LocalTime LocalTZA t) + 6))
     ++ AIService.prompt_tail)%string.
Proof.
  intros H. unfold AIService.buildMarketEventsPrompt. cbv zeta.
  simpl getDate. simpl option_map. rewrite setDate_relative.
  rewrite (TimeClip_valid _ H), !formatDate_long.
  unfold LocalTime.
  replace (t + 6 * msPerDay + LocalTZA) with (t + LocalTZA + 6 * msPerDay) by lia.
  now rewrite Day_shift.
Qed.

(** C9, as stated, fails at the end of the range of Date: the last valid
    time value has no valid sixth day after it, and the prompt names the
    end of the week as an invalid date. *)
Lemma prompt_at_range_end :
  TimeClip maxTime = Time maxTime
  /\ AIService.buildMarketEventsPrompt 0 (Time maxTime)
     = (AIService.prompt_head ++ "September 13, 275760 to Invalid Date"
        ++ AIService.prompt_tail)%string.
Proof. split; vm_compute; reflexivity. Qed.

(** C9, amended. The prompt is computed from [weekStart] (and the host's
    zone offset) alone.  For a valid [weekStart] whose sixth following day
    is within the range of Date, it is the fixed text around the range
    from the day of [weekStart] to the day six days later, both in long
    form; it lists the seven canonical types, asks for a JSON array, shows
    the six fields of an element and asks for 10 to 15 events. *)
Theorem prompt_states_week (t : Z) :
  Z.abs t <= maxTime ->
  t + 6 * msPerDay <= maxTime ->
  AIService.buildMarketEventsPrompt LocalTZA (Time t)
  = (AIService.prompt_head
     ++ long_date (civil_from_days (Day (LocalTime LocalTZA t)))
     ++ " to "
     ++ long_date (civil_from_days (Day (LocalTime LocalTZA t) + 6))
     ++ AIService.prompt_tail)%string
  /\ occurs
       (dq "Valid event types: 'Economic', 'Fed', 'Crypto', 'Retail/Geopolitical', 'Holiday', 'Geopolitical', 'Corporate'")
       (AIService.buildMarketEventsPrompt LocalTZA (Time t))
  /\ occurs "Format your response as a valid JSON array"
       (AIService.buildMarketEventsPrompt LocalTZA (Time t))
  /\ Forall (fun field =>
               occurs (dq "'" ++ field ++ dq "': ")
                 (AIService.buildMarketEventsPrompt LocalTZA (Time t)))
       required_fields
  /\ occurs "Generate 10-15 events"
       (AIService.buildMarketEventsPrompt LocalTZA (Time t)).
Proof.
  intros Hlo Hhi.
  assert (H : Z.abs (t + 6 * msPerDay) <= maxTime)
    by (unfold msPerDay, maxTime in *; lia).
  rewrite (buildMarketEventsPrompt_week t H).
  split; [reflexivity|].
  unfold required_fields.
  repeat match goal with
         | |- _ /\ _ => split
         | |- Forall _ _ => constructor
         end;
    do 4 apply occurs_right; apply contains_sound; vm_compute; reflexivity.
Qed.

Lemma WeekDay_range (t : Z) : 0 <= WeekDay t <= 6.
Proof. unfold WeekDay. pose proof (Z.mod_pos_bound (Day t + 4) 7). lia. Qed.

(** Going back by the day of the week lands on a Sunday. *)
Lemma WeekDay_back (t : Z) : WeekDay (t - WeekDay t * msPerDay) = 0.
Proof.
  replace (t - WeekDay t * msPerDay) with (t + (- WeekDay t) * msPerDay) by lia.
  unfold WeekDay at 1. rewrite Day_shift. unfold WeekDay.
  replace (Day t + - ((Day t + 4) mod 7) + 4)
    with ((Day t + 4) - (Day t + 4) mod 7) by lia.
  rewrite Zminus_mod, Z.mod_mod, Z.sub_diag by lia. reflexivity.
Qed.

Lemma getCurrentWeekStart_time (now : Z) :
  AIService.getCurrentWeekStart LocalTZA (Time now)
  = TimeClip (now - WeekDay (LocalTime LocalTZA now) * msPerDay).
Proof.
  unfold AIService.getCurrentWeekStart, getDate, getDay. cbv beta iota.
  replace (DateFromTime (LocalTime LocalTZA now) - WeekDay (LocalTime LocalTZA now))
    with (DateFromTime (LocalTime LocalTZA now)
          + - WeekDay (LocalTime LocalTZA now)) by lia.
  rewrite setDate_relative. f_equal. lia.
Qed.

Variable callAI : string -> Completion (string * list string).

Lemma WeekDay_forth (t k : Z) :
  WeekDay t = 0 -> 0 <= k <= 6 -> WeekDay (t + k * msPerDay) = k.
Proof.
  unfold WeekDay. rewrite Day_shift. intros H Hk.
  replace (Day t + k + 4) with (k + (Day t + 4)) by lia.
  rewrite Zplus_mod, H, Z.add_0_r, Z.mod_mod by lia.
  apply Z.mod_small. lia.
Qed.

(** C10. Called without a week start, [generateWeeklyMarketEvents] works on
    the week that [getCurrentWeekStart] gives: the prompt that [callAI]
    receives is the prompt of that day, and the result is what the parser
    makes of the answer.  In the local time of the host, that day is a
    Sunday (day 0 of the week), it is today moved back by today's day of
    the week, which is at most six days, at the same time of day, and the
    days that follow it are days 1 to 6 of the week: it is the most recent
    Sunday on or before today.  When the Saturday that ends the week is in
    the range of Date, the prompt names the week from that Sunday to that
    Saturday.  The clock is taken to read a time in the range of Date, six
    days or more after its start. *)
Theorem default_week_starts_on_sunday (now : Z) :
  - maxTime + 6 * msPerDay <= now <= maxTime ->
  exists sunday,
    AIService.getCurrentWeekStart LocalTZA (Time now) = Time sunday
    /\ AIService.generateWeeklyMarketEvents LocalTZA callAI (Time now) None
       = AIService.rethrow "Failed to generate market events: "
           (r <- callAI (AIService.buildMarketEventsPrompt LocalTZA (Time sunday)) ;;
            AIService.parseAIResponse (fst r) (snd r))
    /\ getDay LocalTZA (Time sunday) = Some 0
    /\ 0 <= WeekDay (LocalTime LocalTZA now) <= 6
    /\ Day (LocalTime LocalTZA sunday)
       = Day (LocalTime LocalTZA now) - WeekDay (LocalTime LocalTZA now)
    /\ TimeWithinDay (LocalTime LocalTZA sunday)
       = TimeWithinDay (LocalTime LocalTZA now)
    /\ (forall k, 0 <= k <= 6 ->
        WeekDay (LocalTime LocalTZA sunday + k * msPerDay) = k)
    /\ (now <= maxTime - 6 * msPerDay ->
        AIService.buildMarketEventsPrompt LocalTZA (Time sunday)
        = (AIService.prompt_head
           ++ long_date (civil_from_days
                           (Day (LocalTime LocalTZA now)
                            - WeekDay (LocalTime LocalTZA now)))
           ++ " to "
           ++ long_date (civil_from_days
                           (Day (LocalTime LocalTZA now)
                            - WeekDay (LocalTime LocalTZA now) + 6))
           ++ AIService.prompt_tail)%string).
Proof.
  intros Hnow. pose proof (WeekDay_range (LocalTime LocalTZA now)) as Hw.
  set (w := WeekDay (LocalTime LocalTZA now)) in *.
  assert (Hstart : AIService.getCurrentWeekStart LocalTZA (Time now)
                   = Time (now - w * msPerDay)).
  { rewrite getCurrentWeekStart_time. apply TimeClip_valid.
    unfold maxTime, msPerDay in *. lia. }
  assert (Hlocal : LocalTime LocalTZA (now - w * msPerDay)
                   = LocalTime LocalTZA now + (- w) * msPerDay)
    by (unfold LocalTime; lia).
  assert (Hday : Day (LocalTime LocalTZA (now - w * msPerDay))
                 = Day (LocalTime LocalTZA now) - w).
  { rewrite Hlocal, Day_shift. lia. }
  assert (Hsunday : WeekDay (LocalTime LocalTZA (now - w * msPerDay)) = 0).
  { replace (LocalTime LocalTZA (now - w * msPerDay))
      with (LocalTime LocalTZA now - w * msPerDay) by (unfold LocalTime; lia).
    apply WeekDay_back. }
  exists (now - w * msPerDay).
  split; [exact Hstart|]. split.
  { unfold AIService.generateWeeklyMarketEvents. now rewrite Hstart. }
  split; [simpl; now rewrite Hsunday|]. split; [exact Hw|].
  split; [exact Hday|]. split; [rewrite Hlocal; apply TimeWithinDay_shift|].
  split; [intros k Hk; now apply WeekDay_forth|].
  intros Hend. rewrite buildMarketEventsPrompt_week
    by (unfold maxTime, msPerDay in *; lia).
  now rewrite Hday.
Qed.

End Calendar.

(** Wednesday 3 December 2025, 07:33:20 UTC; the Sunday before it is
    30 November.  The provider answers the prompt of the week from
    30 November to 6 December and no other. *)
Lemma default_week_starts_on_sunday_witness :
  let callAI := fun prompt =>
    if prompt =? AIService.prompt_head ++ "November 30, 2025 to December 6, 2025"
                 ++ AIService.prompt_tail
    then Normal (Sample.response, [])
    else Throw (Error "another week") in
  (- JS.maxTime + 6 * JS.msPerDay <= 1764747200000 <= JS.maxTime)%Z
  /\ JS.WeekDay (JS.LocalTime 0 1764747200000) = 3%Z
  /\ AIService.generateWeeklyMarketEvents 0 callAI (JS.Time 1764747200000) None
     = Normal [Sample.normalized (JS.Str "Economic") None]
  /\ exists sunday,
       AIService.getCurrentWeekStart 0 (JS.Time 1764747200000) = JS.Time sunday
       /\ AIService.generateWeeklyMarketEvents 0 callAI (JS.Time 1764747200000) None
          = AIService.rethrow "Failed to generate market events: "
              (r <- callAI (AIService.buildMarketEventsPrompt 0 (JS.Time sunday)) ;;
               AIService.parseAIResponse (fst r) (snd r))
       /\ JS.getDay 0 (JS.Time sunday) = Some 0%Z
       /\ AIService.formatDate 0 (JS.Time sunday) = "November 30, 2025".
Proof.
  intros callAI.
  assert (H : (- JS.maxTime + 6 * JS.msPerDay <= 1764747200000 <= JS.maxTime)%Z)
    by (split; vm_compute; discriminate).
  split; [exact H|]. split; [reflexivity|]. split; [vm_compute; reflexivity|].
  destruct (default_week_starts_on_sunday 0 callAI 1764747200000 H)
    as (sunday & Hstart & Hgen & Hday & _).
  exists sunday. split; [exact Hstart|]. split; [exact Hgen|].
  split; [exact Hday|].
  vm_compute in Hstart. injection Hstart as <-. vm_compute. reflexivity.
Defined.

Lemma prompt_states_week_witness :
  (Z.abs 1764547200000 <= JS.maxTime)%Z
  /\ (1764547200000 + 6 * JS.msPerDay <= JS.maxTime)%Z
  /\ AIService.buildMarketEventsPrompt (-18000000) (JS.Time 1764547200000)
     = (AIService.prompt_head ++ "November 30, 2025 to December 6, 2025"
        ++ AIService.prompt_tail)%string
  /\ AIService.buildMarketEventsPrompt 0 (JS.Time 1764547200000)
     = (AIService.prompt_head ++ "December 1, 2025 to December 7, 2025"
        ++ AIService.prompt_tail)%string.
Proof.
  assert (H1 : (Z.abs 1764547200000 <= JS.maxTime)%Z) by (vm_compute; discriminate).
  assert (H2 : (1764547200000 + 6 * JS.msPerDay <= JS.maxTime)%Z)
    by (vm_compute; discriminate).
  split; [exact H1|]. split; [exact H2|]. split.
  - exact (proj1 (prompt_states_week (-18000000) 1764547200000 H1 H2)).
  - exact (proj1 (prompt_states_week 0 1764547200000 H1 H2)).
Defined.

(** ** Single records, updates and deletions *)

Section Records.
Import MarketEventsService MarketEventsRecords.

Lemma served_add (a b : nat) (db : Supabase) :
  served (a + b) db -> served a db /\ served b (after_requests a db).
Proof.
  revert db. induction a as [|a IH]; intros db H.
  - rewrite after_requests_0. split; [constructor | exact H].
  - apply served_S in H. destruct H as [H1 H].
    apply IH in H. destruct H as [Ha Hb]. rewrite after_requests_S in Hb.
    split; [|exact Hb].
    unfold served, after_requests in *. simpl in *.
    destruct (failures db) as [|f fs]; simpl in *; [constructor|].
    inversion H1; subst. now constructor.
Qed.

Lemma after_requests_add (a b : nat) (db : Supabase) :
  after_requests b (after_requests a db) = after_requests (a + b) db.
Proof.
  unfold after_requests. simpl. now rewrite skipn_skipn, Nat.add_comm.
Qed.

Lemma filter_none {A : Type} (p : A -> bool) (l : list A) :
  (forall x, In x l -> p x = false) -> filter p l = [].
Proof.
  induction l as [|x l IH]; intros H; simpl; [reflexivity|].
  rewrite (H x (or_introl eq_refl)). apply IH. intros y Hy. apply H. now right.
Qed.

Lemma filter_all {A : Type} (p : A -> bool) (l : list A) :
  (forall x, In x l -> p x = true) -> filter p l = l.
Proof.
  induction l as [|x l IH]; intros H; simpl; [reflexivity|].
  rewrite (H x (or_introl eq_refl)). f_equal. apply IH. intros y Hy. apply H. now right.
Qed.



Lemma delete_where_served (db : Supabase) (condition : MarketEvent -> bool) :
  served 1 db ->
  delete_where db condition
  = (Data (filter condition (market_events db)),
     with_rows (after_requests 1 db)
       (filter (fun r => negb (condition r)) (market_events db))).
Proof.
  intros H. unfold delete_where. now rewrite (request_served db H).
Qed.



Lemma filter_patched (key : nat) (updates : Partial.UpdateMarketEvent) (time : Z)
    (rows : list MarketEvent) :
  filter (has_id key)
    (map (fun r => if has_id key r then patch updates time r else r) rows)
  = map (patch updates time) (filter (has_id key) rows).
Proof.
  induction rows as [|r rows IH]; simpl; [reflexivity|].
  destruct (has_id key r) eqn:E.
  - unfold has_id in *. cbn [patch id]. rewrite E. simpl. now rewrite IH.
  - rewrite E. exact IH.
Qed.

(** X11. [updateEvent] with at least one field, on a table that holds one
    record with the key: the record takes the given fields and keeps the
    others, its key and its creation time; every other record stays as it
    is, at its place; the updated record is returned, and [getEventById]
    returns it afterwards. *)
Theorem update_changes_one_record (db : Supabase) (key : nat)
    (updates : Partial.UpdateMarketEvent) (row : MarketEvent) :
  filter (has_id key) (market_events db) = [row] ->
  Partial.is_empty updates = false ->
  served 2 db ->
  exists updated db1,
    updateEvent db key updates = (Normal (Some updated), db1)
    /\ id updated = key
    /\ created_at updated = created_at row
    /\ fields updated = assign updates (fields row)
    /\ length (market_events db1) = length (market_events db)
    /\ (forall n r, nth_error (market_events db) n = Some r -> id r <> key ->
        nth_error (market_events db1) n = Some r)
    /\ getEventById db1 key = (Normal (Some updated), after_requests 1 db1).
Proof.
  intros Hrow Hgiven Hserved.
  apply (served_add 1 1) in Hserved. destruct Hserved as [H1 H2].
  assert (Hkey : id row = key).
  { assert (Hin : In row (filter (has_id key) (market_events db)))
      by (rewrite Hrow; now left).
    apply filter_In in Hin. destruct Hin as [_ Hin]. now apply Nat.eqb_eq in Hin. }
  unfold updateEvent, update_by_id. rewrite (request_served db H1), Hgiven.
  change (market_events (after_requests 1 db)) with (market_events db).
  change (now (after_requests 1 db)) with (now db).
  rewrite Hrow. cbn [map single].
  eexists. eexists. split; [reflexivity|].
  split; [exact Hkey|]. split; [reflexivity|]. split; [reflexivity|].
  cbn [market_events with_rows]. split; [apply length_map|]. split.
  - intros n r Hn Hr. rewrite nth_error_map, Hn. cbn [option_map].
    unfold has_id. now replace (id r =? key)%nat with false
      by (symmetry; now apply Nat.eqb_neq).
  - unfold getEventById, select_by_id.
    match goal with
    | |- context [request ?d] =>
        assert (Hs : served 1 d) by exact H2; rewrite (request_served d Hs)
    end.
    cbn [market_events after_requests with_rows].
    now rewrite filter_patched, Hrow.
Qed.

Lemma update_changes_one_record_witness :
  let db := Sample.store [Sample.row 0 Sample.first; Sample.row 1 cpi] [] in
  let updates :=
    {| Partial.date := None; Partial.event := None; Partial.type := None;
       Partial.description := Some "Revised";
       Partial.significance := Some Low;
       Partial.market_sentiment := None; Partial.citations := None |} in
  exists updated db1,
    updateEvent db 1 updates = (Normal (Some updated), db1)
    /\ description (fields updated) = "Revised"
    /\ event (fields updated) = "US CPI"
    /\ market_events db1 = [Sample.row 0 Sample.first; updated]
    /\ getEventById db1 1 = (Normal (Some updated), after_requests 1 db1).
Proof.
  intros db updates.
  destruct (update_changes_one_record db 1 updates (Sample.row 1 cpi)
              eq_refl eq_refl ltac:(constructor))
    as (updated & db1 & Hu & _ & _ & _ & _ & _ & Hg).
  exists updated, db1. injection Hu as <- <-.
  repeat split; try reflexivity; exact Hg.
Defined.



(** *** The loop over a served store *)

Lemma checkDuplicates_served (l : list CreateMarketEvent) :
  forall db,
    served (length l) db ->
    checkDuplicates db l [] 0
    = (filter (fun c => negb (held db c)) l, length (filter (held db) l),
       after_requests (length l) db).
Proof.
  induction l as [|c l IH]; intros db Hserved; simpl.
  - now rewrite after_requests_0.
  - apply served_S in Hserved. destruct Hserved as [H1 Hn].
    unfold findExistingEvent, select_single. rewrite (request_served db H1).
    change (market_events (after_requests 1 db)) with (market_events db).
    assert (Hh : held db c
                 = match filter (matches (event c) (date c)) (market_events db) with
                   | [_] => true
                   | _ => false
                   end) by reflexivity.
    rewrite Hh. clear Hh.
    destruct (filter (matches (event c) (date c)) (market_events db))
      as [|r [|r' rest]]; cbn [String.eqb Ascii.eqb Bool.eqb negb];
      rewrite checkDuplicates_acc, (IH _ Hn), after_requests_S; reflexivity.
Qed.

Lemma NoDup_map_eq {A B : Type} (f : A -> B) (l : list A) (x y : A) :
  NoDup (map f l) -> In x l -> In y l -> f x = f y -> x = y.
Proof.
  induction l as [|a l IH]; simpl; intros Hnd Hx Hy Hxy; [contradiction|].
  inversion Hnd as [|? ? Hnotin Hnd']; subst.
  destruct Hx as [<-|Hx], Hy as [<-|Hy].
  - reflexivity.
  - exfalso. apply Hnotin. rewrite Hxy. now apply in_map.
  - exfalso. apply Hnotin. rewrite <- Hxy. now apply in_map.
  - now apply IH.
Qed.

(** Leaving candidates out of a batch keeps its pairs distinct. *)
Lemma distinct_pairs_filter (keep : CreateMarketEvent -> bool)
    (batch : list CreateMarketEvent) :
  distinct_pairs batch -> distinct_pairs (filter keep batch).
Proof.
  unfold distinct_pairs.
  induction batch as [|c batch IH]; simpl; intros Hnd; [constructor|].
  apply NoDup_cons_iff in Hnd. destruct Hnd as [Hfresh Hnd].
  destruct (keep c); [|now apply IH]. simpl.
  apply NoDup_cons; [|now apply IH].
  intros Hin. apply Hfresh. apply in_map_iff in Hin.
  destruct Hin as (x & Hx & Hin). apply filter_In in Hin.
  apply in_map_iff. exists x. tauto.
Qed.

Lemma is_pair_key (ev dt : string) (c : CreateMarketEvent) :
  is_pair ev dt c = true <-> (event c, date c) = (ev, dt).
Proof.
  unfold is_pair. rewrite andb_true_iff, !String.eqb_eq. split.
  - now intros [-> ->].
  - intros H. now injection H.
Qed.

Lemma filter_number_rows (ev dt : string) (t : Z) (u : list CreateMarketEvent) :
  forall n,
    length (filter (matches ev dt) (number_rows n t u))
    = length (filter (is_pair ev dt) u).
Proof.
  induction u as [|c u IH]; intros n; simpl; [reflexivity|].
  unfold matches at 1, is_pair at 1. cbn [fields].
  destruct ((event c =? ev) && (date c =? dt)); simpl; now rewrite IH.
Qed.

Lemma distinct_pairs_once (ev dt : string) (u : list CreateMarketEvent) :
  distinct_pairs u -> length (filter (is_pair ev dt) u) <= 1.
Proof.
  unfold distinct_pairs. induction u as [|c u IH]; simpl; intros Hnd; [lia|].
  inversion Hnd as [|? ? Hnotin Hnd']; subst.
  destruct (is_pair ev dt c) eqn:E; [|now apply IH].
  rewrite filter_none; [simpl; lia|].
  intros x Hx. destruct (is_pair ev dt x) eqn:Ex; [|reflexivity].
  exfalso. apply Hnotin. apply is_pair_key in E, Ex. rewrite E, <- Ex.
  now apply (in_map (fun c => (event c, date c))).
Qed.

Lemma not_held_absent (db : Supabase) (c : CreateMarketEvent) :
  at_most_once db -> held db c = false ->
  filter (matches (event c) (date c)) (market_events db) = [].
Proof.
  intros Hat Hc. specialize (Hat (event c) (date c)). unfold held in Hc.
  destruct (filter (matches (event c) (date c)) (market_events db))
    as [|r [|r' rest]]; [reflexivity | discriminate | simpl in Hat; lia].
Qed.

Lemma length_one {A : Type} (l : list A) : length l = 1 -> exists x, l = [x].
Proof.
  destruct l as [|x [|y l]]; simpl; intros H; try discriminate. now exists x.
Qed.

(** X5. Ingesting is idempotent under the two conditions the existence
    check relies on.  When no pair of event and date is twice in the batch
    or twice in the table and the requests are served, a first
    [createEvents] creates the candidates that are not held, after which
    the table holds every candidate of the batch once and again no pair
    twice; a second [createEvents] of the same batch creates nothing,
    counts the whole batch as skipped and leaves the table alone. *)
Theorem ingest_is_idempotent (db : Supabase) (batch : list CreateMarketEvent) :
  distinct_pairs batch ->
  at_most_once db ->
  served (2 * length batch + 1) db ->
  exists r db1,
    createEvents db batch = (Normal r, db1)
    /\ map fields (created r) = filter (fun c => negb (held db c)) batch
    /\ at_most_once db1
    /\ Forall (held_once db1) batch
    /\ createEvents db1 batch
       = (Normal {| created := []; skipped := length batch |},
          after_requests (length batch) db1).
Proof.
  intros Hnd Hat Hserved.
  assert (Hn0 : served (length batch) (after_requests (length batch) db)).
  { replace (2 * length batch + 1) with (length batch + (length batch + 1))
      in Hserved by lia.
    apply served_add in Hserved. destruct Hserved as [_ Hrest].
    now apply served_add in Hrest. }
  replace (2 * length batch + 1) with (length batch + (1 + length batch))
    in Hserved by lia.
  apply served_add in Hserved. destruct Hserved as [Hn Hrest].
  apply served_add in Hrest. destruct Hrest as [H1 Hn2].
  set (u := filter (fun c => negb (held db c)) batch).
  assert (Hu : distinct_pairs u) by (apply distinct_pairs_filter; exact Hnd).
  set (db0 := after_requests (length batch) db) in *.
  set (rows := number_rows (next_id db0) (now db0) u).
  set (db1 := {| market_events := (market_events db ++ rows)%list;
                 failures := failures (after_requests 1 db0);
                 next_id := next_id db0 + length u;
                 now := now db0 |}).
  assert (Hcount : forall ev dt,
             length (filter (matches ev dt) (market_events db1))
             = length (filter (matches ev dt) (market_events db))
               + length (filter (is_pair ev dt) u)).
  { intros ev dt. cbn [market_events db1]. rewrite filter_app, length_app.
    unfold rows. now rewrite filter_number_rows. }
  assert (Hat1 : at_most_once db1).
  { intros ev dt. rewrite Hcount.
    pose proof (distinct_pairs_once ev dt u Hu) as Hle.
    destruct (filter (is_pair ev dt) u) as [|c rest] eqn:E; [specialize (Hat ev dt); simpl; lia|].
    assert (Hin : In c (filter (is_pair ev dt) u)) by (rewrite E; now left).
    apply filter_In in Hin. destruct Hin as [Hin Hc].
    unfold u in Hin. apply filter_In in Hin. destruct Hin as [_ Hh].
    apply negb_true_iff in Hh. apply (not_held_absent db c Hat) in Hh.
    apply is_pair_key in Hc. injection Hc as <- <-. rewrite Hh. exact Hle. }
  assert (Hheld1 : Forall (held_once db1) batch).
  { apply Forall_forall. intros c Hc. unfold held_once.
    apply length_one. rewrite Hcount.
    destruct (held db c) eqn:Hh.
    - assert (E : filter (is_pair (event c) (date c)) u = []).
      { apply filter_none. intros x Hx.
        destruct (is_pair (event c) (date c) x) eqn:Ex; [|reflexivity].
        unfold u in Hx. apply filter_In in Hx. destruct Hx as [Hx Hhx].
        apply is_pair_key in Ex.
        rewrite (NoDup_map_eq _ batch x c Hnd Hx Hc Ex) in Hhx.
        rewrite Hh in Hhx. discriminate. }
      rewrite E. unfold held in Hh.
      destruct (filter (matches (event c) (date c)) (market_events db))
        as [|r [|r' rest]]; try discriminate. reflexivity.
    - rewrite (not_held_absent db c Hat Hh).
      pose proof (distinct_pairs_once (event c) (date c) u Hu) as Hle.
      assert (Hin : In c (filter (is_pair (event c) (date c)) u)).
      { apply filter_In. split.
        - unfold u. apply filter_In. split; [exact Hc | now rewrite Hh].
        - now apply is_pair_key. }
      destruct (filter (is_pair (event c) (date c)) u); [contradiction|].
      simpl in *. lia. }
  unfold createEvents at 1. rewrite (checkDuplicates_served batch db Hn).
  fold u. fold db0.
  destruct (length u =? 0)%nat eqn:Elen.
  - apply Nat.eqb_eq in Elen.
    assert (Eu : u = []) by (destruct u; [reflexivity | discriminate]).
    assert (Edb : db1 = after_requests 1 db0) by (unfold db1, rows; rewrite Eu; cbn [number_rows length]; rewrite app_nil_r, Nat.add_0_r; reflexivity).
    exists {| created := []; skipped := length (filter (held db) batch) |}, db0.
    split; [reflexivity|]. split; [now rewrite Eu|].
    assert (Hheld0 : Forall (held_once db0) batch).
    { eapply Forall_impl; [|exact Hheld1]. intros c. unfold held_once.
      now rewrite Edb. }
    split; [intros ev dt; specialize (Hat1 ev dt); now rewrite Edb in Hat1|].
    split; [exact Hheld0|].
    unfold createEvents. rewrite (checkDuplicates_all_held batch db0 Hheld0).
    + reflexivity.
    + exact Hn0.
  - unfold insert. rewrite (request_served db0 H1).
    exists {| created := rows; skipped := length (filter (held db) batch) |}, db1.
    split; [reflexivity|]. split; [apply number_rows_fields|].
    split; [exact Hat1|]. split; [exact Hheld1|].
    unfold createEvents. rewrite (checkDuplicates_all_held batch db1 Hheld1).
    + reflexivity.
    + exact Hn2.
Qed.

Lemma ingest_is_idempotent_witness :
  let db := Sample.store [Sample.row 0 Sample.first] [] in
  distinct_pairs [Sample.first; cpi]
  /\ at_most_once db
  /\ served 5 db
  /\ exists r db1,
       createEvents db [Sample.first; cpi] = (Normal r, db1)
       /\ map fields (created r) = [cpi]
       /\ market_events db1 = [Sample.row 0 Sample.first; Sample.row 1 cpi]
       /\ createEvents db1 [Sample.first; cpi]
          = (Normal {| created := []; skipped := 2 |}, after_requests 2 db1).
Proof.
  intros db.
  assert (H1 : distinct_pairs [Sample.first; cpi]).
  { repeat constructor; simpl; intuition discriminate. }
  assert (H2 : at_most_once db).
  { intros ev dt. unfold db. simpl.
    destruct (matches ev dt (Sample.row 0 Sample.first)); simpl; lia. }
  assert (H3 : served 5 db) by constructor.
  split; [exact H1|]. split; [exact H2|]. split; [exact H3|].
  destruct (ingest_is_idempotent db [Sample.first; cpi] H1 H2 H3)
    as (r & db1 & Hc & Hf & _ & _ & Hagain).
  exists r, db1. injection Hc as <- <-.
  repeat split; try reflexivity; exact Hagain.
Defined.

(** X13. Clearing the table and ingesting, as [DELETE /clear-regenerate]
    does: a served [deleteAllEvents] returns the number of rows and leaves
    an empty table, and the [createEvents] that follows skips nothing: it
    creates every candidate of the batch, in order, repeated pairs
    included. *)
Theorem clear_then_ingest_creates_all (db : Supabase)
    (batch : list CreateMarketEvent) :
  batch <> [] ->
  served (length batch + 2) db ->
  exists db1 rows db2,
    deleteAllEvents db = (Normal (length (market_events db)), db1)
    /\ market_events db1 = []
    /\ createEvents db1 batch = (Normal {| created := rows; skipped := 0 |}, db2)
    /\ map fields rows = batch
    /\ market_events db2 = rows.
Proof.
  intros Hne Hserved.
  replace (length batch + 2) with (1 + (length batch + 1)) in Hserved by lia.
  apply served_add in Hserved. destruct Hserved as [H1 Hrest].
  apply served_add in Hrest. destruct Hrest as [Hn Hlast].
  unfold deleteAllEvents. rewrite (delete_where_served db _ H1).
  rewrite (filter_all (fun _ => true)) by reflexivity.
  rewrite (filter_none (fun r => negb true)) by reflexivity.
  set (db1 := with_rows (after_requests 1 db) []).
  assert (Hloop : checkDuplicates db1 batch [] 0
                  = (batch, 0, after_requests (length batch) db1)).
  { rewrite (checkDuplicates_served batch db1 Hn).
    rewrite filter_all by reflexivity. now rewrite filter_none by reflexivity. }
  exists db1. unfold createEvents. rewrite Hloop.
  replace (length batch =? 0)%nat with false
    by (symmetry; apply Nat.eqb_neq; destruct batch; [contradiction | discriminate]).
  unfold insert.
  rewrite (request_served (after_requests (length batch) db1) Hlast).
  eexists. eexists. split; [reflexivity|]. split; [reflexivity|].
  split; [reflexivity|]. split; [apply number_rows_fields | reflexivity].
Qed.

Lemma clear_then_ingest_creates_all_witness :
  let db := Sample.store [Sample.row 0 Sample.first; Sample.row 1 Sample.first] [] in
  exists db1 rows db2,
    deleteAllEvents db = (Normal 2, db1)
    /\ market_events db1 = []
    /\ createEvents db1 [Sample.first; Sample.second]
       = (Normal {| created := rows; skipped := 0 |}, db2)
    /\ map fields rows = [Sample.first; Sample.second]
    /\ market_events db2 = rows.
Proof.
  intros db.
  exact (clear_then_ingest_creates_all db [Sample.first; Sample.second]
           ltac:(discriminate) ltac:(constructor)).
Defined.

(** X14. [deleteOldEvents] cuts at the reading of the clock minus
    [daysOld] times 24 hours, whatever the month, the year and the zone
    offset of the host.  When that instant is in the range of Date and the
    request is served, the rows created before it leave the table and are
    counted, the rows created at or after it stay in their order, and a
    second call at the same reading of the clock deletes nothing. *)
Theorem old_events_deleted (LocalTZA : Z) (db : Supabase) (now daysOld : Z) :
  let cutoff := (now - daysOld * JS.msPerDay)%Z in
  (Z.abs cutoff <= JS.maxTime)%Z ->
  served 2 db ->
  exists db1,
    deleteOldEvents LocalTZA db (JS.Time now) daysOld
    = (Normal (length (filter (fun r => (created_at r <? cutoff)%Z)
                         (market_events db))), db1)
    /\ market_events db1
       = filter (fun r => (cutoff <=? created_at r)%Z) (market_events db)
    /\ deleteOldEvents LocalTZA db1 (JS.Time now) daysOld
       = (Normal 0, after_requests 1 db1).
Proof.
  intros cutoff Hrange Hserved.
  apply (served_add 1 1) in Hserved. destruct Hserved as [H1 H2].
  assert (Hcut : JS.setDate LocalTZA (JS.Time now)
                   (option_map (fun d => d - daysOld)%Z
                      (JS.getDate LocalTZA (JS.Time now)))
                 = JS.Time cutoff).
  { cbn [JS.getDate option_map].
    replace (JS.DateFromTime (JS.LocalTime LocalTZA now) - daysOld)%Z
      with (JS.DateFromTime (JS.LocalTime LocalTZA now) + - daysOld)%Z by lia.
    rewrite setDate_relative.
    replace (now + - daysOld * JS.msPerDay)%Z with cutoff by (unfold cutoff; lia).
    now apply TimeClip_valid. }
  assert (Hkeep : forall rows : list MarketEvent,
             filter (fun r => negb (created_at r <? cutoff)%Z) rows
             = filter (fun r => (cutoff <=? created_at r)%Z) rows).
  { intros rows. apply filter_ext. intros r.
    destruct (Z.ltb_spec (created_at r) cutoff), (Z.leb_spec cutoff (created_at r));
      simpl; (reflexivity || lia). }
  unfold deleteOldEvents. rewrite Hcut.
  rewrite (delete_where_served db _ H1), Hkeep.
  eexists. split; [reflexivity|]. split; [reflexivity|].
  match goal with
  | |- context [delete_where ?d _] =>
      assert (Hs : served 1 d) by exact H2; rewrite (delete_where_served d _ Hs)
  end.
  cbn [market_events with_rows].
  set (kept := filter (fun r => (cutoff <=? created_at r)%Z) (market_events db)).
  assert (E1 : filter (fun r => (created_at r <? cutoff)%Z) kept = []).
  { apply filter_none. intros r Hr. apply filter_In in Hr. destruct Hr as [_ Hr].
    apply Z.leb_le in Hr. now apply Z.ltb_ge. }
  assert (E2 : filter (fun r => negb (created_at r <? cutoff)%Z) kept = kept).
  { apply filter_all. intros r Hr. apply filter_In in Hr. destruct Hr as [_ Hr].
    apply Z.leb_le in Hr. apply negb_true_iff, Z.ltb_ge. exact Hr. }
  rewrite E1, E2. reflexivity.
Qed.

(** The clock reads 3 March 2025, 12:00 UTC; thirty days back is
    1 February, across the 28 days of February.  The row of 31 January
    goes, the row of 2 February stays. *)
Lemma old_events_deleted_witness :
  let january := {| id := 0; fields := Sample.first;
                    created_at := 1738324800000; updated_at := 1738324800000 |} in
  let february := {| id := 1; fields := cpi;
                     created_at := 1738497600000; updated_at := 1738497600000 |} in
  let db := {| market_events := [january; february]; failures := [];
               next_id := 2; now := 1741003200000 |} in
  (Z.abs (1741003200000 - 30 * JS.msPerDay) <= JS.maxTime)%Z
  /\ served 2 db
  /\ JS.toLocaleDateString (-18000000) (JS.Time (1741003200000 - 30 * JS.msPerDay))
     = "February 1, 2025"
  /\ exists db1,
       deleteOldEvents (-18000000) db (JS.Time 1741003200000) 30 = (Normal 1, db1)
       /\ market_events db1 = [february]
       /\ deleteOldEvents (-18000000) db1 (JS.Time 1741003200000) 30
          = (Normal 0, after_requests 1 db1).
Proof.
  intros january february db.
  assert (H1 : (Z.abs (1741003200000 - 30 * JS.msPerDay) <= JS.maxTime)%Z)
    by (vm_compute; discriminate).
  assert (H2 : served 2 db) by constructor.
  split; [exact H1|]. split; [exact H2|]. split; [reflexivity|].
  exact (old_events_deleted (-18000000) db 1741003200000 30 H1 H2).
Defined.

End Records.

(** ** Single creations and the existence check *)

Section Creations.
Import MarketEventsService MarketEventsRecords.

Lemma createEvent_served (db : Supabase) (c : CreateMarketEvent) :
  served 1 db ->
  createEvent db c
  = (let row := {| id := next_id db; fields := c;
                   created_at := now db; updated_at := now db |} in
     (Normal row,
      {| market_events := (market_events db ++ [row])%list;
         failures := failures (after_requests 1 db);
         next_id := next_id db + 1;
         now := now db |})).
Proof.
  intros H. unfold createEvent, insert. now rewrite (request_served db H).
Qed.

Lemma matches_fields (c : CreateMarketEvent) (r : MarketEvent) :
  fields r = c -> matches (event c) (date c) r = true.
Proof. intros <-. unfold matches. now rewrite !String.eqb_refl. Qed.

(** X20. [createEvent] does not look for an existing record.  Creating
    the same candidate twice leaves two rows with its event and date;
    the existence check of [createEvents] then gets two rows where it asks
    for one, takes the candidate as not found, and a third row is
    created. *)
Theorem single_creations_defeat_the_check (db : Supabase) (c : CreateMarketEvent) :
  (forall r, In r (market_events db) -> matches (event c) (date c) r = false) ->
  served 4 db ->
  exists r1 db1 r2 db2 r3 db3,
    createEvent db c = (Normal r1, db1)
    /\ createEvent db1 c = (Normal r2, db2)
    /\ filter (matches (event c) (date c)) (market_events db2) = [r1; r2]
    /\ createEvents db2 [c] = (Normal {| created := [r3]; skipped := 0 |}, db3)
    /\ market_events db3 = (market_events db ++ [r1; r2; r3])%list
    /\ fields r1 = c /\ fields r2 = c /\ fields r3 = c.
Proof.
  intros Hnot Hserved.
  apply (served_add 1 3) in Hserved. destruct Hserved as [H1 Hserved].
  pose proof (createEvent_served db c H1) as E1. cbv zeta in E1.
  set (r1 := {| id := next_id db; fields := c;
                created_at := now db; updated_at := now db |}) in *.
  set (db1 := {| market_events := (market_events db ++ [r1])%list;
                 failures := failures (after_requests 1 db);
                 next_id := next_id db + 1; now := now db |}) in *.
  assert (Hs1 : served 3 db1) by exact Hserved.
  apply (served_add 1 2) in Hs1. destruct Hs1 as [H2 Hs1].
  pose proof (createEvent_served db1 c H2) as E2. cbv zeta in E2.
  set (r2 := {| id := next_id db1; fields := c;
                created_at := now db1; updated_at := now db1 |}) in *.
  set (db2 := {| market_events := (market_events db1 ++ [r2])%list;
                 failures := failures (after_requests 1 db1);
                 next_id := next_id db1 + 1; now := now db1 |}) in *.
  assert (Hs2 : served 2 db2) by exact Hs1.
  apply (served_add 1 1) in Hs2. destruct Hs2 as [H3 H4].
  assert (Hrows : filter (matches (event c) (date c)) (market_events db2) = [r1; r2]).
  { cbn [market_events db2 db1]. rewrite !filter_app, (filter_none _ _ Hnot).
    cbn [filter app]. now rewrite !(matches_fields c) by reflexivity. }
  assert (Hloop : checkDuplicates db2 [c] [] 0 = ([c], 0, after_requests 1 db2)).
  { rewrite (checkDuplicates_served [c] db2 H3). cbn [filter length].
    unfold held. now rewrite Hrows. }
  exists r1, db1, r2, db2.
  unfold createEvents. rewrite Hloop. cbn [length Nat.eqb].
  unfold insert. rewrite (request_served (after_requests 1 db2) H4).
  cbn [number_rows length].
  eexists. eexists.
  split; [exact E1|]. split; [exact E2|]. split; [exact Hrows|].
  split; [reflexivity|].
  cbn [market_events after_requests db2 db1]. rewrite <- !app_assoc.
  repeat split.
Qed.

Lemma single_creations_defeat_the_check_witness :
  exists r1 db1 r2 db2 r3 db3,
    createEvent (Sample.store [] []) cpi = (Normal r1, db1)
    /\ createEvent db1 cpi = (Normal r2, db2)
    /\ filter (matches (event cpi) (date cpi)) (market_events db2) = [r1; r2]
    /\ createEvents db2 [cpi] = (Normal {| created := [r3]; skipped := 0 |}, db3)
    /\ market_events db3 = (market_events (Sample.store [] []) ++ [r1; r2; r3])%list
    /\ fields r1 = cpi /\ fields r2 = cpi /\ fields r3 = cpi.
Proof.
  apply (single_creations_defeat_the_check (Sample.store [] []) cpi).
  - intros r [].
  - constructor.
Defined.

End Creations.

(** ** The health check *)

(** X21. [testSupabaseConnection] never throws, so [GET /health] never
    answers 503: whatever happens to the request to the store, the answer
    is 200 with the status [healthy]; only the field of the database tells
    a served request from one that failed. *)
Theorem health_never_unhealthy (db : MarketEventsService.Supabase) :
  fst (Health.health db)
  = {| Health.code := 200; Health.status := "healthy";
       Health.database :=
         Some (match fst (MarketEventsService.request db) with
               | None => "healthy"
               | Some _ => "unhealthy"
               end) |}
  /\ MarketEventsService.market_events (snd (Health.health db))
     = MarketEventsService.market_events db.
Proof.
  unfold Health.health, Health.testSupabaseConnection.
  pose proof (request_table db) as Ht.
  destruct (MarketEventsService.request db) as [[[code message|e]|] db'];
    simpl in *; now split.
Qed.

(** ** Listings *)

Section Listings.
Import MarketEventsService MarketEventsQueries.

Lemma place_perm (r : MarketEvent) (l : list MarketEvent) :
  Permutation (place r l) (r :: l).
Proof.
  induction l as [|x l IH]; simpl; [reflexivity|].
  destruct (created_at x <=? created_at r)%Z; [reflexivity|].
  rewrite IH. apply perm_swap.
Qed.

Lemma newest_first_perm (l : list MarketEvent) : Permutation (newest_first l) l.
Proof.
  induction l as [|r l IH]; simpl; [reflexivity|].
  rewrite place_perm. now constructor.
Qed.

Lemma place_sorted (r : MarketEvent) (l : list MarketEvent) :
  newer_first l -> newer_first (place r l).
Proof.
  unfold newer_first. induction l as [|x l IH]; simpl; intros H.
  - repeat constructor.
  - inversion H as [|? ? Hl Hx]; subst.
    destruct (Z.leb_spec (created_at x) (created_at r)).
    + constructor; [exact H|]. constructor; [lia|].
      eapply Forall_impl; [|exact Hx]. cbn beta. intros a Ha. lia.
    + constructor; [now apply IH|].
      rewrite place_perm. constructor; [lia | exact Hx].
Qed.

Lemma newest_first_sorted (l : list MarketEvent) : newer_first (newest_first l).
Proof.
  induction l as [|r l IH]; simpl; [constructor | now apply place_sorted].
Qed.

Lemma newer_first_filter (p : MarketEvent -> bool) (l : list MarketEvent) :
  newer_first l -> newer_first (filter p l).
Proof.
  unfold newer_first. induction l as [|x l IH]; simpl; intros H; [constructor|].
  inversion H as [|? ? Hl Hx]; subst.
  destruct (p x); [|now apply IH]. constructor; [now apply IH|].
  apply Forall_forall. intros a Ha. apply filter_In in Ha.
  rewrite Forall_forall in Hx. now apply Hx.
Qed.

Lemma newer_first_skipn (n : nat) (l : list MarketEvent) :
  newer_first l -> newer_first (skipn n l).
Proof.
  unfold newer_first. revert l. induction n as [|n IH]; intros l H; [exact H|].
  destruct l as [|x l]; [constructor|]. simpl. apply IH. now inversion H.
Qed.

Lemma newer_first_firstn (n : nat) (l : list MarketEvent) :
  newer_first l -> newer_first (firstn n l).
Proof.
  unfold newer_first. revert l. induction n as [|n IH]; intros l H; [constructor|].
  destruct l as [|x l]; [constructor|]. simpl.
  inversion H as [|? ? Hl Hx]; subst. constructor; [now apply IH|].
  apply Forall_forall. intros a Ha. rewrite Forall_forall in Hx. apply Hx.
  rewrite <- (firstn_skipn n l). apply in_or_app. now left.
Qed.

Lemma filter_perm {A : Type} (p : A -> bool) (l l' : list A) :
  Permutation l l' -> Permutation (filter p l) (filter p l').
Proof.
  induction 1 as [|x l l' _ IH|x y l|l l' l'' _ IH1 _ IH2]; simpl.
  - constructor.
  - destruct (p x); [now constructor | exact IH].
  - destruct (p x), (p y); try reflexivity. apply perm_swap.
  - now transitivity (filter p l').
Qed.

Lemma In_firstn {A : Type} (n : nat) (l : list A) (x : A) :
  In x (firstn n l) -> In x l.
Proof.
  intros H. rewrite <- (firstn_skipn n l). apply in_or_app. now left.
Qed.

Lemma In_skipn {A : Type} (n : nat) (l : list A) (x : A) :
  In x (skipn n l) -> In x l.
Proof.
  intros H. rewrite <- (firstn_skipn n l). apply in_or_app. now right.
Qed.

Variable ilike : string -> string -> bool.

(** X15. What [getEvents] returns.  The total counts the rows of the
    table that pass the filters, whatever the limit and the offset.  The
    records returned are rows of the table that pass the filters, newer
    ones first, no more than the total.  Without a truthy limit and a
    truthy offset - also with the limit 0 - they are all the rows that pass;
    with a truthy limit they are at most that many, and with a truthy
    offset and no truthy limit at most ten.  A type and a significance
    that are left out, empty or [All], with a date left out or empty,
    let every row pass. *)
Theorem listing_is_filtered_and_ordered (db db' : Supabase)
    (options : Options.Options) (page : Page) :
  getEvents ilike db options = (Normal page, db') ->
  total page = length (filter (passes ilike options) (market_events db))
  /\ (forall r, In r (events page) ->
      In r (market_events db) /\ passes ilike options r = true)
  /\ newer_first (events page)
  /\ length (events page) <= total page
  /\ (positive (Options.limit options) = None ->
      positive (Options.offset options) = None ->
      Permutation (events page) (filter (passes ilike options) (market_events db)))
  /\ (forall l, positive (Options.limit options) = Some l ->
      length (events page) <= l)
  /\ (positive (Options.limit options) = None ->
      positive (Options.offset options) <> None ->
      length (events page) <= 10)
  /\ (In (Options.type options) [None; Some ""; Some "All"] ->
      In (Options.significance options) [None; Some ""; Some "All"] ->
      In (Options.date options) [None; Some ""] ->
      total page = length (market_events db)).
Proof.
  intros Hget.
  assert (Hall : In (Options.type options) [None; Some ""; Some "All"] ->
                 In (Options.significance options) [None; Some ""; Some "All"] ->
                 In (Options.date options) [None; Some ""] ->
                 filter (passes ilike options) (market_events db) = market_events db).
  { intros Ht Hs Hd. apply filter_all. intros r _. unfold passes.
    simpl in Ht, Hs, Hd.
    destruct Ht as [<-|[<-|[<-|[]]]], Hs as [<-|[<-|[<-|[]]]], Hd as [<-|[<-|[]]];
      reflexivity. }
  cut (total page = length (filter (passes ilike options) (market_events db))
       /\ (forall r, In r (events page) ->
           In r (market_events db) /\ passes ilike options r = true)
       /\ newer_first (events page)
       /\ length (events page) <= total page
       /\ (positive (Options.limit options) = None ->
           positive (Options.offset options) = None ->
           Permutation (events page)
             (filter (passes ilike options) (market_events db)))
       /\ (forall l, positive (Options.limit options) = Some l ->
           length (events page) <= l)
       /\ (positive (Options.limit options) = None ->
           positive (Options.offset options) <> None ->
           length (events page) <= 10)).
  { intros (H1 & H2 & H3 & H4 & H5 & H6 & H7).
    repeat (split; [assumption|]).
    intros Ht Hs Hd. rewrite H1. now rewrite Hall. }
  revert Hget.
  unfold getEvents, select_page.
  pose proof (request_table db) as Ht.
  destruct (request db) as [[f|] db1]; simpl in Ht.
  { destruct f; discriminate. }
  rewrite Ht. cbv zeta.
  set (matching := filter (passes ilike options) (newest_first (market_events db))).
  assert (Hperm : Permutation matching
                    (filter (passes ilike options) (market_events db)))
    by (apply filter_perm, newest_first_perm).
  assert (Hsorted : newer_first matching)
    by (apply newer_first_filter, newest_first_sorted).
  assert (Hin : forall r, In r matching ->
                  In r (market_events db) /\ passes ilike options r = true).
  { intros r Hr. apply filter_In in Hr. destruct Hr as [Hr Hp].
    split; [|exact Hp]. now apply (Permutation_in _ (newest_first_perm _)). }
  assert (Hlen : length matching
                 = length (filter (passes ilike options) (market_events db)))
    by now apply Permutation_length.
  destruct (positive (Options.offset options)) as [o|] eqn:Eo.
  - destruct (length matching <? o)%nat; [discriminate|].
    intros H. injection H as <- <-. cbn [events total].
    set (l := match positive (Options.limit options) with
              | Some l => l
              | None => 10
              end).
    assert (Hl : 1 <= l).
    { unfold l. destruct (Options.limit options) as [[|k]|]; simpl; lia. }
    replace (o + l - 1 - o + 1) with l by lia.
    split; [exact Hlen|]. split.
    + intros r Hr. apply Hin. eapply In_skipn, In_firstn, Hr.
    + split; [apply newer_first_firstn, newer_first_skipn, Hsorted|].
      split; [rewrite length_firstn, length_skipn; lia|].
      split; [discriminate|]. split.
      * intros l' Hl'. unfold l. rewrite Hl', length_firstn. lia.
      * intros Hnone _. unfold l. rewrite Hnone, length_firstn. lia.
  - intros H. injection H as <- <-. cbn [events total].
    split; [exact Hlen|].
    destruct (positive (Options.limit options)) as [l|] eqn:El.
    + split; [intros r Hr; apply Hin; eapply In_firstn, Hr|].
      split; [apply newer_first_firstn, Hsorted|].
      split; [rewrite length_firstn; lia|].
      split; [discriminate|]. split.
      * intros l' Hl'. injection Hl' as <-. rewrite length_firstn. lia.
      * discriminate.
    + split; [exact Hin|]. split; [exact Hsorted|]. split; [lia|].
      split; [intros _ _; exact Hperm|]. split; [discriminate|].
      intros _ H. now contradiction H.
Qed.

End Listings.

Lemma listing_is_filtered_and_ordered_witness :
  let old := {| MarketEventsService.id := 0; MarketEventsService.fields := Sample.first;
                MarketEventsService.created_at := 10;
                MarketEventsService.updated_at := 10 |} in
  let new := {| MarketEventsService.id := 1; MarketEventsService.fields := cpi;
                MarketEventsService.created_at := 20;
                MarketEventsService.updated_at := 20 |} in
  let db := {| MarketEventsService.market_events := [old; new];
               MarketEventsService.failures := [];
               MarketEventsService.next_id := 2; MarketEventsService.now := 30 |} in
  let options := {| MarketEventsQueries.Options.limit := Some 0;
                    MarketEventsQueries.Options.offset := None;
                    MarketEventsQueries.Options.type := Some "Economic";
                    MarketEventsQueries.Options.significance := Some "All";
                    MarketEventsQueries.Options.date := None |} in
  MarketEventsQueries.getEvents plain_search db options
  = (Normal {| MarketEventsQueries.events := [new; old];
               MarketEventsQueries.total := 2 |}, db)
  /\ newer_first [new; old]
  /\ Permutation [new; old]
       (filter (MarketEventsQueries.passes plain_search options) [old; new]).
Proof.
  intros old new db options. split; [reflexivity|].
  destruct (listing_is_filtered_and_ordered plain_search db db options
              {| MarketEventsQueries.events := [new; old];
                 MarketEventsQueries.total := 2 |} eq_refl)
    as (_ & _ & Hs & _ & Hp & _).
  split; [exact Hs|]. exact (Hp eq_refl eq_refl).
Defined.

(** ** The week filter of [getCurrentWeekEvents] *)

Section WeekFilter.
Import MarketEventsService MarketEventsQueries.

Lemma all_chars_app (p : ascii -> bool) (a b : string) :
  all_chars p (a ++ b) = all_chars p a && all_chars p b.
Proof.
  induction a as [|c a IH]; simpl; [reflexivity|]. now rewrite IH, andb_assoc.
Qed.

Lemma all_chars_impl (p q : ascii -> bool) (s : string) :
  (forall c, p c = true -> q c = true) ->
  all_chars p s = true -> all_chars q s = true.
Proof.
  intros Hpq. induction s as [|c s IH]; simpl; [reflexivity|].
  rewrite !andb_true_iff. intros [Hc Hs]. split; [now apply Hpq | now apply IH].
Qed.

Lemma lower_app (a b : string) : lower (a ++ b) = lower a ++ lower b.
Proof. induction a as [|c a IH]; simpl; [reflexivity|]. now rewrite IH. Qed.

Lemma lower_char_digit (c : ascii) : JS.is_digit c = true -> lower_char c = c.
Proof. destruct c as [[] [] [] [] [] [] [] []]; (reflexivity || discriminate). Qed.

Lemma lower_char_letter (c : ascii) : is_letter (lower_char c) = is_letter c.
Proof. destruct c as [[] [] [] [] [] [] [] []]; reflexivity. Qed.

Lemma letter_not_digit (c : ascii) : is_letter c = true -> JS.is_digit c = false.
Proof. destruct c as [[] [] [] [] [] [] [] []]; (reflexivity || discriminate). Qed.

Lemma letter_not_space (c : ascii) :
  is_letter c = true -> negb (c =? " ")%char = true.
Proof. destruct c as [[] [] [] [] [] [] [] []]; (reflexivity || discriminate). Qed.

Lemma digit_not_space (c : ascii) :
  JS.is_digit c = true -> negb (c =? " ")%char = true.
Proof. destruct c as [[] [] [] [] [] [] [] []]; (reflexivity || discriminate). Qed.

Lemma letter_plain (c : ascii) : is_letter c = true -> is_plain c = true.
Proof. unfold is_plain. now intros ->. Qed.

Lemma digit_plain (c : ascii) : JS.is_digit c = true -> is_plain c = true.
Proof. unfold is_plain. intros ->. now rewrite orb_true_r. Qed.

Lemma lower_digits (s : string) : all_chars JS.is_digit s = true -> lower s = s.
Proof.
  induction s as [|c s IH]; simpl; [reflexivity|].
  rewrite andb_true_iff. intros [Hc Hs]. now rewrite lower_char_digit, IH.
Qed.

Lemma lower_letters (s : string) :
  all_chars is_letter (lower s) = all_chars is_letter s.
Proof.
  induction s as [|c s IH]; simpl; [reflexivity|].
  now rewrite lower_char_letter, IH.
Qed.

Lemma lower_empty (s : string) : lower s = "" -> s = "".
Proof. now destruct s. Qed.

(** A text is cut at its first space in one way only. *)
Lemma first_space_unique (a : string) :
  forall a' b b',
    no_space a = true -> no_space a' = true ->
    a ++ " " ++ b = a' ++ " " ++ b' -> a = a' /\ b = b'.
Proof.
  unfold no_space.
  induction a as [|c a IH]; intros [|c' a'] b b'; simpl; intros Ha Ha' H.
  - injection H as ->. now split.
  - injection H as <- _. discriminate.
  - injection H as -> _. discriminate.
  - injection H as -> H. apply andb_true_iff in Ha, Ha'.
    destruct (IH a' b b') as [-> ->]; tauto.
Qed.

Lemma first_space (x : string) :
  no_space x = true
  \/ exists x1 x2, x = x1 ++ " " ++ x2 /\ no_space x1 = true.
Proof.
  unfold no_space. induction x as [|c x IH]; simpl; [now left|].
  destruct (Ascii.eqb_spec c " ") as [->|Hc].
  - right. exists "", x. now split.
  - destruct IH as [IH|(x1 & x2 & -> & H1)].
    + left. exact IH.
    + right. exists (String c x1), x2. split; [reflexivity|]. simpl.
      rewrite H1. now destruct (Ascii.eqb_spec c " ").
Qed.

Lemma no_space_app (a b : string) :
  no_space (a ++ b) = no_space a && no_space b.
Proof. apply all_chars_app. Qed.

Lemma append_last_inj (a b : string) (c d : ascii) :
  a ++ String c "" = b ++ String d "" -> a = b /\ c = d.
Proof.
  revert b. induction a as [|x a IH]; intros [|y b]; simpl; intros H.
  - now injection H.
  - injection H as -> H. now destruct b.
  - injection H as -> H. now destruct a.
  - injection H as -> H. destruct (IH b H) as [-> ->]. now split.
Qed.

Lemma ends_with_last (s : string) :
  s <> "" -> exists s0 c, s = s0 ++ String c "".
Proof.
  induction s as [|x s IH]; intros H; [contradiction|].
  destruct s as [|y s].
  - now exists "", x.
  - destruct IH as (s0 & c & E); [discriminate|].
    exists (String x s0), c. simpl. now rewrite E.
Qed.

Lemma all_chars_last (p : ascii -> bool) (s0 : string) (c : ascii) :
  all_chars p (s0 ++ String c "") = true -> p c = true.
Proof.
  rewrite all_chars_app. simpl. rewrite !andb_true_iff. tauto.
Qed.

Lemma day_number_cases (s : string) :
  day_number s ->
  exists d1, JS.is_digit d1 = true
    /\ (s = String d1 ""
        \/ exists d2, JS.is_digit d2 = true /\ s = String d1 (String d2 "")).
Proof.
  intros [Hd Hl]. destruct s as [|d1 [|d2 [|d3 s]]]; simpl in *; try lia.
  - exists d1. apply andb_true_iff in Hd. split; [tauto | now left].
  - exists d1. rewrite !andb_true_iff in Hd. split; [tauto|]. right.
    exists d2. split; [tauto | reflexivity].
Qed.

Lemma days_no_space (days : string) : days_text days -> no_space days = true.
Proof.
  assert (Hday : forall s, day_number s -> no_space s = true).
  { intros s [Hd _]. unfold no_space.
    eapply all_chars_impl; [|exact Hd]. exact digit_not_space. }
  intros [H|(a & b & -> & Ha & Hb)]; [now apply Hday|].
  rewrite !no_space_app, (Hday a Ha), (Hday b Hb). reflexivity.
Qed.

Lemma days_end (days : string) :
  days_text days -> exists s0 d, days = s0 ++ String d "" /\ JS.is_digit d = true.
Proof.
  assert (Hday : forall s, day_number s ->
                   exists s0 d, s = s0 ++ String d "" /\ JS.is_digit d = true).
  { intros s H. destruct (day_number_cases s H) as (d1 & H1 & [->|(d2 & H2 & ->)]).
    - now exists "", d1.
    - now exists (String d1 ""), d2. }
  intros [H|(a & b & -> & Ha & Hb)]; [now apply Hday|].
  destruct (Hday b Hb) as (s0 & d & -> & Hd).
  exists (a ++ "-" ++ s0), d. split; [|exact Hd].
  now rewrite !append_assoc.
Qed.

Lemma days_then_year (days rest y : string) (z : string) :
  days_text days ->
  all_chars JS.is_digit y = true -> 3 <= String.length y ->
  y ++ z <> days ++ " " ++ rest.
Proof.
  intros Hdays Hy Hlen E.
  destruct y as [|y1 [|y2 [|y3 y]]]; simpl in Hlen; try lia.
  simpl in Hy. rewrite !andb_true_iff in Hy. destruct Hy as (H1 & H2 & H3 & _).
  assert (Hday : forall s tail, day_number s ->
            String y1 (String y2 (String y3 (y ++ z))) = s ++ tail ->
            exists c r, tail = String c r /\ JS.is_digit c = true).
  { intros s tail Hs Es.
    destruct (day_number_cases s Hs) as (d1 & _ & [->|(d2 & _ & ->)]);
      simpl in Es.
    - injection Es as _ Es.
      exists y2. eexists. split; [symmetry; exact Es | exact H2].
    - injection Es as _ _ Es.
      exists y3. eexists. split; [symmetry; exact Es | exact H3]. }
  destruct Hdays as [Hd|(a & b & -> & Ha & _)].
  - destruct (Hday days (" " ++ rest) Hd E) as (c & r & Ec & Hc).
    simpl in Ec. injection Ec as <- _. discriminate.
  - rewrite !append_assoc in E.
    destruct (Hday a ("-" ++ b ++ " " ++ rest) Ha E) as (c & r & Ec & Hc).
    simpl in Ec. injection Ec as <- _. discriminate.
Qed.

(** A word, a space and a year of three digits or more do not occur in a
    date written as month, days and year. *)
Lemma month_year_not_in_date (p y month days year : string) :
  p <> "" -> all_chars is_letter p = true \/
             (exists p1 p2, p = p1 ++ "-" ++ p2
                /\ all_chars is_letter p1 = true
                /\ all_chars is_letter p2 = true /\ p2 <> "") ->
  all_chars JS.is_digit y = true -> 3 <= String.length y ->
  no_space month = true -> days_text days -> no_space year = true ->
  ~ occurs (p ++ " " ++ y) (month ++ " " ++ days ++ " " ++ year).
Proof.
  intros Hne Hp Hy Hlen Hmonth Hdays Hyear (x & z & E).
  assert (Hlet : forall s, all_chars is_letter s = true -> no_space s = true).
  { intros s Hs. unfold no_space. eapply all_chars_impl; [|exact Hs].
    exact letter_not_space. }
  assert (Hpsp : no_space p = true).
  { destruct Hp as [Hp|(p1 & p2 & -> & H1 & H2 & _)]; [now apply Hlet|].
    rewrite !no_space_app, (Hlet p1 H1), (Hlet p2 H2). reflexivity. }
  assert (Hpend : exists p0 c, p = p0 ++ String c "" /\ JS.is_digit c = false).
  { destruct Hp as [Hp|(p1 & p2 & -> & H1 & H2 & Hne2)].
    - destruct (ends_with_last p Hne) as (p0 & c & ->). exists p0, c.
      split; [reflexivity|]. apply letter_not_digit. now apply all_chars_last in Hp.
    - destruct (ends_with_last p2 Hne2) as (p0 & c & ->).
      exists (p1 ++ "-" ++ p0), c. split; [now rewrite !append_assoc|].
      apply letter_not_digit. now apply all_chars_last in H2. }
  assert (E' : month ++ " " ++ (days ++ " " ++ year)
               = (x ++ p) ++ " " ++ (y ++ z)).
  { rewrite E. now rewrite !append_assoc. }
  destruct (first_space x) as [Hx|(x1 & x2 & -> & Hx1)].
  - assert (Hxp : no_space (x ++ p) = true) by now rewrite no_space_app, Hx, Hpsp.
    destruct (first_space_unique month (x ++ p) _ _ Hmonth Hxp E') as [_ E2].
    exact (days_then_year days year y z Hdays Hy Hlen (eq_sym E2)).
  - assert (E1 : month ++ " " ++ (days ++ " " ++ year)
                 = x1 ++ " " ++ ((x2 ++ p) ++ " " ++ (y ++ z))).
    { rewrite E'. now rewrite !append_assoc. }
    destruct (first_space_unique month x1 _ _ Hmonth Hx1 E1) as [_ E2].
    destruct (first_space x2) as [Hx2|(x3 & x4 & -> & Hx3)].
    + assert (Hxp : no_space (x2 ++ p) = true)
        by now rewrite no_space_app, Hx2, Hpsp.
      destruct (first_space_unique days (x2 ++ p) _ _ (days_no_space _ Hdays)
                  Hxp E2) as [E3 _].
      destruct (days_end days Hdays) as (s0 & d & Ed & Hd).
      destruct Hpend as (p0 & c & Ep & Hc).
      rewrite Ed, Ep, <- append_assoc in E3.
      apply append_last_inj in E3. destruct E3 as [_ <-].
      rewrite Hd in Hc. discriminate.
    + assert (E3 : days ++ " " ++ year
                   = x3 ++ " " ++ ((x4 ++ p) ++ " " ++ (y ++ z))).
      { rewrite E2. now rewrite !append_assoc. }
      destruct (first_space_unique days x3 _ _ (days_no_space _ Hdays) Hx3 E3)
        as [_ E4].
      rewrite E4, !no_space_app in Hyear. simpl in Hyear.
      rewrite andb_false_r in Hyear. discriminate.
Qed.

(** *** The text of a year *)

Lemma string_of_uint_digits (d : Decimal.uint) :
  all_chars JS.is_digit (NilEmpty.string_of_uint d) = true.
Proof. induction d; simpl; (reflexivity || exact IHd). Qed.

Lemma decimal_digits (n : N) : all_chars JS.is_digit (JS.decimal n) = true.
Proof.
  unfold JS.decimal, NilZero.string_of_uint.
  destruct (N.to_uint n) eqn:E; try reflexivity;
    rewrite <- E; rewrite E; apply (string_of_uint_digits).
Qed.

Lemma decimal_long (n : N) : (100 <= n)%N -> 3 <= String.length (JS.decimal n).
Proof.
  intros Hn. unfold JS.decimal.
  pose proof (DecimalN.Unsigned.of_to n) as Hof.
  destruct (N.to_uint n) as [|d|d|d|d|d|d|d|d|d|d];
    [rewrite <- Hof in Hn; vm_compute in Hn; exfalso; now apply Hn | ..];
    (destruct d as [|e|e|e|e|e|e|e|e|e|e];
     [rewrite <- Hof in Hn; vm_compute in Hn; exfalso; now apply Hn | ..];
     (destruct e;
      [rewrite <- Hof in Hn; vm_compute in Hn; exfalso; now apply Hn | ..];
      simpl; lia)).
Qed.

Lemma MonthFromTime_range (t : Z) : (0 <= JS.MonthFromTime t <= 11)%Z.
Proof.
  unfold JS.MonthFromTime, JS.civil_from_days. cbv zeta. cbn [fst snd].
  set (z' := (JS.Day t + 719468)%Z).
  set (doe := (z' mod 146097)%Z).
  assert (Hdoe : (0 <= doe < 146097)%Z) by (apply Z.mod_pos_bound; lia).
  set (c := Z.min (doe / 36524) 3).
  set (r1 := (doe - 36524 * c)%Z).
  set (q := Z.min (r1 / 1461) 24).
  set (r2 := (r1 - 1461 * q)%Z).
  set (a := Z.min (r2 / 365) 3).
  set (doy := (r2 - 365 * a)%Z).
  assert (Hr1 : (0 <= r1 <= 36524)%Z)
    by (unfold r1, c; Z.to_euclidean_division_equations; lia).
  assert (Hr2 : (0 <= r2 <= 1460)%Z)
    by (unfold r2, q; Z.to_euclidean_division_equations; lia).
  assert (Hdoy : (0 <= doy <= 365)%Z)
    by (unfold doy, a; Z.to_euclidean_division_equations; lia).
  set (mp := ((5 * doy + 2) / 153)%Z).
  assert (Hmp : (0 <= mp <= 11)%Z)
    by (unfold mp; Z.to_euclidean_division_equations; lia).
  destruct (mp <? 10)%Z eqn:E; [apply Z.ltb_lt in E | apply Z.ltb_ge in E]; lia.
Qed.

Lemma lower_days (days : string) : days_text days -> lower days = days.
Proof.
  assert (Hday : forall s, day_number s -> lower s = s)
    by (intros s [Hs _]; now apply lower_digits).
  intros [H|(a & b & -> & Ha & Hb)]; [now apply Hday|].
  rewrite !lower_app, (Hday a Ha), (Hday b Hb). reflexivity.
Qed.

Lemma days_plain (days : string) : days_text days -> all_chars is_plain days = true.
Proof.
  assert (Hday : forall s, day_number s -> all_chars is_plain s = true).
  { intros s [Hs _]. eapply all_chars_impl; [|exact Hs]. exact digit_plain. }
  intros [H|(a & b & -> & Ha & Hb)]; [now apply Hday|].
  rewrite !all_chars_app, (Hday a Ha), (Hday b Hb). reflexivity.
Qed.

Lemma prompt_date_plain (s : string) : prompt_date s -> all_chars is_plain s = true.
Proof.
  intros (month & days & year & -> & Hm & Hd & Hy).
  rewrite !all_chars_app, (days_plain days Hd).
  rewrite (all_chars_impl _ _ month letter_plain Hm).
  rewrite (all_chars_impl _ _ year digit_plain Hy). reflexivity.
Qed.

Variable ilike : string -> string -> bool.
Variable LocalTZA : Z.
Variable longMonth : Z -> string.

(** The text of the filter: a month name, or two with a hyphen between
    them, and the year. *)
Lemma dateFilter_form (now : Z) :
  months_are_words longMonth ->
  (- JS.maxTime + 6 * JS.msPerDay <= now <= JS.maxTime - 6 * JS.msPerDay)%Z ->
  (100 <= JS.YearFromTime
            (JS.LocalTime LocalTZA
               (now - JS.WeekDay (JS.LocalTime LocalTZA now) * JS.msPerDay)))%Z ->
  exists p y,
    dateFilter LocalTZA longMonth (JS.Time now) = p ++ " " ++ y
    /\ p <> ""
    /\ (all_chars is_letter p = true
        \/ exists p1 p2, p = p1 ++ "-" ++ p2
             /\ all_chars is_letter p1 = true
             /\ all_chars is_letter p2 = true /\ p2 <> "")
    /\ all_chars JS.is_digit y = true
    /\ 3 <= String.length y.
Proof.
  intros Hmonths Hnow Hyear.
  pose proof (WeekDay_range (JS.LocalTime LocalTZA now)) as Hw.
  set (start := (now - JS.WeekDay (JS.LocalTime LocalTZA now) * JS.msPerDay)%Z) in *.
  unfold dateFilter. cbv zeta.
  rewrite getCurrentWeekStart_time. fold start.
  rewrite (TimeClip_valid start)
    by (unfold start, JS.maxTime, JS.msPerDay in *; lia).
  cbn [JS.getDate option_map]. rewrite setDate_relative.
  rewrite (TimeClip_valid (start + 6 * JS.msPerDay))
    by (unfold start, JS.maxTime, JS.msPerDay in *; lia).
  unfold monthName, fullYear.
  set (m1 := longMonth (JS.MonthFromTime (JS.LocalTime LocalTZA start))).
  set (m2 := longMonth
               (JS.MonthFromTime (JS.LocalTime LocalTZA (start + 6 * JS.msPerDay)))).
  destruct (Hmonths _ (MonthFromTime_range (JS.LocalTime LocalTZA start)))
    as [Hne1 Hl1].
  destruct (Hmonths _ (MonthFromTime_range
                         (JS.LocalTime LocalTZA (start + 6 * JS.msPerDay))))
    as [Hne2 Hl2].
  fold m1 in Hne1, Hl1. fold m2 in Hne2, Hl2.
  set (y := JS.YearFromTime (JS.LocalTime LocalTZA start)) in *.
  replace (y <? 0)%Z with false by (symmetry; apply Z.ltb_ge; lia).
  assert (Hd : all_chars JS.is_digit (JS.decimal (Z.to_N y)) = true)
    by apply decimal_digits.
  assert (Hlen : 3 <= String.length (JS.decimal (Z.to_N y)))
    by (apply decimal_long; lia).
  destruct (m1 =? m2).
  - exists m1, (JS.decimal (Z.to_N y)). repeat split; try assumption. now left.
  - exists (m1 ++ "-" ++ m2), (JS.decimal (Z.to_N y)).
    split; [now rewrite !append_assoc|].
    split; [destruct m1; [contradiction | discriminate]|].
    split; [|split; assumption].
    right. exists m1, m2. repeat split; assumption.
Qed.

(** A listing by date alone: every row whose date matches, newest first. *)
Lemma getEvents_by_date (db : Supabase) (f : string) :
  f <> "" ->
  served 1 db ->
  getEvents ilike db
    {| Options.limit := None; Options.offset := None; Options.type := None;
       Options.significance := None; Options.date := Some f |}
  = (let matching :=
       filter (fun r => ilike (date (fields r)) ("%" ++ f ++ "%"))
         (newest_first (market_events db)) in
     (Normal {| events := matching; total := length matching |},
      after_requests 1 db)).
Proof.
  intros Hf Hserved. unfold getEvents, select_page.
  rewrite (request_served db Hserved).
  destruct f as [|c f]; [contradiction|]. reflexivity.
Qed.

Lemma not_in_prompt_date (p y s : string) :
  p <> "" ->
  (all_chars is_letter p = true
   \/ exists p1 p2, p = p1 ++ "-" ++ p2
        /\ all_chars is_letter p1 = true
        /\ all_chars is_letter p2 = true /\ p2 <> "") ->
  all_chars JS.is_digit y = true -> 3 <= String.length y ->
  prompt_date s ->
  ~ occurs (lower (p ++ " " ++ y)) (lower s).
Proof.
  intros Hne Hp Hy Hlen (month & days & year & -> & Hm & Hd & Hyr).
  rewrite !lower_app.
  rewrite (lower_digits y Hy), (lower_digits year Hyr), (lower_days days Hd).
  change (lower " ") with " ".
  apply month_year_not_in_date.
  - intros E. apply lower_empty in E. contradiction.
  - destruct Hp as [Hp|(p1 & p2 & -> & H1 & H2 & Hne2)].
    + left. now rewrite lower_letters.
    + right. exists (lower p1), (lower p2). rewrite !lower_app, !lower_letters.
      split; [reflexivity|]. split; [exact H1|]. split; [exact H2|].
      intros E. apply lower_empty in E. contradiction.
  - exact Hy.
  - exact Hlen.
  - unfold no_space. eapply all_chars_impl; [exact letter_not_space|].
    now rewrite lower_letters.
  - exact Hd.
  - unfold no_space. eapply all_chars_impl; [exact digit_not_space | exact Hyr].
Qed.

Lemma filter_text_plain (p y : string) :
  (all_chars is_letter p = true
   \/ exists p1 p2, p = p1 ++ "-" ++ p2
        /\ all_chars is_letter p1 = true
        /\ all_chars is_letter p2 = true /\ p2 <> "") ->
  all_chars JS.is_digit y = true ->
  all_chars is_plain (p ++ " " ++ y) = true.
Proof.
  intros Hp Hy.
  rewrite !all_chars_app, (all_chars_impl _ _ y digit_plain Hy).
  destruct Hp as [Hp|(p1 & p2 & -> & H1 & H2 & _)].
  - now rewrite (all_chars_impl _ _ p letter_plain Hp).
  - rewrite !all_chars_app, (all_chars_impl _ _ p1 letter_plain H1),
      (all_chars_impl _ _ p2 letter_plain H2). reflexivity.
Qed.

(** X16. [getCurrentWeekEvents] searches the dates for the text made of
    the month name of the week (or the two month names with a hyphen
    between them) followed by the year.  Whatever the current week, no
    date written as the prompt asks - month, day or range of days, year,
    as in [December 1 2025] or [December 1-3 2025] - contains that text:
    such a record is never among the events returned.  ILIKE is taken to
    search plain text without regard to case, the month names of the host
    to be words of letters, the week to lie in the range of Date and to
    start in a year of three digits or more. *)
Theorem current_week_misses_prompt_dates (db : Supabase) (now : Z) :
  searches_plain_text ilike ->
  months_are_words longMonth ->
  (- JS.maxTime + 6 * JS.msPerDay <= now <= JS.maxTime - 6 * JS.msPerDay)%Z ->
  (100 <= JS.YearFromTime
            (JS.LocalTime LocalTZA
               (now - JS.WeekDay (JS.LocalTime LocalTZA now) * JS.msPerDay)))%Z ->
  served 1 db ->
  exists events,
    getCurrentWeekEvents ilike LocalTZA longMonth db (JS.Time now)
    = (Normal events, after_requests 1 db)
    /\ Forall (fun r => ~ prompt_date (date (fields r))) events.
Proof.
  intros Hilike Hmonths Hnow Hyear Hserved.
  destruct (dateFilter_form now Hmonths Hnow Hyear)
    as (p & y & Ef & Hne & Hp & Hy & Hlen).
  unfold getCurrentWeekEvents. rewrite Ef. clear Ef Hnow Hyear.
  assert (Hf : p ++ " " ++ y <> "") by (destruct p; [contradiction | discriminate]).
  rewrite (getEvents_by_date db _ Hf Hserved). cbv zeta. cbn [events].
  eexists. split; [reflexivity|].
  apply Forall_forall. intros r Hr Hdate.
  apply filter_In in Hr. destruct Hr as [_ Hpass].
  rewrite (Hilike _ _ (prompt_date_plain _ Hdate) (filter_text_plain p y Hp Hy))
    in Hpass.
  apply contains_sound in Hpass.
  exact (not_in_prompt_date p y _ Hne Hp Hy Hlen Hdate Hpass).
Qed.

End WeekFilter.

Lemma without_last_app (p : string) (c : ascii) : without_last (p ++ String c "") = p.
Proof.
  induction p as [|x p IH]; [reflexivity|].
  simpl. destruct (p ++ String c "") eqn:E.
  - now destruct p.
  - now rewrite IH.
Qed.

Lemma plain_search_searches : searches_plain_text plain_search.
Proof.
  intros text p _ _. unfold plain_search. simpl. now rewrite without_last_app.
Qed.

Lemma englishMonth_words : months_are_words englishMonth.
Proof.
  intros m Hm.
  assert (H : (m = 0 \/ m = 1 \/ m = 2 \/ m = 3 \/ m = 4 \/ m = 5 \/ m = 6
               \/ m = 7 \/ m = 8 \/ m = 9 \/ m = 10 \/ m = 11)%Z) by lia.
  repeat (destruct H as [->|H]); try subst m; split; (discriminate || reflexivity).
Qed.

(** Wednesday 3 December 2025: the week runs from 30 November to
    6 December, the filter is [November-December 2025], and the records
    of 1 December and 10 December 2025 are not returned. *)
Lemma current_week_misses_prompt_dates_witness :
  let db := Sample.store [Sample.row 0 Sample.first; Sample.row 1 cpi] [] in
  MarketEventsQueries.dateFilter 0 englishMonth (JS.Time 1764747200000)
  = "November-December 2025"
  /\ MarketEventsQueries.getCurrentWeekEvents plain_search 0 englishMonth db
       (JS.Time 1764747200000)
     = (Normal [], db)
  /\ exists events,
       MarketEventsQueries.getCurrentWeekEvents plain_search 0 englishMonth db
         (JS.Time 1764747200000)
       = (Normal events, after_requests 1 db)
       /\ Forall (fun r => ~ prompt_date (MarketEventsService.date
                                             (MarketEventsService.fields r)))
            events.
Proof.
  intros db. split; [reflexivity|]. split; [reflexivity|].
  apply (current_week_misses_prompt_dates plain_search 0 englishMonth db
           1764747200000 plain_search_searches englishMonth_words).
  - split; vm_compute; discriminate.
  - vm_compute. discriminate.
  - constructor.
Defined.

(** ** The providers *)

Section Providers.
Import JS AIProviders.

Variable generateContent : string -> string -> Completion string.
Variable fetch : Request -> Completion Response.

Lemma or_default_nonempty (value : option string) (fallback : string) :
  fallback <> "" ->
  or_default (Some (or_default value fallback)) "gemini-1.5-pro-latest"
  = or_default value fallback.
Proof.
  intros H. destruct value as [[|c r]|]; simpl;
    destruct fallback; (contradiction || reflexivity).
Qed.

(** X17. A service configured for Gemini.  The model asked of the library
    is [AI_MODEL] when it is set and not empty and [grok-4-fast] otherwise:
    the fallback [gemini-1.5-pro-latest] of [callGemini] is never used.
    [callAI] returns the text of the answer, which is a non-empty string,
    with no citations, so that no candidate parsed from it carries
    citations; an empty answer is an error. *)
Theorem configured_for_gemini (env : Env) (service : Service) (prompt : string) :
  constructor env = Normal service ->
  provider (config service) = "gemini" ->
  callAI generateContent fetch service prompt
  = (text <- generateContent (or_default (AI_MODEL env) "grok-4-fast") prompt ;;
     if text =? "" then Throw (Error "Empty response from Gemini")
     else Normal (Str text, []))
  /\ forall content citations,
       callAI generateContent fetch service prompt = Normal (content, citations) ->
       citations = []
       /\ exists text,
            content = Str text /\ text <> ""
            /\ forall events,
                 AIService.parseAIResponse text [] = Normal events ->
                 Forall (fun ev => AIService.citations ev = None) events.
Proof.
  intros Hnew Hprovider.
  assert (Hcall : callAI generateContent fetch service prompt
                  = (text <- generateContent
                               (or_default (AI_MODEL env) "grok-4-fast") prompt ;;
                     if text =? "" then Throw (Error "Empty response from Gemini")
                     else Normal (Str text, []))).
  { unfold callAI, callGemini. rewrite Hprovider. cbn [String.eqb Ascii.eqb Bool.eqb].
    unfold constructor in Hnew.
    destruct (AI_API_KEY env) as [[|c r]|]; try discriminate.
    injection Hnew as <-. cbn [config provider geminiClient model] in *.
    rewrite Hprovider. cbn [String.eqb Ascii.eqb Bool.eqb negb].
    rewrite or_default_nonempty by discriminate.
    destruct (generateContent (or_default (AI_MODEL env) "grok-4-fast") prompt)
      as [text|e]; simpl; [|reflexivity].
    now destruct (text =? ""). }
  split; [exact Hcall|].
  intros content citations H. rewrite Hcall in H.
  destruct (generateContent (or_default (AI_MODEL env) "grok-4-fast") prompt)
    as [text|e]; simpl in H; [|discriminate].
  destruct (String.eqb_spec text "") as [|Hne]; [discriminate|].
  injection H as <- <-. split; [reflexivity|].
  exists text. split; [reflexivity|]. split; [exact Hne|].
  intros events Hparse. apply parse_Normal in Hparse.
  destruct Hparse as (span & parsed & _ & _ & ->).
  apply Forall_forall. intros ev Hev. apply survivors_In in Hev.
  destruct Hev as (e & _ & Hturn). apply turn_Push in Hturn.
  destruct Hturn as (props & _ & _ & _ & _ & _ & _ & _ & _ & _ & _ & Hc).
  exact Hc.
Qed.

(** X18. The constructor checks the key only.  With a key that is not
    empty it builds the service whatever the name of the provider; a name
    other than [gemini], [grok] and [xai] is refused later, by every call
    of the provider, before anything is sent. *)
Theorem unsupported_provider_fails_late (env : Env) (name key : string) :
  AI_PROVIDER env = Some name ->
  AI_API_KEY env = Some key ->
  key <> "" ->
  ~ In name [""; "gemini"; "grok"; "xai"] ->
  exists service,
    constructor env = Normal service
    /\ provider (config service) = name
    /\ forall prompt,
         callAI generateContent fetch service prompt
         = Throw (Error ("Unsupported AI provider: " ++ name)).
Proof.
  intros Hname Hkey Hne Hnot. unfold constructor. rewrite Hname, Hkey.
  destruct key as [|c r]; [contradiction|].
  assert (Hp : or_default (Some name) "xai" = name).
  { destruct name; [|reflexivity]. exfalso. apply Hnot. now left. }
  rewrite Hp. eexists. split; [reflexivity|]. split; [reflexivity|].
  intros prompt. unfold callAI. cbn [config provider].
  destruct (String.eqb_spec name "gemini") as [->|_];
    [exfalso; apply Hnot; simpl; tauto|].
  destruct (String.eqb_spec name "grok") as [->|_];
    [exfalso; apply Hnot; simpl; tauto|].
  destruct (String.eqb_spec name "xai") as [->|_];
    [exfalso; apply Hnot; simpl; tauto|].
  reflexivity.
Qed.

Lemma find_message_first (before after : list Value)
    (props : list (string * Value)) :
  Forall passed_over before ->
  is_string (lookup props "type") "message" = true ->
  ToBoolean (lookup props "content") = true ->
  find_message (before ++ Object props :: after) = Normal (Object props).
Proof.
  intros Hbefore Htype Hcontent.
  induction Hbefore as [|item before (iprops & -> & Hitem) _ IH]; simpl.
  - now rewrite Htype, Hcontent.
  - apply andb_false_iff in Hitem.
    destruct (is_string (lookup iprops "type") "message"); [|exact IH].
    destruct Hitem as [Hitem|Hitem]; [discriminate|]. now rewrite Hitem.
Qed.

Lemma url_citations_objects (annotations : list (list (string * Value))) :
  url_citations (map Object annotations)
  = Normal (map Object
              (filter (fun props => is_string (lookup props "type") "url_citation")
                 annotations)).
Proof.
  induction annotations as [|props l IH]; simpl; [reflexivity|].
  rewrite IH. simpl.
  now destruct (is_string (lookup props "type") "url_citation").
Qed.

Lemma urls_objects (annotations : list (list (string * Value))) :
  urls (map Object annotations)
  = Normal (map (fun props => lookup props "url") annotations).
Proof.
  induction annotations as [|props l IH]; simpl; [reflexivity|]. now rewrite IH.
Qed.

(** X19. What [callGrok] takes from an answer.  The content is the text
    of the first part of the first item of [output] that is a message with
    content; the citations are the urls of the annotations of that part
    whose type is [url_citation], in their order.  The items after that
    message, the other parts of its content and the annotations of other
    types change nothing. *)
Theorem grok_reads_first_message (config : AIConfig) (prompt : string)
    (response : Response) (data : Value) (before after parts : list Value)
    (message part : list (string * Value)) (text : string)
    (annotations : list (list (string * Value))) :
  fetch (request config prompt) = Normal response ->
  ok response = true ->
  json response = Normal data ->
  Get data "output" = Normal (Array (before ++ Object message :: after)) ->
  Forall passed_over before ->
  lookup message "type" = Str "message" ->
  lookup message "content" = Array (Object part :: parts) ->
  lookup part "text" = Str text ->
  text <> "" ->
  lookup part "annotations" = Array (map Object annotations) ->
  callGrok fetch config prompt = Normal (Str text, cited annotations).
Proof.
  intros Hfetch Hok Hjson Houtput Hbefore Htype Hcontent Htext Hne Hann.
  unfold callGrok. rewrite Hfetch. cbn [bind]. rewrite Hok. cbn [negb].
  rewrite Hjson. cbn [bind]. rewrite Houtput. cbn [bind optional_array_call].
  rewrite (find_message_first before after message Hbefore)
    by (rewrite ?Htype, ?Hcontent; reflexivity).
  cbn [bind optional_get Get]. rewrite Hcontent.
  cbn [bind first_element nth optional_get Get]. rewrite Htext.
  assert (Htruthy : ToBoolean (Str text) = true)
    by (destruct text; [contradiction | reflexivity]).
  rewrite Htruthy. cbn [negb bind]. rewrite Htruthy. cbn [negb].
  rewrite Hann. cbn [bind optional_array_call].
  rewrite url_citations_objects. cbn [bind]. rewrite urls_objects.
  reflexivity.
Qed.

End Providers.

Lemma configured_for_gemini_witness :
  let env := {| AIProviders.AI_PROVIDER := Some "gemini";
                AIProviders.AI_API_KEY := Some "key";
                AIProviders.AI_MODEL := None |} in
  let service :=
    {| AIProviders.config := {| AIProviders.provider := "gemini";
                                AIProviders.apiKey := "key";
                                AIProviders.model := "grok-4-fast" |};
       AIProviders.geminiClient := true |} in
  let generateContent := fun model (_ : string) =>
    if model =? "grok-4-fast" then Normal Sample.cited_answer
    else Throw (Error "unknown model") in
  AIProviders.constructor env = Normal service
  /\ AIProviders.callAI generateContent (fun _ => Throw (Error "offline")) service
       "prompt"
     = Normal (JS.Str Sample.cited_answer, []).
Proof.
  intros env service generateContent. split; [reflexivity|].
  exact (proj1 (configured_for_gemini generateContent
                  (fun _ => Throw (Error "offline")) env service "prompt"
                  eq_refl eq_refl)).
Defined.

Lemma unsupported_provider_fails_late_witness :
  let env := {| AIProviders.AI_PROVIDER := Some "openai";
                AIProviders.AI_API_KEY := Some "key";
                AIProviders.AI_MODEL := None |} in
  exists service,
    AIProviders.constructor env = Normal service
    /\ AIProviders.provider (AIProviders.config service) = "openai"
    /\ forall prompt,
         AIProviders.callAI (fun _ _ => Normal "[]") (answering grok_answer)
           service prompt
         = Throw (Error ("Unsupported AI provider: " ++ "openai")).
Proof.
  intros env.
  apply (unsupported_provider_fails_late (fun _ _ => Normal "[]")
           (answering grok_answer) env "openai" "key");
    try reflexivity; [discriminate|].
  simpl. intuition discriminate.
Defined.

Lemma grok_reads_first_message_witness :
  let config := {| AIProviders.provider := "xai"; AIProviders.apiKey := "key";
                   AIProviders.model := "grok-4-fast" |} in
  AIProviders.callGrok (answering grok_answer) config "prompt"
  = Normal (JS.Str "[1] see the calendar",
            cited [[("type", JS.Str "url_citation"); ("url", JS.Str "https://a.example")];
                   [("type", JS.Str "file_citation"); ("url", JS.Str "https://b.example")];
                   [("type", JS.Str "url_citation"); ("url", JS.Str "https://c.example")]])
  /\ cited [[("type", JS.Str "url_citation"); ("url", JS.Str "https://a.example")];
            [("type", JS.Str "file_citation"); ("url", JS.Str "https://b.example")];
            [("type", JS.Str "url_citation"); ("url", JS.Str "https://c.example")]]
     = [JS.Str "https://a.example"; JS.Str "https://c.example"].
Proof.
  intros config. split; [|reflexivity].
  eapply (grok_reads_first_message (answering grok_answer) config "prompt" _
            grok_answer
            [JS.Object [("type", JS.Str "reasoning"); ("content", JS.Array [])]]).
  - reflexivity.
  - reflexivity.
  - reflexivity.
  - reflexivity.
  - repeat constructor. eexists. split; reflexivity.
  - reflexivity.
  - reflexivity.
  - reflexivity.
  - discriminate.
  - reflexivity.
Defined.
